(** * Live-Weather: a shallow embedding of [main.py]

    The bot relays a city name or a shared location to the weather
    provider and renders the JSON answer as text.  This file embeds the
    helpers of [main.py] ([icon_for], [fmt_time], the three provider
    calls, [format_current_weather], [format_forecast]), its five
    handlers ([start], [help_cmd], [weather_cmd], [handle_location],
    [unknown]) and the handler table of [main], and proves the
    properties the specification states about them.

    Conventions of the embedding.
    - A Python [str] is a [string] holding its UTF-8 bytes.  Substring
      search on well-formed UTF-8 agrees with substring search on code
      points.  The case mappings [str.lower] and [str.title] follow the
      Unicode tables and are parameters of the program; their
      restrictions to ASCII text are given for the sample runs.
    - A JSON document is a [json] tree; a [dict] is an association list in
      insertion order, looked up by its first binding of a key.  A JSON
      number is an [int] of any size or a [float], an IEEE 754 binary64
      value ([spec_float]), whose formatting is computed exactly.
    - A Python exception is a value of [exn]; code that may raise returns
      a [result].
    - The handlers run in a small state-and-error monad over the trace of
      the calls they make outwards (HTTP requests, replies, log
      entries).  The provider may fail in every way [requests] reports.
      A reply is a method call on [update.message]: it raises when the
      update has no message, and it raises when the chat platform
      refuses or does not answer.  Writing a log entry does not fail. *)

From Stdlib Require Import ZArith Lia Bool List Ascii String.
From Stdlib Require Import Numbers.DecimalString.
From Stdlib Require Import Floats.SpecFloat.
Import ListNotations.

Open Scope string_scope.
Open Scope Z_scope.

(* ================================================================== *)
(** * Python strings *)

Module PyStr.

(** The line feed, written ["\n"] in the source. *)
Definition nl : string := String (ascii_of_nat 10) EmptyString.

Definition is_upper (c : ascii) : bool :=
  ((65 <=? nat_of_ascii c) && (nat_of_ascii c <=? 90))%nat.

Definition is_lower (c : ascii) : bool :=
  ((97 <=? nat_of_ascii c) && (nat_of_ascii c <=? 122))%nat.

Definition lower_char (c : ascii) : ascii :=
  if is_upper c then ascii_of_nat (nat_of_ascii c + 32) else c.

Definition upper_char (c : ascii) : ascii :=
  if is_lower c then ascii_of_nat (nat_of_ascii c - 32) else c.

(** A string of ASCII characters only. *)
Fixpoint is_ascii (s : string) : bool :=
  match s with
  | EmptyString => true
  | String c r => (nat_of_ascii c <? 128)%nat && is_ascii r
  end.

(** [s.lower()] for an ASCII string [s]: the letters A-Z become a-z. *)
Fixpoint ascii_lower (s : string) : string :=
  match s with
  | EmptyString => EmptyString
  | String c r => String (lower_char c) (ascii_lower r)
  end.

(** [s.upper()] for an ASCII string [s]: the letters a-z become A-Z. *)
Fixpoint ascii_upper (s : string) : string :=
  match s with
  | EmptyString => EmptyString
  | String c r => String (upper_char c) (ascii_upper r)
  end.

(** [s.title()] for an ASCII string [s]: a letter is upper-cased after
    a character that is not a letter (or at the start) and lower-cased
    after a letter. *)
Fixpoint title_from (previous_is_cased : bool) (s : string) : string :=
  match s with
  | EmptyString => EmptyString
  | String c r =>
      if is_lower c then
        String (if previous_is_cased then c else upper_char c) (title_from true r)
      else if is_upper c then
        String (if previous_is_cased then lower_char c else c) (title_from true r)
      else String c (title_from false r)
  end.

Definition ascii_title (s : string) : string := title_from false s.

(** [s.startswith(p)] *)
Fixpoint startswith (p s : string) : bool :=
  match p, s with
  | EmptyString, _ => true
  | String _ _, EmptyString => false
  | String a p', String b s' => Ascii.eqb a b && startswith p' s'
  end.

(** [sub in s] *)
Fixpoint contains (sub s : string) : bool :=
  startswith sub s ||
  match s with
  | EmptyString => false
  | String _ r => contains sub r
  end.

(** [sep.join(xs)] *)
Fixpoint join (sep : string) (xs : list string) : string :=
  match xs with
  | [] => EmptyString
  | [x] => x
  | x :: r => x ++ sep ++ join sep r
  end.

(** [str(z)] for an [int]. *)
Definition str_of_Z (z : Z) : string := NilZero.string_of_int (Z.to_int z).

(** A field of [strftime] that is zero-padded to two digits. *)
Definition pad2 (z : Z) : string :=
  if (z <? 10)%Z then "0" ++ str_of_Z z else str_of_Z z.

End PyStr.
Import PyStr.

(* ================================================================== *)
(** * Exceptions and results *)

(** The exceptions the modelled code can raise.  [HTTPError] carries the
    status code of the response it wraps ([e.response.status_code]);
    [RequestError] stands for the failures of [requests.get] itself
    (connection, timeout), [JSONDecodeError] for a body [r.json()]
    cannot parse and [TelegramError] for the failures of a reply the
    chat platform reports: none of the three is an [HTTPError]. *)
Inductive exn : Type :=
| KeyError
| IndexError
| TypeError
| AttributeError
| ValueError
| OverflowError
| OSError
| HTTPError (status_code : Z)
| RequestError
| JSONDecodeError
| TelegramError.

Inductive result (A : Type) : Type :=
| Ok (a : A)
| Raise (e : exn).
Arguments Ok {A} a.
Arguments Raise {A} e.

Definition rbind {A B : Type} (r : result A) (k : A -> result B) : result B :=
  match r with
  | Ok a => k a
  | Raise e => Raise e
  end.

Notation "x <- r ;; k" := (rbind r (fun x => k))
  (at level 61, r at next level, right associativity).

(** The body of a comprehension or of an accumulating [for] loop: the
    items are processed in order and the first exception ends the loop. *)
Fixpoint rmap {A B : Type} (f : A -> result B) (xs : list A) : result (list B) :=
  match xs with
  | [] => Ok []
  | x :: r =>
      match f x with
      | Raise e => Raise e
      | Ok y =>
          match rmap f r with
          | Raise e => Raise e
          | Ok ys => Ok (y :: ys)
          end
      end
  end.

(* ================================================================== *)
(** * Weather icons *)




(* ================================================================== *)
(** * Python numbers *)

Module PyNum.

(** A Python [float] is an IEEE 754 binary64 value. *)
Definition float_of_Z (z : Z) : spec_float := binary_normalize 53 1024 z 0 false.

(** [float(z)] for an [int]: rounds to the nearest float and raises
    when the integer is beyond the finite floats. *)
Definition float_of_int (z : Z) : result spec_float :=
  match float_of_Z z with
  | S754_infinity _ => Raise OverflowError
  | f => Ok f
  end.

(** The integer nearest to [n / d], a tie going to the even one
    ([0 <= n], [0 < d]). *)
Definition round_half_even (n d : Z) : Z :=
  let q := n / d in
  match 2 * (n mod d) ?= d with
  | Lt => q
  | Gt => q + 1
  | Eq => if Z.even q then q else q + 1
  end.

(** The integer nearest to [m * 2^e * scale], ties to even. *)
Definition scaled_magnitude (scale : Z) (m : positive) (e : Z) : Z :=
  match e with
  | Zneg p => round_half_even (Zpos m * scale) (2 ^ Zpos p)
  | _ => Zpos m * scale * 2 ^ e
  end.

Fixpoint zfill (width : nat) (s : string) : string :=
  match width with
  | O => s
  | S w => if (String.length s <? width)%nat then zfill w ("0" ++ s) else s
  end.

(** The digits of [q / 10^digits] in fixed notation. *)
Definition fixed_digits (digits : nat) (q : Z) : string :=
  match digits with
  | O => str_of_Z q
  | S _ =>
      let p := 10 ^ Z.of_nat digits in
      str_of_Z (q / p) ++ "." ++ zfill digits (str_of_Z (q mod p))
  end.

Definition sign_str (s : bool) : string := if s then "-" else EmptyString.

(** [format(f, ".<digits>f")] for a [float]: the decimal expansion of
    the exact value, correctly rounded with ties to even; the sign is
    that of the float, also when the digits are all zero. *)
Definition format_f (digits : nat) (f : spec_float) : string :=
  match f with
  | S754_nan => "nan"
  | S754_infinity s => sign_str s ++ "inf"
  | S754_zero s => sign_str s ++ fixed_digits digits 0
  | S754_finite s m e =>
      sign_str s ++ fixed_digits digits (scaled_magnitude (10 ^ Z.of_nat digits) m e)
  end.

(** The number of microseconds [datetime.fromtimestamp] and
    [timedelta(seconds=...)] make of a float number of seconds: the
    integral part exactly, and the fractional part multiplied by [1e6]
    in floating point and rounded to the nearest integer, ties to
    even. *)
Definition float_microseconds (f : spec_float) : result Z :=
  match f with
  | S754_nan => Raise ValueError
  | S754_infinity _ => Raise OverflowError
  | S754_zero _ => Ok 0
  | S754_finite s m e =>
      match e with
      | Zneg p =>
          let intpart := Zpos m / 2 ^ Zpos p in
          let fracpart := float_of_Z (Zpos m mod 2 ^ Zpos p) in
          let fracpart := SFldexp 53 1024 fracpart e in
          let us :=
            match SFmul 53 1024 fracpart (float_of_Z 1000000) with
            | S754_finite _ m' e' => scaled_magnitude 1 m' e'
            | _ => 0
            end in
          Ok (cond_Zopp s (intpart * 1000000 + us))
      | _ => Ok (cond_Zopp s (Zpos m * 2 ^ e * 1000000))
      end
  end.

End PyNum.
Import PyNum.

(* ================================================================== *)
(** * JSON values, as [r.json()] returns them *)

#[warnings="-register-all"]
Inductive json : Type :=
| JNull
| JBool (b : bool)
| JInt (z : Z)
| JFloat (f : spec_float)
| JStr (s : string)
| JList (l : list json)
| JDict (d : list (string * json)).

Module Json.

Fixpoint assoc (k : string) (d : list (string * json)) : option json :=
  match d with
  | [] => None
  | (k', v) :: r => if String.eqb k k' then Some v else assoc k r
  end.

(** [v[k]] for a [str] key. *)
Definition getitem (v : json) (k : string) : result json :=
  match v with
  | JDict d =>
      match assoc k d with
      | Some x => Ok x
      | None => Raise KeyError
      end
  | _ => Raise TypeError
  end.

(** [v.get(k, default)]; only a [dict] has the method. *)
Definition get (v : json) (k : string) (default : json) : result json :=
  match v with
  | JDict d =>
      match assoc k d with
      | Some x => Ok x
      | None => Ok default
      end
  | _ => Raise AttributeError
  end.

(** [v[0]].  The keys of a parsed JSON object are strings, so [0] is
    never one of them. *)
Definition index0 (v : json) : result json :=
  match v with
  | JList (x :: _) => Ok x
  | JList [] => Raise IndexError
  | JStr (String c _) => Ok (JStr (String c EmptyString))
  | JStr EmptyString => Raise IndexError
  | JDict _ => Raise KeyError
  | _ => Raise TypeError
  end.

(** [v[:12]], as the sequence of items a [for] loop draws from it.  A
    [str] yields its characters as one-character strings; the loop of
    [format_forecast] raises on the first of them.  A [dict] cannot be
    sliced. *)
Definition slice12 (v : json) : result (list json) :=
  match v with
  | JList l => Ok (firstn 12 l)
  | JStr s =>
      Ok (map (fun c => JStr (String c EmptyString))
              (firstn 12 (list_ascii_of_string s)))
  | _ => Raise TypeError
  end.

(** The truth value of [v] in a condition. *)
Definition truthy (v : json) : bool :=
  match v with
  | JNull => false
  | JBool b => b
  | JInt z => negb (z =? 0)
  | JFloat (S754_zero _) => false
  | JFloat _ => true
  | JStr EmptyString => false
  | JStr _ => true
  | JList [] => false
  | JList _ => true
  | JDict [] => false
  | JDict _ => true
  end.

(** The receiver of a [str] method ([lower], [title]). *)
Definition str_method (v : json) : result string :=
  match v with
  | JStr s => Ok s
  | _ => Raise AttributeError
  end.

(** [', ' + v]: only a [str] can be appended to a [str]. *)
Definition str_concat (s : string) (v : json) : result string :=
  match v with
  | JStr t => Ok (s ++ t)
  | _ => Raise TypeError
  end.

(** [f"{v:.<digits>f}"].  An [int] (and a [bool], which is one) is
    converted to a [float] first. *)
Definition format_spec_f (digits : nat) (v : json) : result string :=
  match v with
  | JFloat f => Ok (format_f digits f)
  | JInt z => f <- float_of_int z ;; Ok (format_f digits f)
  | JBool b => Ok (format_f digits (float_of_Z (if b then 1 else 0)))
  | JStr _ => Raise ValueError
  | _ => Raise TypeError
  end.

(** A number of seconds ([int], [bool] or [float]) in microseconds. *)
Definition microseconds (v : json) : result Z :=
  match v with
  | JInt z => Ok (z * 1000000)
  | JBool b => Ok (if b then 1000000 else 0)
  | JFloat f => float_microseconds f
  | _ => Raise TypeError
  end.

End Json.
Import Json.

(* ================================================================== *)
(** * Local time *)

Module Clock.

Definition us_per_second : Z := 1000000.
Definition us_per_day : Z := 86400 * us_per_second.

(** 0001-01-01T00:00:00 and 9999-12-31T23:59:59.999999, in microseconds
    since the epoch: the values a [datetime] can hold. *)
Definition min_us : Z := -62135596800 * us_per_second.
Definition max_us : Z := 253402300799 * us_per_second + 999999.

Definition datetime_in_range (us : Z) : bool := (min_us <=? us) && (us <=? max_us).

(** [timedelta(seconds=v)]: at most 999999999 days either way. *)
Definition timedelta_seconds (v : json) : result Z :=
  us <- microseconds v ;;
  if (-999999999 <=? us / us_per_day) && (us / us_per_day <=? 999999999)
  then Ok us else Raise OverflowError.

(** [timezone(delta)]: the offset is strictly between -24 and 24 hours. *)
Definition timezone (delta_us : Z) : result Z :=
  if (- us_per_day <? delta_us) && (delta_us <? us_per_day)
  then Ok delta_us else Raise ValueError.

(** The civil date of a day number counted from 1970-01-01, in the
    proleptic Gregorian calendar: (year, month, day). *)
Definition civil_from_days (days : Z) : Z * Z * Z :=
  let z := days + 719468 in
  let era := z / 146097 in
  let doe := z - era * 146097 in
  let yoe := (doe - doe / 1460 + doe / 36524 - doe / 146096) / 365 in
  let doy := doe - (365 * yoe + yoe / 4 - yoe / 100) in
  let mp := (5 * doy + 2) / 153 in
  let d := doy - (153 * mp + 2) / 5 + 1 in
  let m := if mp <? 10 then mp + 3 else mp - 9 in
  (yoe + era * 400 + (if m <=? 2 then 1 else 0), m, d).

(** [%a]: 1970-01-01 was a Thursday. *)
Definition weekday_name (days : Z) : string :=
  nth (Z.to_nat ((days + 3) mod 7))
      ["Mon"; "Tue"; "Wed"; "Thu"; "Fri"; "Sat"; "Sun"] EmptyString.

(** [%b] *)
Definition month_name (m : Z) : string :=
  nth (Z.to_nat (m - 1))
      ["Jan"; "Feb"; "Mar"; "Apr"; "May"; "Jun";
       "Jul"; "Aug"; "Sep"; "Oct"; "Nov"; "Dec"] EmptyString.

(** The fields of the local wall clock [local_us] microseconds after
    the epoch. *)
Definition local_days (local_us : Z) : Z := local_us / us_per_day.
Definition local_hour (local_us : Z) : Z := (local_us / (3600 * us_per_second)) mod 24.
Definition local_minute (local_us : Z) : Z := (local_us / (60 * us_per_second)) mod 60.

(** [strftime("%a %d %b %H:%M")] in the C locale, which the program
    never changes. *)
Definition strftime (local_us : Z) : string :=
  let '(_, m, d) := civil_from_days (local_days local_us) in
  weekday_name (local_days local_us) ++ " " ++ pad2 d ++ " " ++ month_name m ++ " "
    ++ pad2 (local_hour local_us) ++ ":" ++ pad2 (local_minute local_us).

(** The seconds a C [time_t] of 64 bits can hold.  A float is compared
    with the bounds as a double, which lets [2^63] through. *)
Definition time_t_in_range (ts : json) (seconds : Z) : bool :=
  match ts with
  | JFloat _ => (- 2 ^ 63 <=? seconds) && (seconds <=? 2 ^ 63)
  | _ => (- 2 ^ 63 <=? seconds) && (seconds <? 2 ^ 63)
  end.

(** The seconds [gmtime] can break down: those of the years that fit
    the [int] field [tm_year], from -2147481748 to 2147485547. *)
Definition gmtime_in_range (seconds : Z) : bool :=
  (-67768040609740800 <=? seconds) && (seconds <=? 67768036191676799).

(** [datetime.fromtimestamp(ts, tz=tz)]: the seconds of [ts] have to
    fit a [time_t] (overflow error) and to be broken down by [gmtime]
    (OS error); the UTC date and time is built first (value error
    outside the years 1 to 9999) and then moved by the offset of [tz]
    (overflow error outside those years).  Returns the local wall
    clock. *)
Definition fromtimestamp (ts : json) (tz : Z) : result Z :=
  ts_us <- microseconds ts ;;
  if negb (time_t_in_range ts (ts_us / us_per_second)) then Raise OverflowError
  else if negb (gmtime_in_range (ts_us / us_per_second)) then Raise OSError
  else if negb (datetime_in_range ts_us) then Raise ValueError
  else if negb (datetime_in_range (ts_us + tz)) then Raise OverflowError
  else Ok (ts_us + tz).

End Clock.
Import Clock.

(** [fmt_time], lines 47-49. *)
Definition fmt_time (ts tz_offset_seconds : json) : result string :=
  delta <- timedelta_seconds tz_offset_seconds ;;
  tz <- timezone delta ;;
  local <- fromtimestamp ts tz ;;
  Ok (strftime local).

(* ================================================================== *)
(** * The program *)

Section Program.

(** [repr] of a [float] (the shortest decimal string that reads back
    as the same float) and of a [str] (quoted and escaped) are
    builtins the properties below do not depend on. *)
Variable float_repr : spec_float -> string.
Variable str_repr : string -> string.

(** [s.lower()] and [s.title()], which follow the Unicode case
    tables. *)
Variable lower : string -> string.
Variable title : string -> string.

(** The key read from the environment at start-up. *)
Variable OPENWEATHER_API_KEY : string.

(** [icon_for], lines 29-45. *)
Definition icon_for (condition : string) : string :=
  let c := lower condition in
  if contains "thunder" c then "⛈️"
  else if contains "drizzle" c then "🌦️"
  else if contains "rain" c then "🌧️"
  else if contains "snow" c then "❄️"
  else if contains "clear" c then "☀️"
  else if contains "cloud" c then "☁️"
  else if contains "mist" c || contains "fog" c || contains "haze" c || contains "smoke" c
       then "🌫️"
  else "🌡️".

(** [repr(v)] *)
Fixpoint py_repr (v : json) : string :=
  match v with
  | JNull => "None"
  | JBool true => "True"
  | JBool false => "False"
  | JInt z => str_of_Z z
  | JFloat f => float_repr f
  | JStr s => str_repr s
  | JList l => "[" ++ join ", " (map py_repr l) ++ "]"
  | JDict d =>
      "{" ++ join ", " (map (fun kv => let '(k, x) := kv in
                                       str_repr k ++ ": " ++ py_repr x) d) ++ "}"
  end.

(** [str(v)], which is what a replacement field [{v}] of an f-string
    inserts. *)
Definition py_str (v : json) : string :=
  match v with
  | JStr s => s
  | _ => py_repr v
  end.

(** The conditional expression [', ' + country if country else ''],
    lines 89 and 103. *)
Definition country_segment (country : json) : result string :=
  if truthy country then str_concat ", " country else Ok EmptyString.

(** [fmt_time(t, tz_offset) if t else "N/A"], lines 85 and 86. *)
Definition time_or_na (t tz_offset : json) : result string :=
  if truthy t then fmt_time t tz_offset else Ok "N/A".

(** [format_current_weather], lines 73-96. *)
Definition format_current_weather (data : json) : result string :=
  name <- get data "name" (JStr "Your location") ;;
  sys <- get data "sys" (JDict []) ;;
  country <- get sys "country" (JStr EmptyString) ;;
  weather_list <- getitem data "weather" ;;
  weather <- index0 weather_list ;;
  main <- getitem data "main" ;;
  wind <- get data "wind" (JDict []) ;;
  condition <- getitem weather "main" ;;
  condition <- str_method condition ;;
  let icon := icon_for condition in
  tz_offset <- get data "timezone" (JInt 0) ;;
  sunrise <- get sys "sunrise" JNull ;;
  sunset <- get sys "sunset" JNull ;;
  sunrise_str <- time_or_na sunrise tz_offset ;;
  sunset_str <- time_or_na sunset tz_offset ;;
  segment <- country_segment country ;;
  description <- getitem weather "description" ;;
  description <- str_method description ;;
  temp <- getitem main "temp" ;;
  temp <- format_spec_f 1 temp ;;
  feels_like <- getitem main "feels_like" ;;
  feels_like <- format_spec_f 1 feels_like ;;
  humidity <- getitem main "humidity" ;;
  pressure <- getitem main "pressure" ;;
  speed <- get wind "speed" (JInt 0) ;;
  let lines :=
    [ icon ++ " *Current weather in " ++ py_str name ++ segment ++ "*";
      "• " ++ title description;
      "• Temp: " ++ temp ++ "°C (feels " ++ feels_like ++ "°C)";
      "• Humidity: " ++ py_str humidity ++ "%  • Pressure: " ++ py_str pressure ++ " hPa";
      "• Wind: " ++ py_str speed ++ " m/s";
      "• Sunrise: " ++ sunrise_str ++ "  • Sunset: " ++ sunset_str ] in
  Ok (join nl lines).

(** The body of the loop of [format_forecast], lines 106-114: the text
    appended to [entries] for one item. *)
Definition forecast_entry (tz_offset item : json) : result string :=
  ts <- getitem item "dt" ;;
  main <- getitem item "main" ;;
  weather_list <- getitem item "weather" ;;
  weather <- index0 weather_list ;;
  wind <- get item "wind" (JDict []) ;;
  condition <- getitem weather "main" ;;
  condition <- str_method condition ;;
  let icon := icon_for condition in
  time <- fmt_time ts tz_offset ;;
  description <- getitem weather "description" ;;
  description <- str_method description ;;
  temp <- getitem main "temp" ;;
  temp <- format_spec_f 0 temp ;;
  speed <- get wind "speed" (JInt 0) ;;
  Ok (time ++ " – " ++ icon ++ " " ++ title description ++ ", "
        ++ temp ++ "°C, wind " ++ py_str speed ++ " m/s").

(** [f"• {line}"], line 116. *)
Definition bullet (line : string) : string := "• " ++ line.

(** [format_forecast], lines 98-116. *)
Definition format_forecast (data : json) : result string :=
  city_dict <- get data "city" (JDict []) ;;
  city <- get city_dict "name" (JStr "location") ;;
  city_dict <- get data "city" (JDict []) ;;
  country <- get city_dict "country" (JStr EmptyString) ;;
  city_dict <- get data "city" (JDict []) ;;
  tz_offset <- get city_dict "timezone" (JInt 0) ;;
  segment <- country_segment country ;;
  let header := "📅 *Next 36 hours for " ++ py_str city ++ segment ++ "*" in
  items <- get data "list" (JList []) ;;
  items <- slice12 items ;;
  entries <- rmap (forecast_entry tz_offset) items ;;
  Ok (header ++ nl ++ join nl (map bullet entries)).

(* ---------------------------------------------------------------- *)
(** ** Outward effects *)

(** What the chat platform hands to a handler: the message of the
    update, which starts with a bot command (its name without the
    slash, and the words after it), shares a location, or is anything
    else. *)
Inductive content : Type :=
| Command (command : string) (args : list string)
| Location (latitude longitude : spec_float)
| Text (text : string).

(** The field of the update that holds the message: [update.message]
    for a new message, [update.edited_message] for an edit (every
    refresh of a live location is one), [update.channel_post] and
    [update.edited_channel_post] in a channel.  An update that holds
    no message at all is taken by none of the handlers of [main] and
    is left out. *)
Inductive update_kind : Type :=
| NewMessage
| EditedMessage
| ChannelPost
| EditedChannelPost.

Record update : Type := {
  kind : update_kind;
  effective_message : content
}.

(** [update.message], which is [None] unless the update is a new
    message. *)
Definition update_message (u : update) : option content :=
  match kind u with
  | NewMessage => Some (effective_message u)
  | _ => None
  end.

(** [message.location], which is [None] unless the message shares a
    location. *)
Definition message_location (m : content) : option (spec_float * spec_float) :=
  match m with
  | Location latitude longitude => Some (latitude, longitude)
  | _ => None
  end.

(** [context.args] of a command handler: the words after the
    command. *)
Definition context_args (u : update) : list string :=
  match effective_message u with
  | Command _ args => args
  | _ => []
  end.

(** The calls a handler makes outwards, in order: an HTTP request, a
    reply ([reply_text], with the reply keyboard of [start]: rows of
    buttons, each with its label and whether it requests the location,
    and the two flags of [ReplyKeyboardMarkup]; [reply_markdown]) and
    a log entry. *)
Inductive event : Type :=
| HttpGet (url : string) (params : list (string * json)) (timeout : Z)
| ReplyText (text : string)
| ReplyKeyboard (text : string) (keyboard : list (list (string * bool)))
    (resize_keyboard one_time_keyboard : bool)
| ReplyMarkdown (text : string)
| LogException (msg : string) (e : exn).

(** What [requests.get] comes back with: a response with its status
    code and its body ([None] when the body is not JSON), or no
    response at all. *)
Inductive response : Type :=
| Response (status_code : Z) (body : option json)
| NoResponse.

(** The provider, as seen from the program: it answers a request. *)
Variable provider : string -> list (string * json) -> response.

(** The chat platform, as seen from the program: whether it accepts
    the reply that ends the given trace. *)
Variable chat : list event -> bool.

(** A computation that may raise and that appends to the trace of
    events. *)
Definition M (A : Type) : Type := list event -> result A * list event.

Definition ret {A : Type} (a : A) : M A := fun t => (Ok a, t).

Definition raise {A : Type} (e : exn) : M A := fun t => (Raise e, t).

Definition bind {A B : Type} (m : M A) (k : A -> M B) : M B :=
  fun t =>
    match m t with
    | (Ok a, t') => k a t'
    | (Raise e, t') => (Raise e, t')
    end.

Definition emit (ev : event) : M unit := fun t => (Ok tt, (t ++ [ev])%list).

Definition lift {A : Type} (r : result A) : M A := fun t => (r, t).

(** [try: body  except ... as e: handler e] with a handler for every
    exception. *)
Definition try_except {A : Type} (body : M A) (handler : exn -> M A) : M A :=
  fun t =>
    match body t with
    | (Ok a, t') => (Ok a, t')
    | (Raise e, t') => handler e t'
    end.

(** The trace of a handler that starts with nothing done. *)
Definition run {A : Type} (m : M A) : list event := snd (m []).

Notation "x <~ m ;; k" := (bind m (fun x => k))
  (at level 61, m at next level, right associativity).
Notation "m ;;; k" := (bind m (fun _ => k))
  (at level 61, right associativity).

(** [requests.get(url, params=params, timeout=12)] *)
Definition requests_get (url : string) (params : list (string * json))
  : M (Z * option json) :=
  emit (HttpGet url params 12) ;;;
  match provider url params with
  | Response status_code body => ret (status_code, body)
  | NoResponse => raise RequestError
  end.

(** [r.raise_for_status()] *)
Definition raise_for_status (r : Z * option json) : M unit :=
  if (400 <=? fst r) && (fst r <? 600) then raise (HTTPError (fst r)) else ret tt.

(** [r.json()] *)
Definition response_json (r : Z * option json) : M json :=
  match snd r with
  | Some v => ret v
  | None => raise JSONDecodeError
  end.

Definition weather_url : string := "https://api.openweathermap.org/data/2.5/weather".
Definition forecast_url : string := "https://api.openweathermap.org/data/2.5/forecast".

(** [get_current_by_city], lines 51-56. *)
Definition get_current_by_city (city units : string) : M json :=
  let params := [("q", JStr city); ("appid", JStr OPENWEATHER_API_KEY);
                 ("units", JStr units)] in
  r <~ requests_get weather_url params ;;
  raise_for_status r ;;;
  response_json r.

(** [get_current_by_coords], lines 58-63. *)
Definition get_current_by_coords (lat lon : json) (units : string) : M json :=
  let params := [("lat", lat); ("lon", lon); ("appid", JStr OPENWEATHER_API_KEY);
                 ("units", JStr units)] in
  r <~ requests_get weather_url params ;;
  raise_for_status r ;;;
  response_json r.

(** [get_forecast_by_coords], lines 65-71. *)
Definition get_forecast_by_coords (lat lon : json) (units : string) : M json :=
  let params := [("lat", lat); ("lon", lon); ("appid", JStr OPENWEATHER_API_KEY);
                 ("units", JStr units); ("cnt", JInt 12)] in
  r <~ requests_get forecast_url params ;;
  raise_for_status r ;;;
  response_json r.

(** A call of the bot API: the platform accepts it, or the call
    raises. *)
Definition send (ev : event) : M unit :=
  fun t =>
    let t' := (t ++ [ev])%list in
    (if chat t' then Ok tt else Raise TelegramError, t').

(** A method call on [update.message]. *)
Definition reply (u : update) (ev : event) : M unit :=
  match update_message u with
  | None => raise AttributeError
  | Some _ => send ev
  end.

(** [update.message.reply_text(text)] and
    [update.message.reply_markdown(text)] *)
Definition reply_text (u : update) (text : string) : M unit := reply u (ReplyText text).
Definition reply_markdown (u : update) (text : string) : M unit :=
  reply u (ReplyMarkdown text).

(** [logger.exception(msg)] in an [except] clause that caught [e]. *)
Definition logger_exception (msg : string) (e : exn) : M unit := emit (LogException msg e).

Definition usage_message : string :=
  "Usage: /weather <city name>" ++ nl ++ "Example: /weather Singapore".
Definition city_not_found_message : string :=
  "City not found. Try a different name or share your location.".
Definition http_failure_message : string :=
  "Sorry, I couldn't fetch the weather right now.".
Definition unexpected_failure_message : string :=
  "Something went wrong. Please try again later.".
Definition location_failure_message : string :=
  "Couldn't fetch weather for that location. Try again.".

(** The body of the [try] statement of [weather_cmd], lines 144-153. *)
Definition weather_lookup (u : update) (city : string) : M unit :=
  current <~ get_current_by_city city "metric" ;;
  coord <~ lift (getitem current "coord") ;;
  lat <~ lift (getitem coord "lat") ;;
  coord <~ lift (getitem current "coord") ;;
  lon <~ lift (getitem coord "lon") ;;
  forecast <~ get_forecast_by_coords lat lon "metric" ;;
  current_text <~ lift (format_current_weather current) ;;
  forecast_text <~ lift (format_forecast forecast) ;;
  reply_markdown u current_text ;;;
  reply_markdown u forecast_text.

(** Its [except] clauses, lines 154-162.  The second one,
    [except Exception], also takes the exceptions of the replies. *)
Definition weather_except (u : update) (e : exn) : M unit :=
  match e with
  | HTTPError status_code =>
      if status_code =? 404 then reply_text u city_not_found_message
      else logger_exception "HTTP error" e ;;;
           reply_text u http_failure_message
  | _ =>
      logger_exception "Unexpected error" e ;;;
      reply_text u unexpected_failure_message
  end.

(** [weather_cmd], lines 137-162; [args] is [context.args]. *)
Definition weather_cmd (u : update) (args : list string) : M unit :=
  match args with
  | [] => reply_text u usage_message
  | _ => try_except (weather_lookup u (join " " args)) (weather_except u)
  end.

(** [loc = update.message.location], line 165, which is not inside
    the [try] statement. *)
Definition read_location (u : update) : M (option (spec_float * spec_float)) :=
  match update_message u with
  | None => raise AttributeError
  | Some m => ret (message_location m)
  end.

(** The body of the [try] statement of [handle_location], lines
    167-174; [loc.latitude] raises when [loc] is [None]. *)
Definition location_lookup (u : update) (loc : option (spec_float * spec_float))
  : M unit :=
  match loc with
  | None => raise AttributeError
  | Some (latitude, longitude) =>
      current <~ get_current_by_coords (JFloat latitude) (JFloat longitude) "metric" ;;
      forecast <~ get_forecast_by_coords (JFloat latitude) (JFloat longitude) "metric" ;;
      current_text <~ lift (format_current_weather current) ;;
      forecast_text <~ lift (format_forecast forecast) ;;
      reply_markdown u current_text ;;;
      reply_markdown u forecast_text
  end.

(** Its [except] clause, lines 175-177. *)
Definition location_except (u : update) (e : exn) : M unit :=
  logger_exception "Location handling error" e ;;;
  reply_text u location_failure_message.

(** [handle_location], lines 164-177. *)
Definition handle_location (u : update) : M unit :=
  loc <~ read_location u ;;
  try_except (location_lookup u loc) (location_except u).

Definition start_message : string :=
  "Hi! I’m your Weather Bot." ++ nl ++
  "• Type /weather <city> (e.g. /weather Tokyo)" ++ nl ++
  "• Or tap the button below to share your current location." ++ nl ++
  "Units: °C (metric).".

Definition help_message : string :=
  "Commands:" ++ nl ++
  "/weather <city> – Get weather for a city" ++ nl ++
  "Share your location – Get weather for where you are" ++ nl ++
  "/help – Show this help".

Definition unknown_message : string :=
  "I didn't understand that. Use /weather <city> or share your location.".

(** [start], lines 119-127. *)
Definition start (u : update) : M unit :=
  let kb := [[("Send my location 📍", true)]] in
  reply u (ReplyKeyboard start_message kb true false).

(** [help_cmd], lines 129-135. *)
Definition help_cmd (u : update) : M unit := reply_text u help_message.

(** [unknown], lines 179-180. *)
Definition unknown (u : update) : M unit := reply_text u unknown_message.

(** [CommandHandler(name, ...)] takes the new and the edited messages
    that start with the command [name], compared without regard to
    letter case. *)
Definition command_handler (name : string) (u : update) : bool :=
  match kind u, effective_message u with
  | (NewMessage | EditedMessage), Command command _ => String.eqb (lower command) name
  | _, _ => false
  end.

(** [MessageHandler(filters.LOCATION, ...)] takes every update whose
    message shares a location, and
    [MessageHandler(filters.COMMAND, ...)] every update whose message
    starts with a command: new or edited, in a chat or in a
    channel. *)
Definition filters_LOCATION (u : update) : bool :=
  match effective_message u with
  | Location _ _ => true
  | _ => false
  end.

Definition filters_COMMAND (u : update) : bool :=
  match effective_message u with
  | Command _ _ => true
  | _ => false
  end.

(** The handlers [main] registers, lines 185-189, in the order of
    registration. *)
Definition handlers : list ((update -> bool) * (update -> M unit)) :=
  [ (command_handler "start", start);
    (command_handler "help", help_cmd);
    (command_handler "weather", fun u => weather_cmd u (context_args u));
    (filters_LOCATION, handle_location);
    (filters_COMMAND, unknown) ].

(** The application gives an update to the first registered handler
    that takes it, and to no other. *)
Fixpoint dispatch_to (hs : list ((update -> bool) * (update -> M unit))) (u : update)
  : M unit :=
  match hs with
  | [] => ret tt
  | (check_update, callback) :: rest =>
      if check_update u then callback u else dispatch_to rest u
  end.

Definition dispatch (u : update) : M unit := dispatch_to handlers u.

(* ---------------------------------------------------------------- *)
(** ** Payloads, as the specification describes them *)

(** The value of [d.get(k, default)]. *)
Definition field (d : list (string * json)) (k : string) (default : json) : json :=
  match assoc k d with
  | Some v => v
  | None => default
  end.

(** The entries of the dict bound to [k], none when [k] is unbound. *)
Definition subdict (d : list (string * json)) (k : string) : list (string * json) :=
  match assoc k d with
  | Some (JDict s) => s
  | _ => []
  end.

Definition absent_or_dict (d : list (string * json)) (k : string) : bool :=
  match assoc k d with
  | None | Some (JDict _) => true
  | Some _ => false
  end.

Definition is_str (v : option json) : bool :=
  match v with
  | Some (JStr _) => true
  | _ => false
  end.

(** A number a temperature can be: a [float], or an [int] within the
    range of the floats. *)
Definition is_number (v : option json) : bool :=
  match v with
  | Some (JFloat _) | Some (JBool _) => true
  | Some (JInt z) =>
      match float_of_int z with
      | Ok _ => true
      | Raise _ => false
      end
  | _ => false
  end.

Definition is_present (v : option json) : bool :=
  match v with
  | Some _ => true
  | None => false
  end.

(** A country code is a string; JSON [null] and the other empty values
    pass for a missing one. *)
Definition is_country (v : json) : bool :=
  match v with
  | JStr _ => true
  | _ => negb (truthy v)
  end.

(** The fields of a current-conditions payload [JDict d], with the
    defaults of the optional ones. *)
Definition current_name (d : list (string * json)) : json :=
  field d "name" (JStr "Your location").
Definition current_country (d : list (string * json)) : json :=
  field (subdict d "sys") "country" (JStr EmptyString).
Definition current_timezone (d : list (string * json)) : json :=
  field d "timezone" (JInt 0).
Definition current_sunrise (d : list (string * json)) : json :=
  field (subdict d "sys") "sunrise" JNull.
Definition current_sunset (d : list (string * json)) : json :=
  field (subdict d "sys") "sunset" JNull.
Definition current_wind_speed (d : list (string * json)) : json :=
  field (subdict d "wind") "speed" (JInt 0).

(** A well-formed current-conditions payload: a non-empty weather list
    whose first entry has a category and a description, the four main
    fields, and, where they are present, a [sys] and a [wind] object
    and a country code.  Sunrise, sunset, name, wind speed and UTC
    offset are optional. *)
Definition well_formed_current (data : json) : bool :=
  match data with
  | JDict d =>
      absent_or_dict d "sys" && absent_or_dict d "wind"
      && is_country (current_country d)
      && match assoc "weather" d, assoc "main" d with
         | Some (JList (JDict w :: _)), Some (JDict m) =>
             is_str (assoc "main" w) && is_str (assoc "description" w)
             && is_number (assoc "temp" m) && is_number (assoc "feels_like" m)
             && is_present (assoc "humidity" m) && is_present (assoc "pressure" m)
         | _, _ => false
         end
  | _ => false
  end.

(** The country segment of a title or header, as the specification
    words it: [", <country>"] for a non-empty country code, nothing
    otherwise. *)
Definition spec_country_segment (country : json) : string :=
  match country with
  | JStr (String c r) => ", " ++ String c r
  | _ => EmptyString
  end.

(** The fields of a forecast payload [JDict d]. *)
Definition forecast_city (d : list (string * json)) : json :=
  field (subdict d "city") "name" (JStr "location").
Definition forecast_country (d : list (string * json)) : json :=
  field (subdict d "city") "country" (JStr EmptyString).
Definition forecast_timezone (d : list (string * json)) : json :=
  field (subdict d "city") "timezone" (JInt 0).

(** The line of one forecast entry, as the specification words it:
    ["<formatted time> – <icon> <description>, <temp>°C, wind <speed> m/s"],
    for an entry with a timestamp, a temperature, a category and a
    description; the wind speed is optional. *)
Inductive entry_line (tz_offset : json) : json -> string -> Prop :=
| entry_line_intro (d m w : list (string * json)) (rest : list json)
    (ts temp : json) (category description time degrees : string) :
    assoc "dt" d = Some ts ->
    assoc "main" d = Some (JDict m) ->
    assoc "weather" d = Some (JList (JDict w :: rest)) ->
    absent_or_dict d "wind" = true ->
    assoc "main" w = Some (JStr category) ->
    assoc "description" w = Some (JStr description) ->
    assoc "temp" m = Some temp ->
    fmt_time ts tz_offset = Ok time ->
    format_spec_f 0 temp = Ok degrees ->
    entry_line tz_offset (JDict d)
      (time ++ " – " ++ icon_for category ++ " " ++ title description ++ ", "
         ++ degrees ++ "°C, wind " ++ py_str (field (subdict d "wind") "speed" (JInt 0))
         ++ " m/s").

(** [q] is an integer nearest to the fraction [num / den]. *)
Definition nearest_integer (q num den : Z) : Prop :=
  forall k : Z, Z.abs (q * den - num) <= Z.abs (k * den - num).

(** The magnitude [m * 2^e] of a finite float as a fraction
    (numerator, denominator). *)
Definition float_fraction (m : positive) (e : Z) : Z * Z :=
  match e with
  | Zneg p => (Zpos m, 2 ^ Zpos p)
  | _ => (Zpos m * 2 ^ e, 1)
  end.

(** The seconds since the epoch of a date of the years 1 to 9999, and
    the UTC offsets a [timezone] accepts. *)
Definition valid_timestamp (seconds : Z) : Prop :=
  -62135596800 <= seconds <= 253402300799.
Definition valid_offset (seconds : Z) : Prop :=
  -86400 < seconds < 86400.

(** The query parameters of the two requests of the city handler. *)
Definition city_params (city : string) : list (string * json) :=
  [("q", JStr city); ("appid", JStr OPENWEATHER_API_KEY); ("units", JStr "metric")].

Definition forecast_params (lat lon : json) : list (string * json) :=
  [("lat", lat); ("lon", lon); ("appid", JStr OPENWEATHER_API_KEY);
   ("units", JStr "metric"); ("cnt", JInt 12)].

(** What the [except] clauses of [weather_cmd] add to the trace. *)
Definition weather_failure_events (e : exn) : list event :=
  match e with
  | HTTPError status_code =>
      if status_code =? 404 then [ReplyText city_not_found_message]
      else [LogException "HTTP error" e; ReplyText http_failure_message]
  | _ => [LogException "Unexpected error" e; ReplyText unexpected_failure_message]
  end.

(** The log entries among them: all that the clauses add when the
    update has no message to reply to. *)
Definition weather_failure_logs (e : exn) : list event :=
  match e with
  | HTTPError status_code =>
      if status_code =? 404 then [] else [LogException "HTTP error" e]
  | _ => [LogException "Unexpected error" e]
  end.

(** How a reply ends, given the trace it completes. *)
Definition reply_outcome (t : list event) : result unit :=
  if chat t then Ok tt else Raise TelegramError.

(** What the [except] clause of [handle_location] adds to the
    trace. *)
Definition location_failure_events (e : exn) : list event :=
  [LogException "Location handling error" e; ReplyText location_failure_message].

(* ---------------------------------------------------------------- *)
(** ** Reading a trace *)

Definition is_request (ev : event) : bool :=
  match ev with
  | HttpGet _ _ _ => true
  | _ => false
  end.

Definition is_reply (ev : event) : bool :=
  match ev with
  | ReplyText _ | ReplyKeyboard _ _ _ _ | ReplyMarkdown _ => true
  | _ => false
  end.

Definition is_log (ev : event) : bool :=
  match ev with
  | LogException _ _ => true
  | _ => false
  end.

(** The HTTP requests, the replies and the log entries of a trace, in
    order. *)
Definition requests_of (t : list event) : list event := filter is_request t.
Definition replies_of (t : list event) : list event := filter is_reply t.
Definition logs_of (t : list event) : list event := filter is_log t.

(** The query parameters of the current-conditions request of the
    location handler. *)
Definition location_params (lat lon : json) : list (string * json) :=
  [("lat", lat); ("lon", lon); ("appid", JStr OPENWEATHER_API_KEY);
   ("units", JStr "metric")].

(** A status code [raise_for_status] raises on. *)
Definition is_error_status (status_code : Z) : bool :=
  (400 <=? status_code) && (status_code <? 600).

(** What the three provider calls make of a response. *)
Definition response_result (r : response) : result json :=
  match r with
  | NoResponse => Raise RequestError
  | Response status_code body =>
      if is_error_status status_code then Raise (HTTPError status_code)
      else match body with
           | Some v => Ok v
           | None => Raise JSONDecodeError
           end
  end.

(** The exceptions that reading and formatting a payload can raise. *)
Definition is_data_error (e : exn) : bool :=
  match e with
  | KeyError | IndexError | TypeError | AttributeError | ValueError | OverflowError
  | OSError => true
  | HTTPError _ | RequestError | JSONDecodeError | TelegramError => false
  end.

(** The keywords [icon_for] looks for. *)
Definition icon_keywords : list string :=
  ["thunder"; "drizzle"; "rain"; "snow"; "clear"; "cloud"; "mist"; "fog"; "haze"; "smoke"].

(** [P] holds of the [n] integers from [z] on. *)
Fixpoint holds_from (P : Z -> bool) (n : nat) (z : Z) : bool :=
  match n with
  | O => true
  | S k => P z && holds_from P k (z + 1)
  end.

(* ---------------------------------------------------------------- *)
(** ** Sample payloads and providers *)

(** The float nearest to [n / d], which is what [r.json()] makes of
    the decimal literal with that value. *)
Definition decimal (n d : Z) : spec_float :=
  SFdiv 53 1024 (float_of_Z n) (float_of_Z d).

(** The current-conditions response of the end-to-end scenario of the
    specification. *)
Definition london_fields : list (string * json) :=
    [ ("name", JStr "London");
      ("sys", JDict [("country", JStr "GB"); ("sunrise", JInt 1700000000);
                     ("sunset", JInt 1700035000)]);
      ("weather", JList [JDict [("main", JStr "Clouds");
                                ("description", JStr "overcast clouds")]]);
      ("main", JDict [("temp", JFloat (decimal 153 10));
                      ("feels_like", JFloat (decimal 141 10));
                      ("humidity", JInt 80); ("pressure", JInt 1012)]);
      ("wind", JDict [("speed", JFloat (decimal 32 10))]);
      ("coord", JDict [("lat", JFloat (decimal 515 10));
                       ("lon", JFloat (SFopp (decimal 12 100)))]);
      ("timezone", JInt 0) ].

Definition london_current : json := JDict london_fields.

(** A payload with nothing but the required fields. *)
Definition bare_fields : list (string * json) :=
    [ ("weather", JList [JDict [("main", JStr "Rain");
                                ("description", JStr "light rain")]]);
      ("main", JDict [("temp", JInt 7); ("feels_like", JFloat (decimal 45 10));
                      ("humidity", JInt 93); ("pressure", JInt 1002)]) ].

Definition bare_current : json := JDict bare_fields.

(** Payloads whose sunrise, or sunset, is the epoch itself. *)
Definition epoch_fields (sunrise sunset : Z) : list (string * json) :=
    [ ("name", JStr "Null Island");
      ("sys", JDict [("sunrise", JInt sunrise); ("sunset", JInt sunset)]);
      ("weather", JList [JDict [("main", JStr "Clear");
                                ("description", JStr "clear sky")]]);
      ("main", JDict [("temp", JInt 30); ("feels_like", JInt 33);
                      ("humidity", JInt 70); ("pressure", JInt 1010)]) ].

Definition epoch_sunrise_current : json := JDict (epoch_fields 0 43200).

Definition forecast_item (dt : Z) (condition description : string)
  (temp : spec_float) (speed : Z) : json :=
  JDict
    [ ("dt", JInt dt);
      ("main", JDict [("temp", JFloat temp)]);
      ("weather", JList [JDict [("main", JStr condition);
                                ("description", JStr description)]]);
      ("wind", JDict [("speed", JInt speed)]) ].

Definition london_forecast_items : list json :=
  [ forecast_item 1700006400 "Clouds" "broken clouds" (decimal 145 10) 3;
    forecast_item 1700017200 "Rain" "light rain" (decimal 1351 100) 4 ].

Definition london_forecast_fields : list (string * json) :=
    [ ("city", JDict [("name", JStr "London"); ("country", JStr "GB");
                      ("timezone", JInt 0)]);
      ("list", JList london_forecast_items) ].

Definition london_forecast : json := JDict london_forecast_fields.

Definition london_forecast_lines : list string :=
  [ "Wed 15 Nov 00:00 – ☁️ Broken Clouds, 14°C, wind 3 m/s";
    "Wed 15 Nov 03:00 – 🌧️ Light Rain, 14°C, wind 4 m/s" ].

(** A forecast of fourteen entries, three hours apart. *)
Definition long_forecast : json :=
  JDict
    [ ("city", JDict [("name", JStr "Oslo")]);
      ("list", JList (map (fun i => forecast_item (1700006400 + 10800 * i) "Snow" "snow"
                                      (decimal (2 * i + 1) 2) 1)
                          [0; 1; 2; 3; 4; 5; 6; 7; 8; 9; 10; 11; 12; 13])) ].

(** Providers: one that knows no city, one that is down, one that
    answers both calls, one whose forecast endpoint answers 404. *)
Definition provider_not_found (url : string) (params : list (string * json)) : response :=
  Response 404 None.

Definition provider_unavailable (url : string) (params : list (string * json)) : response :=
  Response 503 None.

Definition provider_london (url : string) (params : list (string * json)) : response :=
  if String.eqb url forecast_url then Response 200 (Some london_forecast)
  else Response 200 (Some london_current).

Definition provider_forecast_not_found (url : string) (params : list (string * json))
  : response :=
  if String.eqb url forecast_url then Response 404 None
  else Response 200 (Some london_current).

(** Stand-ins for the two builtins, for the sample runs: a float with
    one decimal, a string between single quotes.  The sample runs take
    [ascii_lower] and [ascii_title] for the case mappings: the sample
    payloads hold ASCII letters only. *)
Definition fixed_repr (f : spec_float) : string := format_f 1 f.
Definition quoted (s : string) : string := "'" ++ s ++ "'".

(** More providers: one that answers every request with a payload
    without coordinates, one that does not answer, one that answers
    with a page that is not JSON, and one whose forecast is a list
    instead of an object. *)
Definition provider_bare (url : string) (params : list (string * json)) : response :=
  Response 200 (Some bare_current).

Definition provider_silent (url : string) (params : list (string * json)) : response :=
  NoResponse.

Definition provider_html (url : string) (params : list (string * json)) : response :=
  Response 200 None.

Definition provider_bad_forecast (url : string) (params : list (string * json))
  : response :=
  if String.eqb url forecast_url then Response 200 (Some (JList []))
  else Response 200 (Some london_current).

(** The texts of the London payloads. *)
Definition london_current_text : string :=
  join nl [ "☁️ *Current weather in London, GB*";
            "• Overcast Clouds";
            "• Temp: 15.3°C (feels 14.1°C)";
            "• Humidity: 80%  • Pressure: 1012 hPa";
            "• Wind: 3.2 m/s";
            "• Sunrise: Tue 14 Nov 22:13  • Sunset: Wed 15 Nov 07:56" ].

Definition london_forecast_text : string :=
  join nl [ "📅 *Next 36 hours for London, GB*";
            "• Wed 15 Nov 00:00 – ☁️ Broken Clouds, 14°C, wind 3 m/s";
            "• Wed 15 Nov 03:00 – 🌧️ Light Rain, 14°C, wind 4 m/s" ].

Definition london_lat : json := JFloat (decimal 515 10).
Definition london_lon : json := JFloat (SFopp (decimal 12 100)).



(** Updates: a new message and an edit of one. *)
Definition new_message (m : content) : update :=
  {| kind := NewMessage; effective_message := m |}.
Definition edited_message (m : content) : update :=
  {| kind := EditedMessage; effective_message := m |}.
Definition channel_post (m : content) : update :=
  {| kind := ChannelPost; effective_message := m |}.

(** Chat platforms: one that accepts every reply, one that accepts
    none, and one that refuses the replies in Markdown (as the
    platform does when it cannot parse the markup). *)
Definition chat_delivers (t : list event) : bool := true.

Definition chat_down (t : list event) : bool := false.

Definition chat_without_markdown (t : list event) : bool :=
  match last t (ReplyText EmptyString) with
  | ReplyMarkdown _ => false
  | _ => true
  end.

(* ================================================================ *)
(** * Properties *)

(** ** Weather icons *)

(** [icon_for] looks at its argument through [lower] only. *)
Lemma icon_for_lower (c c' : string) : lower c = lower c' -> icon_for c = icon_for c'.
Proof. unfold icon_for. intros ->. reflexivity. Qed.


(** ** The handlers *)

Lemma reply_eval (u : update) (ev : event) (t : list event) :
  reply u ev t
  = match update_message u with
    | None => (Raise AttributeError, t)
    | Some _ => (reply_outcome (t ++ [ev]), (t ++ [ev])%list)
    end.
Proof. unfold reply, raise, send, reply_outcome. now destruct (update_message u). Qed.

(** What the [except] clauses of the city handler do after the trace
    [t]. *)
Lemma weather_except_eval (u : update) (e : exn) (t : list event) :
  weather_except u e t
  = match update_message u with
    | None => (Raise AttributeError, (t ++ weather_failure_logs e)%list)
    | Some _ => (reply_outcome (t ++ weather_failure_events e),
                 (t ++ weather_failure_events e)%list)
    end.
Proof.
  unfold weather_except, weather_failure_events, weather_failure_logs, bind,
    logger_exception, reply_text, emit.
  destruct e as [| | | | | | |code| | |]; try destruct (code =? 404);
    rewrite reply_eval; destruct (update_message u);
    rewrite <- ?app_assoc, ?app_nil_r; reflexivity.
Qed.

Lemma weather_cmd_raise (u : update) (args : list string) (e : exn) (t : list event) :
  args <> [] ->
  weather_lookup u (join " " args) [] = (Raise e, t) ->
  weather_cmd u args [] = weather_except u e t.
Proof.
  intros Hargs Hraise. destruct args as [|a r]; [congruence|].
  unfold weather_cmd, try_except. now rewrite Hraise.
Qed.

Lemma weather_cmd_ok (u : update) (args : list string) (t : list event) :
  args <> [] ->
  weather_lookup u (join " " args) [] = (Ok tt, t) ->
  weather_cmd u args [] = (Ok tt, t).
Proof.
  intros Hargs Hok. destruct args as [|a r]; [congruence|].
  unfold weather_cmd, try_except. now rewrite Hok.
Qed.

(** A 404 on the current-conditions call ends the lookup there. *)
Lemma weather_lookup_not_found (u : update) (city : string) (body : option json) :
  provider weather_url (city_params city) = Response 404 body ->
  weather_lookup u city []
  = (Raise (HTTPError 404), [HttpGet weather_url (city_params city) 12]).
Proof.
  intros H.
  unfold weather_lookup, get_current_by_city, requests_get, bind, emit.
  fold (city_params city). rewrite H. reflexivity.
Qed.

Lemma handle_location_eval (u : update) :
  handle_location u []
  = match update_message u with
    | None => (Raise AttributeError, [])
    | Some m =>
        match location_lookup u (message_location m) [] with
        | (Ok a, t) => (Ok a, t)
        | (Raise e, t) =>
            (reply_outcome (t ++ location_failure_events e),
             (t ++ location_failure_events e)%list)
        end
    end.
Proof.
  unfold handle_location, read_location, bind, try_except, raise, ret.
  destruct (update_message u) as [m|] eqn:Hm; [|reflexivity].
  destruct (location_lookup u (message_location m) []) as [[a|e] t]; [reflexivity|].
  unfold location_except, bind, logger_exception, reply_text, emit.
  rewrite reply_eval, Hm, <- app_assoc. reflexivity.
Qed.

(** C4, as the code has it.  With an empty city argument the city
    handler issues no HTTP request, whatever the update and whatever
    the provider would answer.  When the update carries a message
    ([update.message] is set) the handler makes one call, the reply
    with the usage message, and ends as that reply ends; when it
    carries none (the command comes in an edited message) the handler
    raises [AttributeError] and replies nothing. *)
Theorem weather_cmd_empty_args (u : update) :
  (forall url params timeout,
      ~ In (HttpGet url params timeout) (run (weather_cmd u [])))
  /\ (forall m,
         update_message u = Some m ->
         weather_cmd u [] []
         = (reply_outcome [ReplyText usage_message], [ReplyText usage_message]))
  /\ (update_message u = None ->
      weather_cmd u [] [] = (Raise AttributeError, [])).
Proof.
  assert (Hrun : weather_cmd u [] []
                 = match update_message u with
                   | None => (Raise AttributeError, [])
                   | Some _ => (reply_outcome [ReplyText usage_message],
                                [ReplyText usage_message])
                   end).
  { unfold weather_cmd, reply_text. now rewrite reply_eval. }
  split; [|split].
  - intros url params timeout. unfold run. rewrite Hrun.
    destruct (update_message u); cbn [snd In]; [|tauto].
    intros [H | []]. discriminate H.
  - intros m Hm. now rewrite Hrun, Hm.
  - intros Hm. now rewrite Hrun, Hm.
Qed.

(** C1, as the code has it.  For every city, when the provider
    answers the current-conditions request with status 404, that
    request is the only HTTP request of the city handler: no forecast
    call is attempted.  When the update carries a message the handler
    then makes one more call, the reply with the "city not found"
    message, and ends as that reply ends; when it carries none (the
    command comes in an edited message) the handler raises
    [AttributeError] after the request and replies nothing. *)
Theorem weather_cmd_city_not_found (u : update) (args : list string) (body : option json) :
  args <> [] ->
  provider weather_url (city_params (join " " args)) = Response 404 body ->
  let request := HttpGet weather_url (city_params (join " " args)) 12 in
  (forall params timeout,
      ~ In (HttpGet forecast_url params timeout) (run (weather_cmd u args)))
  /\ (forall m,
         update_message u = Some m ->
         weather_cmd u args []
         = (reply_outcome [request; ReplyText city_not_found_message],
            [request; ReplyText city_not_found_message]))
  /\ (update_message u = None ->
      weather_cmd u args [] = (Raise AttributeError, [request])).
Proof.
  intros Hargs H404 request.
  assert (Hrun : weather_cmd u args []
                 = match update_message u with
                   | None => (Raise AttributeError, [request])
                   | Some _ => (reply_outcome [request; ReplyText city_not_found_message],
                                [request; ReplyText city_not_found_message])
                   end).
  { rewrite (weather_cmd_raise u args _ _ Hargs (weather_lookup_not_found u _ _ H404)).
    now rewrite weather_except_eval. }
  split; [|split].
  - intros params timeout. unfold run. rewrite Hrun.
    destruct (update_message u); cbn [snd In]; subst request;
      unfold weather_url, forecast_url; intros H;
      repeat (destruct H as [H | H]; [discriminate H|]); destruct H.
  - intros m Hm. now rewrite Hrun, Hm.
  - intros Hm. now rewrite Hrun, Hm.
Qed.

(** C2, as the code has it.  Take an update that carries a message.
    Every error raised in the [try] statement of the city handler
    other than an HTTP 404 (a failing provider call, a payload that
    cannot be read or formatted, a weather text the platform refuses)
    is logged and answered with a generic failure message that is a
    fixed text: the "couldn't fetch" one for another HTTP status, the
    "something went wrong" one for an error that is not an HTTP
    status.  An HTTP 404 is answered with the "city not found" message
    and not logged, whichever of the two calls raised it: a failing
    status of the forecast call is treated like one of the
    current-conditions call.  In the location handler every error, a
    404 included, is logged and answered with the generic location
    message.  In each case the handler ends as the reply with the
    failure message ends.  For an update that carries no message the
    city handler writes the same log entry and then raises
    [AttributeError] instead of replying, and the location handler
    raises it before anything is done. *)
Theorem weather_error_policy :
  (forall (u : update) (m : content) (args : list string) (e : exn) (t : list event),
      update_message u = Some m ->
      args <> [] ->
      weather_lookup u (join " " args) [] = (Raise e, t) ->
      let failure :=
        match e with
        | HTTPError status_code =>
            if status_code =? 404 then [ReplyText city_not_found_message]
            else [LogException "HTTP error" e; ReplyText http_failure_message]
        | _ => [LogException "Unexpected error" e;
                ReplyText unexpected_failure_message]
        end in
      weather_cmd u args [] = (reply_outcome (t ++ failure), (t ++ failure)%list))
  /\ (forall (u : update) (m : content) (args : list string) (status : Z)
             (current coord lat lon : json) (forecast_status : Z) (body : option json),
         update_message u = Some m ->
         args <> [] ->
         provider weather_url (city_params (join " " args)) = Response status (Some current) ->
         (400 <=? status) && (status <? 600) = false ->
         getitem current "coord" = Ok coord ->
         getitem coord "lat" = Ok lat ->
         getitem coord "lon" = Ok lon ->
         provider forecast_url (forecast_params lat lon) = Response forecast_status body ->
         (400 <=? forecast_status) && (forecast_status <? 600) = true ->
         let t :=
           ([HttpGet weather_url (city_params (join " " args)) 12;
             HttpGet forecast_url (forecast_params lat lon) 12]
            ++ if forecast_status =? 404 then [ReplyText city_not_found_message]
               else [LogException "HTTP error" (HTTPError forecast_status);
                     ReplyText http_failure_message])%list in
         weather_cmd u args [] = (reply_outcome t, t))
  /\ (forall (u : update) (m : content) (e : exn) (t : list event),
         update_message u = Some m ->
         location_lookup u (message_location m) [] = (Raise e, t) ->
         let t' := (t ++ [LogException "Location handling error" e;
                          ReplyText location_failure_message])%list in
         handle_location u [] = (reply_outcome t', t'))
  /\ (forall (u : update) (args : list string) (e : exn) (t : list event),
         update_message u = None ->
         args <> [] ->
         weather_lookup u (join " " args) [] = (Raise e, t) ->
         weather_cmd u args []
         = (Raise AttributeError,
            (t ++ match e with
                  | HTTPError status_code =>
                      if status_code =? 404 then []
                      else [LogException "HTTP error" e]
                  | _ => [LogException "Unexpected error" e]
                  end)%list))
  /\ (forall u : update,
         update_message u = None ->
         handle_location u [] = (Raise AttributeError, [])).
Proof.
  split; [|split; [|split; [|split]]].
  - intros u m args e t Hm Hargs Hraise failure.
    rewrite (weather_cmd_raise u args e t Hargs Hraise), weather_except_eval, Hm.
    reflexivity.
  - intros u m args status current coord lat lon fs body Hm Hargs Hcur Hst Hc Hlat Hlon
      Hfc Hfs t.
    rewrite (weather_cmd_raise u args (HTTPError fs)
               [HttpGet weather_url (city_params (join " " args)) 12;
                HttpGet forecast_url (forecast_params lat lon) 12] Hargs).
    + rewrite weather_except_eval, Hm. reflexivity.
    + unfold weather_lookup, get_current_by_city, get_forecast_by_coords,
        requests_get, raise_for_status, response_json, bind, emit, lift, ret, raise.
      fold (city_params (join " " args)). rewrite Hcur. cbn [fst snd].
      rewrite Hst, Hc, Hlat, Hlon.
      fold (forecast_params lat lon). rewrite Hfc. cbn [fst snd]. rewrite Hfs.
      reflexivity.
  - intros u m e t Hm Hraise t'. rewrite handle_location_eval, Hm, Hraise. reflexivity.
  - intros u args e t Hm Hargs Hraise.
    rewrite (weather_cmd_raise u args e t Hargs Hraise), weather_except_eval, Hm.
    reflexivity.
  - intros u Hm. now rewrite handle_location_eval, Hm.
Qed.

(** ** Reading a payload *)

Lemma get_ok (data : json) (k : string) (default v : json) :
  get data k default = Ok v ->
  exists d, data = JDict d /\ v = field d k default.
Proof.
  destruct data; try discriminate. cbn [get]. unfold field.
  intros H. exists d. split; [reflexivity|].
  destruct (assoc k d); congruence.
Qed.

Lemma get_dict (d : list (string * json)) (k : string) (default : json) :
  get (JDict d) k default = Ok (field d k default).
Proof. cbn [get]. unfold field. now destruct (assoc k d). Qed.

Lemma getitem_ok (data : json) (k : string) (v : json) :
  getitem data k = Ok v ->
  exists d, data = JDict d /\ assoc k d = Some v.
Proof.
  destruct data; try discriminate. cbn [getitem].
  intros H. exists d. split; [reflexivity|].
  destruct (assoc k d); congruence.
Qed.

Lemma getitem_dict (d : list (string * json)) (k : string) (v : json) :
  assoc k d = Some v -> getitem (JDict d) k = Ok v.
Proof. cbn [getitem]. now intros ->. Qed.

Lemma field_subdict (d s : list (string * json)) (k : string) :
  field d k (JDict []) = JDict s -> subdict d k = s.
Proof.
  unfold field, subdict. destruct (assoc k d) as [v|]; [intros -> | intros [= <-]]; reflexivity.
Qed.

Lemma field_absent_or_dict (d : list (string * json)) (k : string) :
  absent_or_dict d k = true -> field d k (JDict []) = JDict (subdict d k).
Proof.
  unfold absent_or_dict, field, subdict.
  destruct (assoc k d) as [[]|]; intros H; try discriminate H; reflexivity.
Qed.

Lemma str_method_ok (v : json) (s : string) : str_method v = Ok s -> v = JStr s.
Proof. destruct v; try discriminate. now intros [= ->]. Qed.

(** The conditional expression of the source yields the segment of
    the specification whenever it yields anything: a country code
    that is not a string and not empty raises. *)
Lemma country_segment_ok (country : json) (segment : string) :
  country_segment country = Ok segment -> segment = spec_country_segment country.
Proof.
  unfold country_segment.
  destruct country as [|b|z|f|s|l|d]; cbn [truthy str_concat spec_country_segment].
  - now intros [= <-].
  - destruct b; [discriminate | now intros [= <-]].
  - destruct (z =? 0); cbn [negb]; [now intros [= <-] | discriminate].
  - destruct f; try discriminate. now intros [= <-].
  - destruct s; now intros [= <-].
  - destruct l; [now intros [= <-] | discriminate].
  - destruct d; [now intros [= <-] | discriminate].
Qed.

Lemma country_segment_country (country : json) :
  is_country country = true -> country_segment country = Ok (spec_country_segment country).
Proof.
  unfold country_segment, is_country.
  destruct country as [|b|z|f|s|l|d]; cbn [truthy str_concat spec_country_segment negb].
  - reflexivity.
  - destruct b; cbn [negb]; [discriminate | reflexivity].
  - destruct (z =? 0); cbn [negb]; [reflexivity | discriminate].
  - destruct f; cbn [negb]; try discriminate; reflexivity.
  - destruct s; reflexivity.
  - destruct l; cbn [negb]; [reflexivity | discriminate].
  - destruct d; cbn [negb]; [reflexivity | discriminate].
Qed.

(** A successful sequence of steps: its first step succeeded. *)
Ltac bind_ok H v E :=
  cbv zeta in H;
  match type of H with
  | rbind ?r _ = Ok _ =>
      destruct r as [v|] eqn:E; cbn [rbind] in H; [| discriminate H]
  end.

(** ** Current conditions *)

(** What [format_current_weather] returns when it returns: the six
    lines, built from the fields of the payload. *)
Lemma format_current_weather_inv (data : json) (out : string) :
  format_current_weather data = Ok out ->
  exists d category description temp feels_like humidity pressure sunrise_str sunset_str,
    data = JDict d
    /\ time_or_na (current_sunrise d) (current_timezone d) = Ok sunrise_str
    /\ time_or_na (current_sunset d) (current_timezone d) = Ok sunset_str
    /\ out = join nl
        [ icon_for category ++ " *Current weather in " ++ py_str (current_name d)
            ++ spec_country_segment (current_country d) ++ "*";
          "• " ++ title description;
          "• Temp: " ++ temp ++ "°C (feels " ++ feels_like ++ "°C)";
          "• Humidity: " ++ humidity ++ "%  • Pressure: " ++ pressure ++ " hPa";
          "• Wind: " ++ py_str (current_wind_speed d) ++ " m/s";
          "• Sunrise: " ++ sunrise_str ++ "  • Sunset: " ++ sunset_str ].
Proof.
  unfold format_current_weather. intros H.
  bind_ok H name Ename. bind_ok H sys Esys. bind_ok H country Ecountry.
  bind_ok H weather_list Ewl. bind_ok H weather Ew. bind_ok H main Emain.
  bind_ok H wind Ewind. bind_ok H cond Econd. bind_ok H category Ecat.
  bind_ok H tz Etz. bind_ok H sunrise Esunrise. bind_ok H sunset Esunset.
  bind_ok H sunrise_str Esr. bind_ok H sunset_str Ess. bind_ok H segment Eseg.
  bind_ok H desc Edesc. bind_ok H description Edescription.
  bind_ok H temp Etemp. bind_ok H temp_str Etemps.
  bind_ok H feels Efeels. bind_ok H feels_str Efeelss.
  bind_ok H humidity Ehum. bind_ok H pressure Epres. bind_ok H speed Espeed.
  cbv zeta in H. injection H as <-.
  apply get_ok in Ename as (d & -> & ->).
  rewrite get_dict in Esys, Ewind, Etz.
  injection Esys as <-. injection Ewind as <-. injection Etz as <-.
  pose proof Ecountry as Hsys. apply get_ok in Hsys as (s & Hsys & _).
  rewrite Hsys in Ecountry, Esunrise, Esunset.
  rewrite get_dict in Ecountry, Esunrise, Esunset.
  injection Ecountry as <-. injection Esunrise as <-. injection Esunset as <-.
  apply field_subdict in Hsys. subst s.
  pose proof Espeed as Hwind. apply get_ok in Hwind as (w & Hwind & _).
  rewrite Hwind, get_dict in Espeed. injection Espeed as <-.
  apply field_subdict in Hwind. subst w.
  apply country_segment_ok in Eseg. subst segment.
  exists d, category, description, temp_str, feels_str, (py_str humidity),
    (py_str pressure), sunrise_str, sunset_str.
  repeat split; assumption || reflexivity.
Qed.

Lemma format_spec_f_number (digits : nat) (v : option json) :
  is_number v = true ->
  exists x s, v = Some x /\ format_spec_f digits x = Ok s.
Proof.
  destruct v as [[| b | z | f | | |]|]; try discriminate; cbn [is_number format_spec_f].
  - intros _. eexists _, _. split; reflexivity.
  - destruct (float_of_int z) as [f|] eqn:E; [|discriminate]. intros _.
    exists (JInt z), (format_f digits f). cbn [format_spec_f]. rewrite E.
    split; reflexivity.
  - intros _. eexists _, _. split; reflexivity.
Qed.

Lemma is_str_some (v : option json) :
  is_str v = true -> exists s, v = Some (JStr s).
Proof. destruct v as [[]|]; try discriminate. eauto. Qed.

Lemma is_present_some (v : option json) :
  is_present v = true -> exists x, v = Some x.
Proof. destruct v; try discriminate. eauto. Qed.

(** A well-formed payload whose sunrise and sunset can be rendered
    (or are missing) is formatted without an exception. *)
Lemma format_current_weather_total (d : list (string * json)) (sunrise_str sunset_str : string) :
  well_formed_current (JDict d) = true ->
  time_or_na (current_sunrise d) (current_timezone d) = Ok sunrise_str ->
  time_or_na (current_sunset d) (current_timezone d) = Ok sunset_str ->
  exists out, format_current_weather (JDict d) = Ok out.
Proof.
  unfold well_formed_current, current_sunrise, current_sunset, current_timezone.
  intros Hwf Hsr Hss.
  apply andb_prop in Hwf as [Hwf Hrest]. apply andb_prop in Hwf as [Hwf Hcountry].
  apply andb_prop in Hwf as [Hsys Hwind].
  destruct (assoc "weather" d) as [[| | | | |[|[| | | | | |w] rest]|]|] eqn:Ewl;
    try discriminate Hrest.
  destruct (assoc "main" d) as [[| | | | | |m]|] eqn:Emain; try discriminate Hrest.
  apply andb_prop in Hrest as [Hrest Hpres]. apply andb_prop in Hrest as [Hrest Hhum].
  apply andb_prop in Hrest as [Hrest Hfeels]. apply andb_prop in Hrest as [Hrest Htemp].
  apply andb_prop in Hrest as [Hcat Hdesc].
  apply is_str_some in Hcat as [category Hcat], Hdesc as [description Hdesc].
  apply (format_spec_f_number 1) in Htemp as (temp & temp_str & Htemp & Htemps).
  apply (format_spec_f_number 1) in Hfeels as (feels & feels_str & Hfeels & Hfeelss).
  apply is_present_some in Hhum as [humidity Hhum], Hpres as [pressure Hpres].
  unfold format_current_weather.
  rewrite get_dict. cbn [rbind].
  rewrite get_dict, (field_absent_or_dict _ _ Hsys). cbn [rbind].
  rewrite get_dict. cbn [rbind].
  rewrite (getitem_dict _ _ _ Ewl). cbn [rbind index0].
  rewrite (getitem_dict _ _ _ Emain). cbn [rbind].
  rewrite get_dict, (field_absent_or_dict _ _ Hwind). cbn [rbind].
  rewrite (getitem_dict _ _ _ Hcat). cbn [rbind str_method].
  rewrite get_dict. cbn [rbind].
  rewrite !get_dict. cbn [rbind].
  rewrite Hsr, Hss. cbn [rbind].
  unfold current_country in Hcountry.
  rewrite (country_segment_country _ Hcountry). cbn [rbind].
  rewrite (getitem_dict _ _ _ Hdesc). cbn [rbind str_method].
  rewrite (getitem_dict _ _ _ Htemp). cbn [rbind]. rewrite Htemps. cbn [rbind].
  rewrite (getitem_dict _ _ _ Hfeels). cbn [rbind]. rewrite Hfeelss. cbn [rbind].
  rewrite (getitem_dict _ _ _ Hhum), (getitem_dict _ _ _ Hpres). cbn [rbind].
  eexists. reflexivity.
Qed.

(** The text of a well-formed payload, line by line. *)
Lemma format_current_weather_ok (d : list (string * json)) (sunrise_str sunset_str : string) :
  well_formed_current (JDict d) = true ->
  time_or_na (current_sunrise d) (current_timezone d) = Ok sunrise_str ->
  time_or_na (current_sunset d) (current_timezone d) = Ok sunset_str ->
  exists category line2 line3 line4,
    format_current_weather (JDict d)
    = Ok (join nl
            [ icon_for category ++ " *Current weather in " ++ py_str (current_name d)
                ++ spec_country_segment (current_country d) ++ "*";
              line2; line3; line4;
              "• Wind: " ++ py_str (current_wind_speed d) ++ " m/s";
              "• Sunrise: " ++ sunrise_str ++ "  • Sunset: " ++ sunset_str ]).
Proof.
  intros Hwf Hsr Hss.
  destruct (format_current_weather_total d _ _ Hwf Hsr Hss) as [out Hout].
  destruct (format_current_weather_inv _ _ Hout)
    as (d' & category & description & temp & feels & hum & pres & sr & ss
        & Hd & Hsr' & Hss' & ->).
  injection Hd as <-.
  rewrite Hsr in Hsr'. rewrite Hss in Hss'. injection Hsr' as <-. injection Hss' as <-.
  rewrite Hout. eexists _, _, _, _. reflexivity.
Qed.

Lemma field_absent (d : list (string * json)) (k : string) (default : json) :
  assoc k d = None -> field d k default = default.
Proof. unfold field. now intros ->. Qed.

Lemma field_present (d : list (string * json)) (k : string) (default v : json) :
  assoc k d = Some v -> field d k default = v.
Proof. unfold field. now intros ->. Qed.

(** C5.  A well-formed current-conditions payload without sunrise and
    sunset fields is formatted without an exception, and the last
    line of the text has "N/A" in the place of the sunrise and in the
    place of the sunset. *)
Theorem format_current_weather_without_sun (d : list (string * json)) :
  well_formed_current (JDict d) = true ->
  assoc "sunrise" (subdict d "sys") = None ->
  assoc "sunset" (subdict d "sys") = None ->
  exists line1 line2 line3 line4 line5,
    format_current_weather (JDict d)
    = Ok (join nl [line1; line2; line3; line4; line5;
                   "• Sunrise: N/A  • Sunset: N/A"]).
Proof.
  intros Hwf Hsunrise Hsunset.
  destruct (format_current_weather_ok d "N/A" "N/A" Hwf) as (c & l2 & l3 & l4 & H).
  - unfold current_sunrise. now rewrite (field_absent _ _ _ Hsunrise).
  - unfold current_sunset. now rewrite (field_absent _ _ _ Hsunset).
  - rewrite H. eexists _, _, _, _, _. reflexivity.
Qed.

(** C9.  A sunrise (or a sunset) that is present with the value 0,
    the epoch, is rendered as "N/A" and not as a time: the source
    tests the value for truth, and 0 is false. *)
Theorem format_current_weather_epoch (d : list (string * json)) (other : string) :
  well_formed_current (JDict d) = true ->
  (assoc "sunrise" (subdict d "sys") = Some (JInt 0) ->
   time_or_na (current_sunset d) (current_timezone d) = Ok other ->
   exists line1 line2 line3 line4 line5,
     format_current_weather (JDict d)
     = Ok (join nl [line1; line2; line3; line4; line5;
                    "• Sunrise: N/A  • Sunset: " ++ other]))
  /\ (assoc "sunset" (subdict d "sys") = Some (JInt 0) ->
      time_or_na (current_sunrise d) (current_timezone d) = Ok other ->
      exists line1 line2 line3 line4 line5,
        format_current_weather (JDict d)
        = Ok (join nl [line1; line2; line3; line4; line5;
                       "• Sunrise: " ++ other ++ "  • Sunset: N/A"])).
Proof.
  intros Hwf. split; intros Hzero Hother.
  - destruct (format_current_weather_ok d "N/A" other Hwf) as (c & l2 & l3 & l4 & H).
    + unfold current_sunrise. now rewrite (field_present _ _ _ _ Hzero).
    + exact Hother.
    + rewrite H. eexists _, _, _, _, _. reflexivity.
  - destruct (format_current_weather_ok d other "N/A" Hwf) as (c & l2 & l3 & l4 & H).
    + exact Hother.
    + unfold current_sunset. now rewrite (field_present _ _ _ _ Hzero).
    + rewrite H. eexists _, _, _, _, _. reflexivity.
Qed.

(** C10.  A payload that meets the precondition of
    [format_current_weather] (a non-empty weather list and the main
    fields) is formatted without an exception whether or not it has a
    location name, a wind speed and a UTC offset: a missing name is
    rendered as "Your location", a missing wind speed as 0, and with
    a missing UTC offset the sunrise and the sunset are rendered at
    offset 0. *)
Theorem format_current_weather_defaults (d : list (string * json))
  (sunrise_str sunset_str : string) :
  well_formed_current (JDict d) = true ->
  time_or_na (current_sunrise d) (current_timezone d) = Ok sunrise_str ->
  time_or_na (current_sunset d) (current_timezone d) = Ok sunset_str ->
  exists icon name segment line2 line3 line4 speed,
    format_current_weather (JDict d)
    = Ok (join nl
            [ icon ++ " *Current weather in " ++ name ++ segment ++ "*";
              line2; line3; line4;
              "• Wind: " ++ speed ++ " m/s";
              "• Sunrise: " ++ sunrise_str ++ "  • Sunset: " ++ sunset_str ])
    /\ (assoc "name" d = None -> name = "Your location")
    /\ (assoc "speed" (subdict d "wind") = None -> speed = "0")
    /\ (assoc "timezone" d = None ->
        time_or_na (current_sunrise d) (JInt 0) = Ok sunrise_str
        /\ time_or_na (current_sunset d) (JInt 0) = Ok sunset_str).
Proof.
  intros Hwf Hsr Hss.
  destruct (format_current_weather_ok d _ _ Hwf Hsr Hss) as (c & l2 & l3 & l4 & H).
  exists (icon_for c), (py_str (current_name d)),
    (spec_country_segment (current_country d)), l2, l3, l4,
    (py_str (current_wind_speed d)).
  split; [exact H|]. split; [|split].
  - intros Hname. unfold current_name. now rewrite (field_absent _ _ _ Hname).
  - intros Hspeed. unfold current_wind_speed. now rewrite (field_absent _ _ _ Hspeed).
  - intros Htz. unfold current_timezone in Hsr, Hss.
    rewrite (field_absent _ _ _ Htz) in Hsr, Hss. now split.
Qed.

(** ** Forecast *)

Lemma rmap_Forall2 {A B : Type} (f : A -> result B) (xs : list A) (ys : list B) :
  Forall2 (fun x y => f x = Ok y) xs ys -> rmap f xs = Ok ys.
Proof.
  induction 1 as [|x y xs ys Hxy _ IH]; cbn [rmap]; [reflexivity|].
  now rewrite Hxy, IH.
Qed.

(** The loop body produces the line of the specification. *)
Lemma forecast_entry_line (tz_offset item : json) (line : string) :
  entry_line tz_offset item line -> forecast_entry tz_offset item = Ok line.
Proof.
  intros [d m w rest ts temp category description time degrees
            Hdt Hmain Hweather Hwind Hcat Hdesc Htemp Htime Hdeg].
  unfold forecast_entry.
  rewrite (getitem_dict _ _ _ Hdt). cbn [rbind].
  rewrite (getitem_dict _ _ _ Hmain). cbn [rbind].
  rewrite (getitem_dict _ _ _ Hweather). cbn [rbind index0].
  rewrite get_dict, (field_absent_or_dict _ _ Hwind). cbn [rbind].
  rewrite (getitem_dict _ _ _ Hcat). cbn [rbind str_method].
  rewrite Htime. cbn [rbind].
  rewrite (getitem_dict _ _ _ Hdesc). cbn [rbind str_method].
  rewrite (getitem_dict _ _ _ Htemp). cbn [rbind]. rewrite Hdeg. cbn [rbind].
  rewrite get_dict. cbn [rbind]. reflexivity.
Qed.

Lemma Forall2_entry_lines (tz_offset : json) (items : list json) (lines : list string) :
  Forall2 (entry_line tz_offset) items lines ->
  rmap (forecast_entry tz_offset) items = Ok lines.
Proof.
  intros H. apply rmap_Forall2.
  induction H; constructor; [now apply forecast_entry_line | assumption].
Qed.


(** ** Rounding *)

Lemma round_half_even_nearest (n d : Z) :
  0 <= n -> 0 < d -> nearest_integer (round_half_even n d) n d.
Proof.
  intros Hn Hd k. unfold round_half_even.
  pose proof (Z.div_mod n d ltac:(lia)) as Hdiv.
  pose proof (Z.mod_pos_bound n d Hd) as Hmod.
  set (q := n / d) in *. set (r := n mod d) in *.
  assert (Hq : forall j, Z.abs (j * d - n) = Z.abs ((j - q) * d - r)) by (intros; f_equal; lia).
  assert (Hfar : forall j, j <= q -> r <= Z.abs ((j - q) * d - r)) by (intros; nia).
  assert (Hnear : forall j, q + 1 <= j -> d - r <= Z.abs ((j - q) * d - r)) by (intros; nia).
  assert (Hk : k <= q \/ q + 1 <= k) by lia.
  destruct (Z.compare_spec (2 * r) d) as [Heq | Hlt | Hgt];
    [destruct (Z.even q)|..]; rewrite !Hq.
  - replace ((q - q) * d - r) with (- r) by lia.
    destruct Hk as [Hk | Hk]; [specialize (Hfar k Hk) | specialize (Hnear k Hk)]; lia.
  - replace ((q + 1 - q) * d - r) with (d - r) by lia.
    destruct Hk as [Hk | Hk]; [specialize (Hfar k Hk) | specialize (Hnear k Hk)]; lia.
  - replace ((q - q) * d - r) with (- r) by lia.
    destruct Hk as [Hk | Hk]; [specialize (Hfar k Hk) | specialize (Hnear k Hk)]; lia.
  - replace ((q + 1 - q) * d - r) with (d - r) by lia.
    destruct Hk as [Hk | Hk]; [specialize (Hfar k Hk) | specialize (Hnear k Hk)]; lia.
Qed.

Lemma scaled_magnitude_nearest (m : positive) (e : Z) :
  nearest_integer (scaled_magnitude 1 m e)
    (fst (float_fraction m e)) (snd (float_fraction m e)).
Proof.
  unfold scaled_magnitude, float_fraction.
  destruct e as [|p|p]; cbn [fst snd].
  - intros k. replace (Zpos m * 1 * 2 ^ 0 * 1 - Zpos m * 2 ^ 0) with 0 by lia.
    apply Z.abs_nonneg.
  - intros k. replace (Zpos m * 1 * 2 ^ Zpos p * 1 - Zpos m * 2 ^ Zpos p) with 0 by lia.
    apply Z.abs_nonneg.
  - rewrite Z.mul_1_r. apply round_half_even_nearest; [lia|].
    apply Z.pow_pos_nonneg; lia.
Qed.

(** C6.  For a forecast payload whose entries are well formed,
    [format_forecast] returns the header line followed by the
    bulleted lines of the first twelve entries, one line per entry in
    the order of the payload, so at most twelve lines, and all of
    them when the payload has at most twelve entries.  Each line has
    the shape
    ["<formatted time> – <icon> <description>, <temp>°C, wind <speed> m/s"]
    with the description in title case, and the temperature of a
    float is printed as an integer nearest to it. *)
Theorem format_forecast_entries (d : list (string * json)) (items : list json)
  (lines : list string) :
  absent_or_dict d "city" = true ->
  is_country (forecast_country d) = true ->
  field d "list" (JList []) = JList items ->
  Forall2 (entry_line (forecast_timezone d)) (firstn 12 items) lines ->
  format_forecast (JDict d)
  = Ok (("📅 *Next 36 hours for " ++ py_str (forecast_city d)
           ++ spec_country_segment (forecast_country d) ++ "*")
          ++ nl ++ join nl (map bullet lines))
  /\ (List.length lines <= 12)%nat
  /\ List.length lines = Nat.min 12 (List.length items)
  /\ (forall (s : bool) (m : positive) (e : Z),
         format_spec_f 0 (JFloat (S754_finite s m e))
         = Ok (sign_str s ++ str_of_Z (scaled_magnitude 1 m e))
         /\ nearest_integer (scaled_magnitude 1 m e)
              (fst (float_fraction m e)) (snd (float_fraction m e))).
Proof.
  intros Hcity Hcountry Hlist Hlines.
  assert (Hlen : List.length lines = Nat.min 12 (List.length items)).
  { rewrite <- (Forall2_length Hlines). apply length_firstn. }
  split; [|split; [lia | split; [exact Hlen|]]].
  - unfold format_forecast.
    rewrite get_dict, (field_absent_or_dict _ _ Hcity). cbn [rbind].
    rewrite !get_dict. cbn [rbind].
    unfold forecast_country in Hcountry.
    rewrite (country_segment_country _ Hcountry). cbn [rbind].
    rewrite Hlist. cbn [rbind slice12].
    unfold forecast_timezone in Hlines.
    rewrite (Forall2_entry_lines _ _ _ Hlines). reflexivity.
  - intros s m e. split; [reflexivity | apply scaled_magnitude_nearest].
Qed.


(** ** Local time *)

Lemma timedelta_seconds_int (offset : Z) :
  valid_offset offset -> timedelta_seconds (JInt offset) = Ok (offset * 1000000).
Proof.
  unfold valid_offset, timedelta_seconds, us_per_day, us_per_second. intros Ho.
  cbn [microseconds rbind].
  assert (Hlo : -1 <= offset * 1000000 / (86400 * 1000000))
    by (apply Z.div_le_lower_bound; lia).
  assert (Hhi : offset * 1000000 / (86400 * 1000000) <= 0)
    by (apply Z.lt_succ_r, Z.div_lt_upper_bound; lia).
  replace (-999999999 <=? offset * 1000000 / (86400 * 1000000)) with true
    by (symmetry; apply Z.leb_le; lia).
  replace (offset * 1000000 / (86400 * 1000000) <=? 999999999) with true
    by (symmetry; apply Z.leb_le; lia).
  reflexivity.
Qed.

Lemma timezone_valid (offset : Z) :
  valid_offset offset -> timezone (offset * 1000000) = Ok (offset * 1000000).
Proof.
  unfold valid_offset, timezone, us_per_day, us_per_second. intros Ho.
  replace (- (86400 * 1000000) <? offset * 1000000) with true
    by (symmetry; apply Z.ltb_lt; lia).
  replace (offset * 1000000 <? 86400 * 1000000) with true
    by (symmetry; apply Z.ltb_lt; lia).
  reflexivity.
Qed.

Lemma datetime_in_range_valid (seconds : Z) :
  valid_timestamp seconds -> datetime_in_range (seconds * 1000000) = true.
Proof.
  unfold valid_timestamp, datetime_in_range, min_us, max_us, us_per_second. intros Hs.
  apply andb_true_intro. split; apply Z.leb_le; lia.
Qed.

Lemma time_t_in_range_valid (seconds : Z) :
  valid_timestamp seconds -> time_t_in_range (JInt seconds) seconds = true.
Proof.
  unfold valid_timestamp, time_t_in_range. intros Hs.
  apply andb_true_intro. split; [apply Z.leb_le | apply Z.ltb_lt]; lia.
Qed.

Lemma gmtime_in_range_valid (seconds : Z) :
  valid_timestamp seconds -> gmtime_in_range seconds = true.
Proof.
  unfold valid_timestamp, gmtime_in_range. intros Hs.
  apply andb_true_intro. split; apply Z.leb_le; lia.
Qed.

(** On integers within range, [fmt_time] renders the wall clock
    [ts + offset] seconds after the epoch. *)
Lemma fmt_time_int (ts offset : Z) :
  valid_offset offset -> valid_timestamp ts -> valid_timestamp (ts + offset) ->
  fmt_time (JInt ts) (JInt offset) = Ok (strftime ((ts + offset) * 1000000)).
Proof.
  intros Ho Hts Hlocal. unfold fmt_time.
  rewrite (timedelta_seconds_int _ Ho). cbn [rbind].
  rewrite (timezone_valid _ Ho). cbn [rbind].
  unfold fromtimestamp. cbn [microseconds rbind].
  unfold us_per_second. rewrite Z.div_mul by lia.
  rewrite (time_t_in_range_valid _ Hts), (gmtime_in_range_valid _ Hts). cbn [negb].
  rewrite (datetime_in_range_valid _ Hts). cbn [negb].
  replace (ts * 1000000 + offset * 1000000) with ((ts + offset) * 1000000) by lia.
  rewrite (datetime_in_range_valid _ Hlocal). cbn [negb rbind].
  reflexivity.
Qed.

Lemma local_hour_seconds (seconds : Z) :
  local_hour (seconds * 1000000) = (seconds / 3600) mod 24.
Proof.
  unfold local_hour, us_per_second. f_equal.
  now rewrite Z.div_mul_cancel_r by lia.
Qed.

Lemma local_minute_seconds (seconds : Z) :
  local_minute (seconds * 1000000) = (seconds / 60) mod 60.
Proof.
  unfold local_minute, us_per_second. f_equal.
  now rewrite Z.div_mul_cancel_r by lia.
Qed.

(** C8.  [fmt_time] is a function of its two arguments: equal
    timestamps and equal offsets give the same string.  Increasing
    the offset by [n] seconds moves the rendered wall clock by
    exactly [n] seconds: what is rendered for [ts] at offset
    [offset + n] is the wall clock [ts + offset + n] seconds after
    the epoch, the same as for [ts + n] at offset [offset]; its hour
    and minute fields are those of that instant.  The offsets are
    those a [timezone] accepts and the instants are dates a
    [datetime] can hold. *)
Theorem fmt_time_offset_shift (ts offset n : Z) :
  valid_offset offset -> valid_offset (offset + n) ->
  valid_timestamp ts -> valid_timestamp (ts + n) ->
  valid_timestamp (ts + offset) -> valid_timestamp (ts + offset + n) ->
  (forall a b a' b' : json, a = a' -> b = b' -> fmt_time a b = fmt_time a' b')
  /\ fmt_time (JInt ts) (JInt offset) = Ok (strftime ((ts + offset) * 1000000))
  /\ fmt_time (JInt ts) (JInt (offset + n)) = Ok (strftime ((ts + offset + n) * 1000000))
  /\ fmt_time (JInt ts) (JInt (offset + n)) = fmt_time (JInt (ts + n)) (JInt offset)
  /\ local_hour ((ts + offset + n) * 1000000) = ((ts + offset + n) / 3600) mod 24
  /\ local_minute ((ts + offset + n) * 1000000) = ((ts + offset + n) / 60) mod 60.
Proof.
  intros Ho Hon Hts Htsn Hl Hln.
  assert (Hshift : fmt_time (JInt ts) (JInt (offset + n))
                   = Ok (strftime ((ts + offset + n) * 1000000))).
  { rewrite fmt_time_int; [| assumption | assumption |].
    - now rewrite Z.add_assoc.
    - now rewrite Z.add_assoc. }
  repeat split.
  - now intros a b a' b' -> ->.
  - now apply fmt_time_int.
  - exact Hshift.
  - rewrite Hshift, fmt_time_int; [| assumption | assumption |].
    + now replace (ts + n + offset) with (ts + offset + n) by lia.
    + now replace (ts + n + offset) with (ts + offset + n) by lia.
  - apply local_hour_seconds.
  - apply local_minute_seconds.
Qed.

(* ================================================================ *)
(** * Further properties of the program *)

(** ** The provider calls *)

Lemma fetch_result (url : string) (params : list (string * json)) (t : list event) :
  bind (requests_get url params)
       (fun r => bind (raise_for_status r) (fun _ => response_json r)) t
  = (response_result (provider url params), (t ++ [HttpGet url params 12])%list).
Proof.
  unfold response_result, is_error_status.
  cbv beta iota delta [bind requests_get raise_for_status response_json emit ret raise].
  destruct (provider url params) as [status_code body|]; [|reflexivity].
  cbn [fst snd].
  destruct ((400 <=? status_code) && (status_code <? 600)); [reflexivity|].
  now destruct body.
Qed.

Lemma get_current_by_city_result (city units : string) (t : list event) :
  get_current_by_city city units t
  = (response_result
       (provider weather_url
          [("q", JStr city); ("appid", JStr OPENWEATHER_API_KEY); ("units", JStr units)]),
     (t ++ [HttpGet weather_url
              [("q", JStr city); ("appid", JStr OPENWEATHER_API_KEY); ("units", JStr units)]
              12])%list).
Proof. apply fetch_result. Qed.

Lemma get_current_by_coords_result (lat lon : json) (units : string) (t : list event) :
  get_current_by_coords lat lon units t
  = (response_result
       (provider weather_url
          [("lat", lat); ("lon", lon); ("appid", JStr OPENWEATHER_API_KEY);
           ("units", JStr units)]),
     (t ++ [HttpGet weather_url
              [("lat", lat); ("lon", lon); ("appid", JStr OPENWEATHER_API_KEY);
               ("units", JStr units)] 12])%list).
Proof. apply fetch_result. Qed.

Lemma get_forecast_by_coords_result (lat lon : json) (units : string) (t : list event) :
  get_forecast_by_coords lat lon units t
  = (response_result
       (provider forecast_url
          [("lat", lat); ("lon", lon); ("appid", JStr OPENWEATHER_API_KEY);
           ("units", JStr units); ("cnt", JInt 12)]),
     (t ++ [HttpGet forecast_url
              [("lat", lat); ("lon", lon); ("appid", JStr OPENWEATHER_API_KEY);
               ("units", JStr units); ("cnt", JInt 12)] 12])%list).
Proof. apply fetch_result. Qed.

(** X1.  Each of the three provider calls issues exactly one request, with a
    timeout of 12 seconds, the configured key and the units asked for
    (the forecast call also with a count of 12), and makes no second
    attempt.  It returns the body when the status is outside 400-599
    and the body is JSON; it raises [HTTPError] with the status for a
    status in 400-599, also when the body is JSON; an answer that is
    not JSON raises [JSONDecodeError], no answer raises
    [RequestError]. *)
Theorem provider_calls (city units : string) (lat lon : json) (t : list event) :
  get_current_by_city city units t
  = (response_result
       (provider weather_url
          [("q", JStr city); ("appid", JStr OPENWEATHER_API_KEY); ("units", JStr units)]),
     (t ++ [HttpGet weather_url
              [("q", JStr city); ("appid", JStr OPENWEATHER_API_KEY); ("units", JStr units)]
              12])%list)
  /\ get_current_by_coords lat lon units t
     = (response_result
          (provider weather_url
             [("lat", lat); ("lon", lon); ("appid", JStr OPENWEATHER_API_KEY);
              ("units", JStr units)]),
        (t ++ [HttpGet weather_url
                 [("lat", lat); ("lon", lon); ("appid", JStr OPENWEATHER_API_KEY);
                  ("units", JStr units)] 12])%list)
  /\ get_forecast_by_coords lat lon units t
     = (response_result
          (provider forecast_url
             [("lat", lat); ("lon", lon); ("appid", JStr OPENWEATHER_API_KEY);
              ("units", JStr units); ("cnt", JInt 12)]),
        (t ++ [HttpGet forecast_url
                 [("lat", lat); ("lon", lon); ("appid", JStr OPENWEATHER_API_KEY);
                  ("units", JStr units); ("cnt", JInt 12)] 12])%list)
  /\ (forall (status_code : Z) (body : option json),
         400 <= status_code < 600 ->
         response_result (Response status_code body) = Raise (HTTPError status_code))
  /\ (forall (status_code : Z) (v : json),
         status_code < 400 \/ 600 <= status_code ->
         response_result (Response status_code (Some v)) = Ok v).
Proof.
  split; [|split; [|split; [|split]]].
  - apply get_current_by_city_result.
  - apply get_current_by_coords_result.
  - apply get_forecast_by_coords_result.
  - intros status_code body Hs. unfold response_result, is_error_status.
    replace (400 <=? status_code) with true by (symmetry; apply Z.leb_le; lia).
    replace (status_code <? 600) with true by (symmetry; apply Z.ltb_lt; lia).
    reflexivity.
  - intros status_code v Hs. unfold response_result, is_error_status.
    destruct Hs as [Hs | Hs].
    + replace (400 <=? status_code) with false by (symmetry; apply Z.leb_gt; lia).
      reflexivity.
    + replace (status_code <? 600) with false by (symmetry; apply Z.ltb_ge; lia).
      now rewrite andb_false_r.
Qed.

(** ** The shape of a trace *)

(** The two replies with the weather texts: without a message the
    first one raises before anything is sent, and a reply the platform
    refuses ends the sequence. *)
Lemma reply_texts_eval (u : update) (current_text forecast_text : string) (t : list event) :
  (reply_markdown u current_text ;;; reply_markdown u forecast_text) t
  = match update_message u with
    | None => (Raise AttributeError, t)
    | Some _ =>
        if chat (t ++ [ReplyMarkdown current_text])
        then (reply_outcome (t ++ [ReplyMarkdown current_text; ReplyMarkdown forecast_text]),
              (t ++ [ReplyMarkdown current_text; ReplyMarkdown forecast_text])%list)
        else (Raise TelegramError, (t ++ [ReplyMarkdown current_text])%list)
    end.
Proof.
  unfold bind, reply_markdown. rewrite reply_eval.
  destruct (update_message u) as [m|] eqn:Hm; [|reflexivity].
  unfold reply_outcome at 1.
  destruct (chat (t ++ [ReplyMarkdown current_text])); [|reflexivity].
  rewrite reply_eval, Hm, <- app_assoc. reflexivity.
Qed.

(** The ways the body of the city handler ends: with the two replies
    after two requests, or with an exception after one or two requests
    and nothing sent. *)
Lemma weather_lookup_shape (u : update) (city : string) :
  (exists lat lon current_text forecast_text,
      weather_lookup u city []
      = (reply_markdown u current_text ;;; reply_markdown u forecast_text)
          [ HttpGet weather_url (city_params city) 12;
            HttpGet forecast_url (forecast_params lat lon) 12 ])
  \/ (exists e,
         weather_lookup u city [] = (Raise e, [HttpGet weather_url (city_params city) 12]))
  \/ (exists e lat lon,
         weather_lookup u city []
         = (Raise e, [ HttpGet weather_url (city_params city) 12;
                       HttpGet forecast_url (forecast_params lat lon) 12 ])).
Proof.
  remember (weather_lookup u city []) as r eqn:Hr.
  unfold weather_lookup in Hr.
  unfold bind at 1 in Hr. rewrite (get_current_by_city_result city "metric" []) in Hr.
  fold (city_params city) in Hr. cbn [app] in Hr.
  destruct (response_result (provider weather_url (city_params city))) as [current|e];
    [|right; left; exists e; exact Hr].
  unfold bind at 1, lift at 1 in Hr.
  destruct (getitem current "coord") as [coord|e]; [|right; left; exists e; exact Hr].
  unfold bind at 1, lift at 1 in Hr.
  destruct (getitem coord "lat") as [lat|e]; [|right; left; exists e; exact Hr].
  unfold bind at 1, lift at 1 in Hr.
  unfold bind at 1, lift at 1 in Hr.
  destruct (getitem coord "lon") as [lon|e]; [|right; left; exists e; exact Hr].
  unfold bind at 1 in Hr.
  rewrite (get_forecast_by_coords_result lat lon "metric" _) in Hr.
  fold (forecast_params lat lon) in Hr. cbn [app] in Hr.
  destruct (response_result (provider forecast_url (forecast_params lat lon)))
    as [forecast|e]; [|right; right; exists e, lat, lon; exact Hr].
  unfold bind at 1, lift at 1 in Hr.
  destruct (format_current_weather current) as [current_text|e];
    [|right; right; exists e, lat, lon; exact Hr].
  unfold bind at 1, lift at 1 in Hr.
  destruct (format_forecast forecast) as [forecast_text|e];
    [|right; right; exists e, lat, lon; exact Hr].
  left. exists lat, lon, current_text, forecast_text. exact Hr.
Qed.

Lemma location_lookup_shape (u : update) (latitude longitude : spec_float) :
  let lat := JFloat latitude in
  let lon := JFloat longitude in
  (exists current_text forecast_text,
      location_lookup u (Some (latitude, longitude)) []
      = (reply_markdown u current_text ;;; reply_markdown u forecast_text)
          [ HttpGet weather_url (location_params lat lon) 12;
            HttpGet forecast_url (forecast_params lat lon) 12 ])
  \/ (exists e,
         location_lookup u (Some (latitude, longitude)) []
         = (Raise e, [HttpGet weather_url (location_params lat lon) 12]))
  \/ (exists e,
         location_lookup u (Some (latitude, longitude)) []
         = (Raise e, [ HttpGet weather_url (location_params lat lon) 12;
                       HttpGet forecast_url (forecast_params lat lon) 12 ])).
Proof.
  cbv zeta.
  remember (location_lookup u (Some (latitude, longitude)) []) as r eqn:Hr.
  unfold location_lookup in Hr.
  unfold bind at 1 in Hr.
  rewrite (get_current_by_coords_result (JFloat latitude) (JFloat longitude) "metric" [])
    in Hr.
  fold (location_params (JFloat latitude) (JFloat longitude)) in Hr. cbn [app] in Hr.
  destruct (response_result
              (provider weather_url (location_params (JFloat latitude) (JFloat longitude))))
    as [current|e]; [|right; left; exists e; exact Hr].
  unfold bind at 1 in Hr.
  rewrite (get_forecast_by_coords_result (JFloat latitude) (JFloat longitude) "metric" _)
    in Hr.
  fold (forecast_params (JFloat latitude) (JFloat longitude)) in Hr. cbn [app] in Hr.
  destruct (response_result
              (provider forecast_url (forecast_params (JFloat latitude) (JFloat longitude))))
    as [forecast|e]; [|right; right; exists e; exact Hr].
  unfold bind at 1, lift at 1 in Hr.
  destruct (format_current_weather current) as [current_text|e];
    [|right; right; exists e; exact Hr].
  unfold bind at 1, lift at 1 in Hr.
  destruct (format_forecast forecast) as [forecast_text|e];
    [|right; right; exists e; exact Hr].
  left. exists current_text, forecast_text. exact Hr.
Qed.

(** The [try] statement of the city handler. *)
Lemma weather_cmd_eval (u : update) (args : list string) :
  args <> [] ->
  weather_cmd u args []
  = match weather_lookup u (join " " args) [] with
    | (Ok a, t) => (Ok a, t)
    | (Raise e, t) => weather_except u e t
    end.
Proof. intros Hargs. destruct args as [|a r]; [congruence | reflexivity]. Qed.

(** The replies and the log entries of the [except] clauses of the
    city handler. *)
Lemma weather_failure_outcome (e : exn) :
  (replies_of (weather_failure_events e) = [ReplyText city_not_found_message]
   /\ logs_of (weather_failure_events e) = [] /\ e = HTTPError 404)
  \/ (replies_of (weather_failure_events e) = [ReplyText http_failure_message]
      /\ logs_of (weather_failure_events e) = [LogException "HTTP error" e]
      /\ exists status_code, e = HTTPError status_code /\ status_code <> 404)
  \/ (replies_of (weather_failure_events e) = [ReplyText unexpected_failure_message]
      /\ logs_of (weather_failure_events e) = [LogException "Unexpected error" e]
      /\ forall status_code, e <> HTTPError status_code).
Proof.
  destruct e as [| | | | | | |code| | |];
    try (right; right; split; [reflexivity | split; [reflexivity | discriminate]]).
  unfold weather_failure_events.
  destruct (Z.eqb_spec code 404) as [-> | Hne].
  - left. split; [reflexivity | split; reflexivity].
  - right; left. split; [reflexivity | split; [reflexivity | now exists code]].
Qed.

(** Replies and log entries are no HTTP requests. *)
Lemma reply_requests (u : update) (ev : event) (t : list event) :
  is_request ev = false ->
  requests_of (snd (reply u ev t)) = requests_of t.
Proof.
  intros Hev. rewrite reply_eval. destruct (update_message u); cbn [snd]; [|reflexivity].
  unfold requests_of. rewrite filter_app. cbn [filter]. rewrite Hev. apply app_nil_r.
Qed.

Lemma reply_texts_requests (u : update) (current_text forecast_text : string)
  (t : list event) :
  requests_of (snd ((reply_markdown u current_text ;;; reply_markdown u forecast_text) t))
  = requests_of t.
Proof.
  rewrite reply_texts_eval. unfold requests_of.
  destruct (update_message u); [|reflexivity].
  destruct (chat (t ++ [ReplyMarkdown current_text])); cbn [snd];
    rewrite filter_app; cbn [filter is_request]; apply app_nil_r.
Qed.

Lemma weather_failure_requests (e : exn) :
  requests_of (weather_failure_events e) = [] /\ requests_of (weather_failure_logs e) = [].
Proof.
  unfold weather_failure_events, weather_failure_logs.
  destruct e as [| | | | | | |code| | |]; try (split; reflexivity).
  destruct (code =? 404); split; reflexivity.
Qed.

Lemma weather_except_requests (u : update) (e : exn) (t : list event) :
  requests_of (snd (weather_except u e t)) = requests_of t.
Proof.
  rewrite weather_except_eval. destruct (weather_failure_requests e) as [He Hl].
  unfold requests_of in *.
  destruct (update_message u); cbn [snd]; rewrite filter_app, ?He, ?Hl; apply app_nil_r.
Qed.

(** The HTTP requests of the city handler are those of the body of
    its [try] statement. *)
Lemma weather_cmd_requests (u : update) (args : list string) :
  args <> [] ->
  requests_of (run (weather_cmd u args))
  = requests_of (snd (weather_lookup u (join " " args) [])).
Proof.
  intros Hargs. unfold run. rewrite (weather_cmd_eval u args Hargs).
  destruct (weather_lookup u (join " " args) []) as [[a|e] t]; cbn [snd]; [reflexivity|].
  apply weather_except_requests.
Qed.

(** ** What a handler does, whatever the provider answers *)

(** X2.  Take an update that carries a message and a chat platform that
    accepts every reply.  Then the city handler returns normally, and
    it ends in exactly one of five ways, whatever its arguments and
    whatever the provider does: the usage message; the two texts,
    current conditions first and forecast second; the "city not found"
    message, after an HTTP 404; the "couldn't fetch" message, after
    another HTTP status, which is logged; the "something went wrong"
    message, after any other exception, which is logged.  So it always
    replies, it never sends the current conditions without the
    forecast, it never sends a failure message after a weather text,
    and it writes a log entry exactly when it sends one of the two
    generic failure messages. *)
Theorem weather_cmd_outcome (u : update) (m : content) (args : list string) :
  update_message u = Some m ->
  (forall t, chat t = true) ->
  fst (weather_cmd u args []) = Ok tt
  /\ let t := run (weather_cmd u args) in
     (replies_of t = [ReplyText usage_message] /\ logs_of t = [] /\ args = [])
     \/ (exists current_text forecast_text,
            replies_of t = [ReplyMarkdown current_text; ReplyMarkdown forecast_text]
            /\ logs_of t = [])
     \/ (replies_of t = [ReplyText city_not_found_message] /\ logs_of t = [])
     \/ (exists status_code,
            replies_of t = [ReplyText http_failure_message]
            /\ logs_of t = [LogException "HTTP error" (HTTPError status_code)]
            /\ status_code <> 404)
     \/ (exists e,
            replies_of t = [ReplyText unexpected_failure_message]
            /\ logs_of t = [LogException "Unexpected error" e]
            /\ forall status_code, e <> HTTPError status_code).
Proof.
  intros Hm Hchat. cbv zeta. unfold run.
  destruct args as [|a r].
  { unfold weather_cmd, reply_text. rewrite reply_eval, Hm. unfold reply_outcome.
    rewrite Hchat. split; [reflexivity|]. left. split; [|split]; reflexivity. }
  assert (Hargs : a :: r <> []) by discriminate.
  rewrite (weather_cmd_eval u _ Hargs).
  assert (Hfail : forall e t,
             replies_of t = [] -> logs_of t = [] ->
             fst (weather_except u e t) = Ok tt
             /\ ((replies_of (snd (weather_except u e t)) = [ReplyText city_not_found_message]
                  /\ logs_of (snd (weather_except u e t)) = [])
                 \/ (exists status_code,
                        replies_of (snd (weather_except u e t))
                        = [ReplyText http_failure_message]
                        /\ logs_of (snd (weather_except u e t))
                           = [LogException "HTTP error" (HTTPError status_code)]
                        /\ status_code <> 404)
                 \/ (exists e',
                        replies_of (snd (weather_except u e t))
                        = [ReplyText unexpected_failure_message]
                        /\ logs_of (snd (weather_except u e t))
                           = [LogException "Unexpected error" e']
                        /\ forall status_code, e' <> HTTPError status_code))).
  { intros e t Hr Hl. rewrite weather_except_eval, Hm. unfold reply_outcome.
    rewrite Hchat. cbn [fst snd]. split; [reflexivity|].
    unfold replies_of, logs_of in *. rewrite !filter_app, Hr, Hl. cbn [app].
    destruct (weather_failure_outcome e)
      as [(H1 & H2 & _) | [(H1 & H2 & code & -> & Hne) | (H1 & H2 & Hne)]];
      unfold replies_of, logs_of in H1, H2; rewrite H1, H2.
    - left. split; reflexivity.
    - right; left. exists code. split; [reflexivity | split; [reflexivity | exact Hne]].
    - right; right. exists e. split; [reflexivity | split; [reflexivity | exact Hne]]. }
  destruct (weather_lookup_shape u (join " " (a :: r)))
    as [(lat & lon & ct & ft & H) | [(e & H) | (e & lat & lon & H)]]; rewrite H.
  - rewrite reply_texts_eval, Hm, Hchat. unfold reply_outcome. rewrite Hchat.
    split; [reflexivity|]. right; left. exists ct, ft. split; reflexivity.
  - destruct (Hfail e [HttpGet weather_url (city_params (join " " (a :: r))) 12]
                eq_refl eq_refl) as [Hres Hcases].
    split; [exact Hres | right; right; exact Hcases].
  - destruct (Hfail e [HttpGet weather_url (city_params (join " " (a :: r))) 12;
                       HttpGet forecast_url (forecast_params lat lon) 12]
                eq_refl eq_refl) as [Hres Hcases].
    split; [exact Hres | right; right; exact Hcases].
Qed.

(** X3.  Take an update that carries a message and a chat platform that
    accepts every reply.  Then the location handler returns normally
    and ends in exactly one of two ways: the two texts, current
    conditions first and forecast second, with nothing logged; or the
    location failure message alone, with the exception logged. *)
Theorem handle_location_outcome (u : update) (m : content) :
  update_message u = Some m ->
  (forall t, chat t = true) ->
  fst (handle_location u []) = Ok tt
  /\ let t := run (handle_location u) in
     (exists current_text forecast_text,
         replies_of t = [ReplyMarkdown current_text; ReplyMarkdown forecast_text]
         /\ logs_of t = [])
     \/ (exists e,
            replies_of t = [ReplyText location_failure_message]
            /\ logs_of t = [LogException "Location handling error" e]).
Proof.
  intros Hm Hchat. cbv zeta. unfold run. rewrite handle_location_eval, Hm.
  unfold reply_outcome. 
  destruct (message_location m) as [[latitude longitude]|].
  - destruct (location_lookup_shape u latitude longitude)
      as [(ct & ft & H) | [(e & H) | (e & H)]]; cbv zeta in H; rewrite H.
    + rewrite reply_texts_eval, Hm, Hchat. unfold reply_outcome. rewrite Hchat.
      split; [reflexivity|]. left. exists ct, ft. split; reflexivity.
    + rewrite Hchat. split; [reflexivity|]. right. exists e. split; reflexivity.
    + rewrite Hchat. split; [reflexivity|]. right. exists e. split; reflexivity.
  - cbn [location_lookup raise]. rewrite Hchat. split; [reflexivity|].
    right. exists AttributeError. split; reflexivity.
Qed.

(** X4.  Neither handler issues more than two HTTP requests, and neither
    repeats one, whatever the update, the provider and the chat
    platform do: the requests of the city handler are none (without
    arguments), the current-conditions request for the arguments joined
    by single spaces, or that request followed by one forecast request;
    those of the location handler, for a new message that shares a
    location, are the current-conditions request at the shared
    coordinates, alone or followed by the forecast request at the same
    coordinates, and for every other update there are none.  Every
    request has a timeout of 12 seconds, the configured key and metric
    units. *)
Theorem handler_requests (u : update) (args : list string) :
  (requests_of (run (weather_cmd u args)) = [] /\ args = []
   \/ requests_of (run (weather_cmd u args))
      = [HttpGet weather_url (city_params (join " " args)) 12]
   \/ exists lat lon,
       requests_of (run (weather_cmd u args))
       = [ HttpGet weather_url (city_params (join " " args)) 12;
           HttpGet forecast_url (forecast_params lat lon) 12 ])
  /\ (forall latitude longitude,
         update_message u = Some (Location latitude longitude) ->
         requests_of (run (handle_location u))
         = [HttpGet weather_url (location_params (JFloat latitude) (JFloat longitude)) 12]
         \/ requests_of (run (handle_location u))
            = [ HttpGet weather_url
                  (location_params (JFloat latitude) (JFloat longitude)) 12;
                HttpGet forecast_url
                  (forecast_params (JFloat latitude) (JFloat longitude)) 12 ])
  /\ ((forall latitude longitude,
          update_message u <> Some (Location latitude longitude)) ->
      requests_of (run (handle_location u)) = []).
Proof.
  split; [|split].
  - destruct args as [|a r].
    { left. split; [|reflexivity]. unfold run, weather_cmd, reply_text.
      now rewrite reply_requests. }
    right. assert (Hargs : a :: r <> []) by discriminate.
    rewrite (weather_cmd_requests u _ Hargs).
    destruct (weather_lookup_shape u (join " " (a :: r)))
      as [(lat & lon & ct & ft & H) | [(e & H) | (e & lat & lon & H)]]; rewrite H.
    + right. exists lat, lon. now rewrite reply_texts_requests.
    + left. reflexivity.
    + right. exists lat, lon. reflexivity.
  - intros latitude longitude Hm. unfold run. rewrite handle_location_eval, Hm.
    cbn [message_location].
    assert (Hexc : forall e t,
               requests_of (t ++ location_failure_events e) = requests_of t).
    { intros e t. unfold requests_of. rewrite filter_app. apply app_nil_r. }
    destruct (location_lookup_shape u latitude longitude)
      as [(ct & ft & H) | [(e & H) | (e & H)]]; cbv zeta in H; rewrite H.
    + right.
      pose proof (reply_texts_requests u ct ft
                    [ HttpGet weather_url
                        (location_params (JFloat latitude) (JFloat longitude)) 12;
                      HttpGet forecast_url
                        (forecast_params (JFloat latitude) (JFloat longitude)) 12 ]) as Hreq.
      destruct ((reply_markdown u ct ;;; reply_markdown u ft) _) as [[a|e] t];
        cbn [snd] in *; [exact Hreq | now rewrite Hexc].
    + left. cbn [snd]. now rewrite Hexc.
    + right. cbn [snd]. now rewrite Hexc.
  - intros Hnone. unfold run. rewrite handle_location_eval.
    destruct (update_message u) as [m|]; [|reflexivity].
    destruct m as [command args'|latitude longitude|text];
      [reflexivity | now destruct (Hnone latitude longitude) | reflexivity].
Qed.

(** ** The city handler, step by step *)

(** The body of the city handler as a function of what the provider
    answers. *)
Lemma weather_lookup_eval (u : update) (city : string) :
  weather_lookup u city []
  = match response_result (provider weather_url (city_params city)) with
    | Raise e => (Raise e, [HttpGet weather_url (city_params city) 12])
    | Ok current =>
        match (coord <- getitem current "coord" ;;
               lat <- getitem coord "lat" ;;
               lon <- getitem coord "lon" ;;
               Ok (lat, lon)) with
        | Raise e => (Raise e, [HttpGet weather_url (city_params city) 12])
        | Ok (lat, lon) =>
            let requests := [ HttpGet weather_url (city_params city) 12;
                              HttpGet forecast_url (forecast_params lat lon) 12 ] in
            match response_result (provider forecast_url (forecast_params lat lon)) with
            | Raise e => (Raise e, requests)
            | Ok forecast =>
                match (current_text <- format_current_weather current ;;
                       forecast_text <- format_forecast forecast ;;
                       Ok (current_text, forecast_text)) with
                | Raise e => (Raise e, requests)
                | Ok (current_text, forecast_text) =>
                    (reply_markdown u current_text ;;; reply_markdown u forecast_text)
                      requests
                end
            end
        end
    end.
Proof.
  unfold weather_lookup.
  unfold bind at 1. rewrite (get_current_by_city_result city "metric" []).
  fold (city_params city). cbn [app].
  destruct (response_result (provider weather_url (city_params city))) as [current|e];
    [|reflexivity].
  unfold bind at 1, lift at 1.
  destruct (getitem current "coord") as [coord|e]; cbn [rbind]; [|reflexivity].
  unfold bind at 1, lift at 1.
  destruct (getitem coord "lat") as [lat|e]; cbn [rbind]; [|reflexivity].
  unfold bind at 1, lift at 1.
  unfold bind at 1, lift at 1.
  destruct (getitem coord "lon") as [lon|e]; cbn [rbind]; [|reflexivity].
  unfold bind at 1.
  rewrite (get_forecast_by_coords_result lat lon "metric" _).
  fold (forecast_params lat lon). cbn [app]. cbv zeta.
  destruct (response_result (provider forecast_url (forecast_params lat lon)))
    as [forecast|e]; [|reflexivity].
  unfold bind at 1, lift at 1.
  destruct (format_current_weather current) as [current_text|e]; cbn [rbind]; [|reflexivity].
  unfold bind at 1, lift at 1.
  destruct (format_forecast forecast) as [forecast_text|e]; cbn [rbind]; reflexivity.
Qed.

(** The body of the city handler when both calls are answered and both
    payloads can be formatted. *)
Lemma weather_lookup_texts (u : update) (city : string) (status forecast_status : Z)
  (current coord lat lon forecast : json) (current_text forecast_text : string) :
  provider weather_url (city_params city) = Response status (Some current) ->
  is_error_status status = false ->
  getitem current "coord" = Ok coord ->
  getitem coord "lat" = Ok lat ->
  getitem coord "lon" = Ok lon ->
  provider forecast_url (forecast_params lat lon) = Response forecast_status (Some forecast) ->
  is_error_status forecast_status = false ->
  format_current_weather current = Ok current_text ->
  format_forecast forecast = Ok forecast_text ->
  weather_lookup u city []
  = (reply_markdown u current_text ;;; reply_markdown u forecast_text)
      [ HttpGet weather_url (city_params city) 12;
        HttpGet forecast_url (forecast_params lat lon) 12 ].
Proof.
  intros Hcur Hst Hcoord Hlat Hlon Hfc Hfst Hct Hft.
  rewrite weather_lookup_eval, Hcur. cbn [response_result]. rewrite Hst, Hcoord.
  cbn [rbind]. rewrite Hlat. cbn [rbind]. rewrite Hlon. cbn [rbind].
  cbv zeta. rewrite Hfc. cbn [response_result]. rewrite Hfst, Hct. cbn [rbind].
  rewrite Hft. reflexivity.
Qed.

(** X5.  When the update carries a message, both calls are answered, both
    payloads can be formatted and the chat platform accepts the two
    replies, the city handler requests the forecast at the coordinates
    the current-conditions payload carries, sends the two texts,
    current conditions first, and returns normally; nothing is
    logged. *)
Theorem weather_cmd_success (u : update) (m : content) (args : list string)
  (status forecast_status : Z)
  (current coord lat lon forecast : json) (current_text forecast_text : string) :
  update_message u = Some m ->
  args <> [] ->
  provider weather_url (city_params (join " " args)) = Response status (Some current) ->
  is_error_status status = false ->
  getitem current "coord" = Ok coord ->
  getitem coord "lat" = Ok lat ->
  getitem coord "lon" = Ok lon ->
  provider forecast_url (forecast_params lat lon) = Response forecast_status (Some forecast) ->
  is_error_status forecast_status = false ->
  format_current_weather current = Ok current_text ->
  format_forecast forecast = Ok forecast_text ->
  let requests := [ HttpGet weather_url (city_params (join " " args)) 12;
                    HttpGet forecast_url (forecast_params lat lon) 12 ] in
  chat (requests ++ [ReplyMarkdown current_text]) = true ->
  chat (requests ++ [ReplyMarkdown current_text; ReplyMarkdown forecast_text]) = true ->
  weather_cmd u args []
  = (Ok tt, (requests ++ [ReplyMarkdown current_text; ReplyMarkdown forecast_text])%list).
Proof.
  intros Hm Hargs Hcur Hst Hcoord Hlat Hlon Hfc Hfst Hct Hft requests Hfirst Hsecond.
  rewrite (weather_cmd_eval u args Hargs).
  rewrite (weather_lookup_texts u _ _ _ _ _ _ _ _ _ _ Hcur Hst Hcoord Hlat Hlon Hfc Hfst
             Hct Hft).
  fold requests. rewrite reply_texts_eval, Hm, Hfirst. unfold reply_outcome.
  rewrite Hsecond. reflexivity.
Qed.

(** X6.  A current-conditions answer without coordinates (no ["coord"]
    object, or one without ["lat"] or ["lon"]) makes the city handler
    fail before the forecast request, although the payload itself
    could be formatted: the key error is logged and, when the update
    carries a message, the handler replies with the "something went
    wrong" message and ends as that reply ends. *)
Theorem weather_cmd_without_coordinates (u : update) (m : content) (args : list string)
  (status : Z) (d : list (string * json)) :
  update_message u = Some m ->
  args <> [] ->
  provider weather_url (city_params (join " " args)) = Response status (Some (JDict d)) ->
  is_error_status status = false ->
  assoc "coord" d = None
  \/ (exists c, assoc "coord" d = Some (JDict c)
                /\ (assoc "lat" c = None \/ assoc "lon" c = None)) ->
  let t := [ HttpGet weather_url (city_params (join " " args)) 12;
             LogException "Unexpected error" KeyError;
             ReplyText unexpected_failure_message ] in
  weather_cmd u args [] = (reply_outcome t, t).
Proof.
  intros Hm Hargs Hcur Hst Hcoord t.
  rewrite (weather_cmd_raise u args KeyError
             [HttpGet weather_url (city_params (join " " args)) 12] Hargs).
  { now rewrite weather_except_eval, Hm. }
  rewrite weather_lookup_eval, Hcur. cbn [response_result]. rewrite Hst.
  cbn [getitem].
  destruct Hcoord as [-> | (c & -> & Hc)]; [reflexivity|].
  cbn [rbind getitem].
  destruct (assoc "lat" c) as [lat|]; [|reflexivity]. cbn [rbind].
  destruct Hc as [Hc | ->]; [discriminate Hc | reflexivity].
Qed.

(** X7.  When the current-conditions call gets no response at all, or a
    response with a status outside 400-599 whose body is not JSON, the
    city handler stops after that one request and logs the exception;
    when the update carries a message it replies with the "something
    went wrong" message, not the "couldn't fetch" one, and ends as
    that reply ends. *)
Theorem weather_cmd_no_answer (u : update) (m : content) (args : list string) :
  update_message u = Some m ->
  args <> [] ->
  (provider weather_url (city_params (join " " args)) = NoResponse ->
   let t := [ HttpGet weather_url (city_params (join " " args)) 12;
              LogException "Unexpected error" RequestError;
              ReplyText unexpected_failure_message ] in
   weather_cmd u args [] = (reply_outcome t, t))
  /\ (forall status,
         provider weather_url (city_params (join " " args)) = Response status None ->
         is_error_status status = false ->
         let t := [ HttpGet weather_url (city_params (join " " args)) 12;
                    LogException "Unexpected error" JSONDecodeError;
                    ReplyText unexpected_failure_message ] in
         weather_cmd u args [] = (reply_outcome t, t)).
Proof.
  intros Hm Hargs. split.
  - intros Hnone t.
    rewrite (weather_cmd_raise u args RequestError
               [HttpGet weather_url (city_params (join " " args)) 12] Hargs).
    { now rewrite weather_except_eval, Hm. }
    now rewrite weather_lookup_eval, Hnone.
  - intros status Hresp Hst t.
    rewrite (weather_cmd_raise u args JSONDecodeError
               [HttpGet weather_url (city_params (join " " args)) 12] Hargs).
    { now rewrite weather_except_eval, Hm. }
    rewrite weather_lookup_eval, Hresp. cbn [response_result]. now rewrite Hst.
Qed.

(** X28.  A weather text the chat platform refuses is an error like any
    other: when the update carries a message, both calls are answered
    and both payloads can be formatted, but the platform refuses the
    first text, the second one is not sent; the exception is logged
    and the handler replies with the "something went wrong" message.
    When the platform accepts the first text and refuses the second,
    the user has the current conditions, and the same log entry and
    the same message follow.  In both cases the handler ends as the
    reply with the failure message ends. *)
Theorem weather_cmd_text_refused (u : update) (m : content) (args : list string)
  (status forecast_status : Z)
  (current coord lat lon forecast : json) (current_text forecast_text : string) :
  update_message u = Some m ->
  args <> [] ->
  provider weather_url (city_params (join " " args)) = Response status (Some current) ->
  is_error_status status = false ->
  getitem current "coord" = Ok coord ->
  getitem coord "lat" = Ok lat ->
  getitem coord "lon" = Ok lon ->
  provider forecast_url (forecast_params lat lon) = Response forecast_status (Some forecast) ->
  is_error_status forecast_status = false ->
  format_current_weather current = Ok current_text ->
  format_forecast forecast = Ok forecast_text ->
  let requests := [ HttpGet weather_url (city_params (join " " args)) 12;
                    HttpGet forecast_url (forecast_params lat lon) 12 ] in
  let failure := [ LogException "Unexpected error" TelegramError;
                   ReplyText unexpected_failure_message ] in
  (chat (requests ++ [ReplyMarkdown current_text]) = false ->
   let t := (requests ++ ReplyMarkdown current_text :: failure)%list in
   weather_cmd u args [] = (reply_outcome t, t))
  /\ (chat (requests ++ [ReplyMarkdown current_text]) = true ->
      chat (requests ++ [ReplyMarkdown current_text; ReplyMarkdown forecast_text]) = false ->
      let t := (requests ++ ReplyMarkdown current_text :: ReplyMarkdown forecast_text
                         :: failure)%list in
      weather_cmd u args [] = (reply_outcome t, t)).
Proof.
  intros Hm Hargs Hcur Hst Hcoord Hlat Hlon Hfc Hfst Hct Hft requests failure.
  rewrite (weather_cmd_eval u args Hargs).
  rewrite (weather_lookup_texts u _ _ _ _ _ _ _ _ _ _ Hcur Hst Hcoord Hlat Hlon Hfc Hfst
             Hct Hft).
  fold requests. rewrite reply_texts_eval, Hm. split.
  - intros Hfirst t. rewrite Hfirst, weather_except_eval, Hm. reflexivity.
  - intros Hfirst Hsecond t. rewrite Hfirst. unfold reply_outcome at 1.
    rewrite Hsecond, weather_except_eval, Hm. reflexivity.
Qed.

(** ** The location handler, step by step *)

Lemma location_lookup_eval (u : update) (latitude longitude : spec_float) :
  location_lookup u (Some (latitude, longitude)) []
  = let lat := JFloat latitude in
    let lon := JFloat longitude in
    match response_result (provider weather_url (location_params lat lon)) with
    | Raise e => (Raise e, [HttpGet weather_url (location_params lat lon) 12])
    | Ok current =>
        let requests := [ HttpGet weather_url (location_params lat lon) 12;
                          HttpGet forecast_url (forecast_params lat lon) 12 ] in
        match response_result (provider forecast_url (forecast_params lat lon)) with
        | Raise e => (Raise e, requests)
        | Ok forecast =>
            match (current_text <- format_current_weather current ;;
                   forecast_text <- format_forecast forecast ;;
                   Ok (current_text, forecast_text)) with
            | Raise e => (Raise e, requests)
            | Ok (current_text, forecast_text) =>
                (reply_markdown u current_text ;;; reply_markdown u forecast_text)
                  requests
            end
        end
    end.
Proof.
  unfold location_lookup. cbv zeta.
  unfold bind at 1.
  rewrite (get_current_by_coords_result (JFloat latitude) (JFloat longitude) "metric" []).
  fold (location_params (JFloat latitude) (JFloat longitude)). cbn [app].
  destruct (response_result
              (provider weather_url (location_params (JFloat latitude) (JFloat longitude))))
    as [current|e]; [|reflexivity].
  unfold bind at 1.
  rewrite (get_forecast_by_coords_result (JFloat latitude) (JFloat longitude) "metric" _).
  fold (forecast_params (JFloat latitude) (JFloat longitude)). cbn [app].
  destruct (response_result
              (provider forecast_url (forecast_params (JFloat latitude) (JFloat longitude))))
    as [forecast|e]; [|reflexivity].
  unfold bind at 1, lift at 1.
  destruct (format_current_weather current) as [current_text|e]; cbn [rbind]; [|reflexivity].
  unfold bind at 1, lift at 1.
  destruct (format_forecast forecast) as [forecast_text|e]; cbn [rbind]; reflexivity.
Qed.

(** X8.  When a new message shares a location, both calls are answered,
    both payloads can be formatted and the chat platform accepts the
    two replies, the location handler sends the two texts, current
    conditions first, and returns normally.  Both requests are made at
    the coordinates the user shared: the current-conditions payload
    needs no ["coord"] object, and one it has is not used. *)
Theorem handle_location_success (u : update) (latitude longitude : spec_float)
  (status forecast_status : Z) (current forecast : json)
  (current_text forecast_text : string) :
  update_message u = Some (Location latitude longitude) ->
  provider weather_url (location_params (JFloat latitude) (JFloat longitude))
  = Response status (Some current) ->
  is_error_status status = false ->
  provider forecast_url (forecast_params (JFloat latitude) (JFloat longitude))
  = Response forecast_status (Some forecast) ->
  is_error_status forecast_status = false ->
  format_current_weather current = Ok current_text ->
  format_forecast forecast = Ok forecast_text ->
  let requests :=
    [ HttpGet weather_url (location_params (JFloat latitude) (JFloat longitude)) 12;
      HttpGet forecast_url (forecast_params (JFloat latitude) (JFloat longitude)) 12 ] in
  chat (requests ++ [ReplyMarkdown current_text]) = true ->
  chat (requests ++ [ReplyMarkdown current_text; ReplyMarkdown forecast_text]) = true ->
  handle_location u []
  = (Ok tt, (requests ++ [ReplyMarkdown current_text; ReplyMarkdown forecast_text])%list).
Proof.
  intros Hm Hcur Hst Hfc Hfst Hct Hft requests Hfirst Hsecond.
  rewrite handle_location_eval, Hm. cbn [message_location].
  rewrite location_lookup_eval. cbv zeta. rewrite Hcur. cbn [response_result].
  rewrite Hst, Hfc. cbn [response_result]. rewrite Hfst, Hct. cbn [rbind].
  rewrite Hft. cbn [rbind]. fold requests. rewrite reply_texts_eval, Hm, Hfirst.
  unfold reply_outcome. rewrite Hsecond. reflexivity.
Qed.

(** X9.  When a new message shares a location and the current-conditions
    call of the location handler fails, with an HTTP status in 400-599
    (a 404 included), with no response or with a body that is not
    JSON, the handler makes no forecast request: it logs the
    exception, replies with the location failure message and ends as
    that reply ends. *)
Theorem handle_location_first_call_fails (u : update) (latitude longitude : spec_float)
  (e : exn) :
  update_message u = Some (Location latitude longitude) ->
  response_result
    (provider weather_url (location_params (JFloat latitude) (JFloat longitude)))
  = Raise e ->
  let t := [ HttpGet weather_url (location_params (JFloat latitude) (JFloat longitude)) 12;
             LogException "Location handling error" e;
             ReplyText location_failure_message ] in
  handle_location u [] = (reply_outcome t, t).
Proof.
  intros Hm Hfail t.
  rewrite handle_location_eval, Hm. cbn [message_location].
  rewrite location_lookup_eval. cbv zeta. now rewrite Hfail.
Qed.

(** ** The exceptions of the formatters *)

Create HintDb data_errors.

Lemma get_data_error (v : json) (k : string) (default : json) (e : exn) :
  get v k default = Raise e -> is_data_error e = true.
Proof.
  destruct v; cbn [get]; try (now intros [= <-]).
  destruct (assoc k d); discriminate.
Qed.

Lemma getitem_data_error (v : json) (k : string) (e : exn) :
  getitem v k = Raise e -> is_data_error e = true.
Proof.
  destruct v; cbn [getitem]; try (now intros [= <-]).
  destruct (assoc k d); [discriminate | now intros [= <-]].
Qed.

Lemma index0_data_error (v : json) (e : exn) :
  index0 v = Raise e -> is_data_error e = true.
Proof.
  destruct v as [| | | |[|c s]|[|x l]|]; cbn [index0];
    try discriminate; now intros [= <-].
Qed.

Lemma str_method_data_error (v : json) (e : exn) :
  str_method v = Raise e -> is_data_error e = true.
Proof. destruct v; cbn [str_method]; try discriminate; now intros [= <-]. Qed.

Lemma country_segment_data_error (v : json) (e : exn) :
  country_segment v = Raise e -> is_data_error e = true.
Proof.
  unfold country_segment. destruct (truthy v); [|discriminate].
  destruct v; cbn [str_concat]; try discriminate; now intros [= <-].
Qed.

Lemma format_spec_f_data_error (digits : nat) (v : json) (e : exn) :
  format_spec_f digits v = Raise e -> is_data_error e = true.
Proof.
  destruct v; cbn [format_spec_f]; try discriminate; try (now intros [= <-]).
  unfold float_of_int. destruct (float_of_Z z); cbn [rbind];
    try discriminate; now intros [= <-].
Qed.

Lemma microseconds_data_error (v : json) (e : exn) :
  microseconds v = Raise e -> is_data_error e = true.
Proof.
  destruct v as [| | |f| | |]; cbn [microseconds]; try discriminate;
    try (now intros [= <-]).
  destruct f as [| | |s m [|p|p]]; cbn [float_microseconds];
    try discriminate; now intros [= <-].
Qed.

Lemma fmt_time_data_error (ts tz_offset : json) (e : exn) :
  fmt_time ts tz_offset = Raise e -> is_data_error e = true.
Proof.
  unfold fmt_time, timedelta_seconds, timezone, fromtimestamp.
  destruct (microseconds tz_offset) as [us|e1] eqn:E1; cbn [rbind];
    [|intros [= <-]; exact (microseconds_data_error _ _ E1)].
  destruct ((-999999999 <=? us / us_per_day) && (us / us_per_day <=? 999999999));
    cbn [rbind]; [|now intros [= <-]].
  destruct ((- us_per_day <? us) && (us <? us_per_day)); cbn [rbind]; [|now intros [= <-]].
  destruct (microseconds ts) as [ts_us|e2] eqn:E2; cbn [rbind];
    [|intros [= <-]; exact (microseconds_data_error _ _ E2)].
  destruct (negb (time_t_in_range ts (ts_us / us_per_second))); cbn [rbind];
    [now intros [= <-]|].
  destruct (negb (gmtime_in_range (ts_us / us_per_second))); cbn [rbind];
    [now intros [= <-]|].
  destruct (negb (datetime_in_range ts_us)); cbn [rbind]; [now intros [= <-]|].
  destruct (negb (datetime_in_range (ts_us + us))); cbn [rbind];
    [now intros [= <-] | discriminate].
Qed.

Lemma time_or_na_data_error (t tz_offset : json) (e : exn) :
  time_or_na t tz_offset = Raise e -> is_data_error e = true.
Proof.
  unfold time_or_na. destruct (truthy t); [apply fmt_time_data_error | discriminate].
Qed.

Lemma slice12_data_error (v : json) (e : exn) :
  slice12 v = Raise e -> is_data_error e = true.
Proof. destruct v; cbn [slice12]; try discriminate; now intros [= <-]. Qed.

Lemma rmap_data_error {A B : Type} (f : A -> result B) (xs : list A) (e : exn) :
  (forall x e', f x = Raise e' -> is_data_error e' = true) ->
  rmap f xs = Raise e -> is_data_error e = true.
Proof.
  intros Hf. induction xs as [|x r IH]; cbn [rmap]; [discriminate|].
  destruct (f x) as [y|e1] eqn:E1; [|intros [= <-]; exact (Hf _ _ E1)].
  destruct (rmap f r) as [ys|e2]; [discriminate|].
  intros [= <-]. now apply IH.
Qed.

#[local] Hint Resolve get_data_error getitem_data_error index0_data_error
  str_method_data_error country_segment_data_error format_spec_f_data_error
  fmt_time_data_error time_or_na_data_error slice12_data_error : data_errors.

(** A failing sequence of steps: one of its steps raised. *)
Ltac bind_raise H :=
  cbv zeta in H;
  repeat
    match type of H with
    | rbind ?r _ = Raise _ =>
        let v := fresh "v" in
        let e' := fresh "e" in
        let E := fresh "E" in
        destruct r as [v|e'] eqn:E; cbn [rbind] in H;
        [| injection H as <-; try solve [eauto with data_errors]]
    end.

Lemma forecast_entry_data_error (tz_offset item : json) (e : exn) :
  forecast_entry tz_offset item = Raise e -> is_data_error e = true.
Proof.
  unfold forecast_entry. intros H. bind_raise H. discriminate H.
Qed.

(** The formatters raise nothing but the exceptions of reading a
    malformed payload (key, index, type, attribute, value, overflow
    and operating system errors): never an HTTP error. *)
Lemma formatters_data_errors (data : json) (e : exn) :
  (format_current_weather data = Raise e -> is_data_error e = true)
  /\ (format_forecast data = Raise e -> is_data_error e = true).
Proof.
  split; intros H.
  - unfold format_current_weather in H. bind_raise H. discriminate H.
  - unfold format_forecast in H. bind_raise H; [discriminate H|].
    eapply rmap_data_error; [|eassumption].
    intros x e'. apply forecast_entry_data_error.
Qed.

(** X10.  When both calls of the city handler are answered but one of the
    two payloads cannot be formatted, nothing of the answer is sent,
    not even a current-conditions text that could be formatted: after
    the two requests the exception is logged and, when the update
    carries a message, the handler replies with the "something went
    wrong" message, never the "city not found" or the "couldn't fetch"
    one, and ends as that reply ends. *)
Theorem weather_cmd_malformed_payload (u : update) (m : content) (args : list string)
  (status forecast_status : Z) (current coord lat lon forecast : json) (e : exn) :
  update_message u = Some m ->
  args <> [] ->
  provider weather_url (city_params (join " " args)) = Response status (Some current) ->
  is_error_status status = false ->
  getitem current "coord" = Ok coord ->
  getitem coord "lat" = Ok lat ->
  getitem coord "lon" = Ok lon ->
  provider forecast_url (forecast_params lat lon) = Response forecast_status (Some forecast) ->
  is_error_status forecast_status = false ->
  format_current_weather current = Raise e
  \/ (exists current_text, format_current_weather current = Ok current_text)
     /\ format_forecast forecast = Raise e ->
  let t := [ HttpGet weather_url (city_params (join " " args)) 12;
             HttpGet forecast_url (forecast_params lat lon) 12;
             LogException "Unexpected error" e;
             ReplyText unexpected_failure_message ] in
  weather_cmd u args [] = (reply_outcome t, t).
Proof.
  intros Hm Hargs Hcur Hst Hcoord Hlat Hlon Hfc Hfst Hbad t.
  assert (He : is_data_error e = true).
  { destruct Hbad as [H | [_ H]].
    - exact (proj1 (formatters_data_errors _ _) H).
    - exact (proj2 (formatters_data_errors _ _) H). }
  rewrite (weather_cmd_raise u args e
             [ HttpGet weather_url (city_params (join " " args)) 12;
               HttpGet forecast_url (forecast_params lat lon) 12 ] Hargs).
  - rewrite weather_except_eval, Hm. destruct e; try discriminate He; reflexivity.
  - rewrite weather_lookup_eval, Hcur. cbn [response_result]. rewrite Hst, Hcoord.
    cbn [rbind]. rewrite Hlat. cbn [rbind]. rewrite Hlon. cbn [rbind].
    cbv zeta. rewrite Hfc. cbn [response_result]. rewrite Hfst.
    destruct Hbad as [-> | [[ct ->] ->]]; reflexivity.
Qed.

(** X11.  The formatters raise nothing but the exceptions of reading a
    malformed payload: a key, index, type, attribute, value or
    overflow error, or the operating system error of a timestamp the
    platform cannot convert.  They never raise an HTTP error, so a
    payload that cannot be formatted is never reported as "city not
    found". *)
Theorem formatters_raise_data_errors (data : json) (e : exn) :
  format_current_weather data = Raise e \/ format_forecast data = Raise e ->
  In e [KeyError; IndexError; TypeError; AttributeError; ValueError; OverflowError;
        OSError].
Proof.
  intros H.
  assert (He : is_data_error e = true).
  { destruct H as [H | H].
    - exact (proj1 (formatters_data_errors _ _) H).
    - exact (proj2 (formatters_data_errors _ _) H). }
  destruct e; try discriminate He; cbn [In]; auto 8.
Qed.

(** ** Current conditions: the edges *)

(** X12.  A required field that is missing stops [format_current_weather]:
    a payload without a weather list or without the main object raises
    a key error, one with an empty weather list an index error, and a
    payload that is not an object an attribute error. *)
Theorem format_current_weather_missing_field (data : json) :
  ((forall d, data <> JDict d) -> format_current_weather data = Raise AttributeError)
  /\ (forall d, data = JDict d -> absent_or_dict d "sys" = true ->
        (assoc "weather" d = None -> format_current_weather data = Raise KeyError)
        /\ (assoc "weather" d = Some (JList []) ->
            format_current_weather data = Raise IndexError)
        /\ (forall w rest, assoc "weather" d = Some (JList (w :: rest)) ->
            assoc "main" d = None ->
            format_current_weather data = Raise KeyError)).
Proof.
  split.
  - intros Hnot. destruct data; try reflexivity. now destruct (Hnot d).
  - intros d -> Hsys. unfold format_current_weather.
    rewrite get_dict. cbn [rbind].
    rewrite get_dict, (field_absent_or_dict _ _ Hsys). cbn [rbind].
    rewrite get_dict. cbn [rbind getitem].
    split; [|split].
    + now intros ->.
    + now intros ->.
    + intros w rest -> ->. reflexivity.
Qed.

(** X13.  An optional object that is present but is JSON [null] is not
    treated as missing: with ["sys": null] the current-conditions
    formatter raises an attribute error, and so does the forecast
    formatter with ["city": null], although each formats the payload
    that lacks the key. *)
Theorem null_object_is_not_missing (d : list (string * json)) :
  (assoc "sys" d = Some JNull -> format_current_weather (JDict d) = Raise AttributeError)
  /\ (assoc "city" d = Some JNull -> format_forecast (JDict d) = Raise AttributeError).
Proof.
  split; intros Hnull.
  - unfold format_current_weather. rewrite !get_dict. cbn [rbind].
    unfold field at 1. rewrite Hnull. reflexivity.
  - unfold format_forecast. rewrite !get_dict. cbn [rbind].
    unfold field at 1. rewrite Hnull. reflexivity.
Qed.


(** ** Forecast: the edges *)

(** X15.  A forecast payload with no entries, because the list is missing or
    empty, is not an error: the text is the header line followed by a
    line feed.  Without a city object the place is called
    "location". *)
Theorem format_forecast_no_entries (d : list (string * json)) :
  absent_or_dict d "city" = true ->
  is_country (forecast_country d) = true ->
  assoc "list" d = None \/ assoc "list" d = Some (JList []) ->
  format_forecast (JDict d)
  = Ok (("📅 *Next 36 hours for " ++ py_str (forecast_city d)
           ++ spec_country_segment (forecast_country d) ++ "*") ++ nl)
  /\ (assoc "city" d = None ->
      format_forecast (JDict d) = Ok ("📅 *Next 36 hours for location*" ++ nl)).
Proof.
  intros Hcity Hcountry Hlist.
  assert (H : format_forecast (JDict d)
              = Ok (("📅 *Next 36 hours for " ++ py_str (forecast_city d)
                       ++ spec_country_segment (forecast_country d) ++ "*") ++ nl)).
  { unfold format_forecast.
    rewrite get_dict, (field_absent_or_dict _ _ Hcity). cbn [rbind].
    rewrite !get_dict. cbn [rbind].
    unfold forecast_country in Hcountry.
    rewrite (country_segment_country _ Hcountry). cbn [rbind].
    assert (Hl : field d "list" (JList []) = JList []).
    { unfold field. now destruct Hlist as [-> | ->]. }
    rewrite Hl. reflexivity. }
  split; [exact H|].
  intros Hnone. rewrite H.
  unfold forecast_city, forecast_country, subdict, field. rewrite Hnone. reflexivity.
Qed.



Lemma rmap_first_failure {A B : Type} (f : A -> result B) (good : list A) (ys : list B)
  (bad : A) (rest : list A) (e : exn) :
  Forall2 (fun x y => f x = Ok y) good ys ->
  f bad = Raise e ->
  rmap f (good ++ bad :: rest) = Raise e.
Proof.
  intros Hgood Hbad. induction Hgood as [|x y xs ys' Hxy _ IH]; cbn [rmap app].
  - now rewrite Hbad.
  - now rewrite Hxy, IH.
Qed.

(** X17.  The forecast text is all or nothing: when one of the first twelve
    entries cannot be rendered, [format_forecast] raises the exception
    of the first such entry and returns no text, whatever the entries
    before and after it. *)
Theorem format_forecast_first_failure (d : list (string * json))
  (good : list json) (lines : list string) (bad : json) (rest : list json) (e : exn) :
  absent_or_dict d "city" = true ->
  is_country (forecast_country d) = true ->
  field d "list" (JList []) = JList (good ++ bad :: rest) ->
  (List.length good < 12)%nat ->
  Forall2 (entry_line (forecast_timezone d)) good lines ->
  forecast_entry (forecast_timezone d) bad = Raise e ->
  format_forecast (JDict d) = Raise e.
Proof.
  intros Hcity Hcountry Hlist Hlen Hgood Hbad.
  unfold format_forecast.
  rewrite get_dict, (field_absent_or_dict _ _ Hcity). cbn [rbind].
  rewrite !get_dict. cbn [rbind].
  unfold forecast_country in Hcountry.
  rewrite (country_segment_country _ Hcountry). cbn [rbind].
  rewrite Hlist. cbn [rbind slice12].
  rewrite firstn_app.
  rewrite (firstn_all2 (n := 12) good) by lia.
  destruct (12 - List.length good)%nat as [|n] eqn:En; [lia|].
  cbn [firstn].
  unfold forecast_timezone in Hgood, Hbad.
  rewrite (rmap_first_failure _ good lines bad (firstn n rest) e); [reflexivity | | exact Hbad].
  clear - Hgood. induction Hgood; constructor; [now apply forecast_entry_line | assumption].
Qed.

(** ** Weather icons: the fallback *)

(** X18.  The thermometer is the icon of exactly the categories that contain
    none of the ten keywords, in whatever letter case. *)
Theorem icon_for_fallback (c : string) :
  icon_for c = "🌡️"
  <-> forall k, In k icon_keywords -> contains k (lower c) = false.
Proof.
  unfold icon_for, icon_keywords. split.
  - intros H k Hk.
    destruct (contains "thunder" (lower c)) eqn:E1; [discriminate H|].
    destruct (contains "drizzle" (lower c)) eqn:E2; [discriminate H|].
    destruct (contains "rain" (lower c)) eqn:E3; [discriminate H|].
    destruct (contains "snow" (lower c)) eqn:E4; [discriminate H|].
    destruct (contains "clear" (lower c)) eqn:E5; [discriminate H|].
    destruct (contains "cloud" (lower c)) eqn:E6; [discriminate H|].
    destruct (contains "mist" (lower c)) eqn:E7; [discriminate H|].
    destruct (contains "fog" (lower c)) eqn:E8; [discriminate H|].
    destruct (contains "haze" (lower c)) eqn:E9; [discriminate H|].
    destruct (contains "smoke" (lower c)) eqn:E10; [discriminate H|].
    cbn [In] in Hk.
    repeat (destruct Hk as [<- | Hk]; [assumption|]). destruct Hk.
  - intros H.
    rewrite !H by (cbn [In]; auto 12). reflexivity.
Qed.

(** ** Local time: the edges *)

Lemma string_length_app (a b : string) :
  String.length (a ++ b) = (String.length a + String.length b)%nat.
Proof. induction a as [|c a IH]; cbn [append String.length]; [reflexivity | now rewrite IH]. Qed.

Lemma holds_from_sound (P : Z -> bool) (n : nat) (z0 : Z) :
  holds_from P n z0 = true ->
  forall z, z0 <= z < z0 + Z.of_nat n -> P z = true.
Proof.
  revert z0. induction n as [|k IH]; intros z0 Hall z Hz; [lia|].
  cbn [holds_from] in Hall. apply andb_prop in Hall as [Hz0 Hrest].
  destruct (Z.eq_dec z z0) as [-> | Hne]; [exact Hz0|].
  apply (IH (z0 + 1) Hrest). lia.
Qed.

Lemma Z_below_forallb (P : Z -> bool) (n : Z) :
  holds_from P (Z.to_nat n) 0 = true ->
  forall z, 0 <= z < n -> P z = true.
Proof.
  intros Hall z Hz. apply (holds_from_sound P (Z.to_nat n) 0 Hall). lia.
Qed.

Lemma pad2_length (z : Z) : 0 <= z < 100 -> String.length (pad2 z) = 2%nat.
Proof.
  intros Hz. apply Nat.eqb_eq.
  apply (Z_below_forallb (fun z => Nat.eqb (String.length (pad2 z)) 2) 100); [|exact Hz].
  vm_compute. reflexivity.
Qed.

Lemma weekday_name_length (days : Z) : String.length (weekday_name days) = 3%nat.
Proof.
  unfold weekday_name. apply Nat.eqb_eq.
  apply (Z_below_forallb
           (fun i => Nat.eqb (String.length
                                (nth (Z.to_nat i)
                                   ["Mon"; "Tue"; "Wed"; "Thu"; "Fri"; "Sat"; "Sun"]
                                   EmptyString)) 3) 7).
  - vm_compute. reflexivity.
  - apply Z.mod_pos_bound. lia.
Qed.

(** Month and day of a date depend on its day number within the
    400-year cycle only. *)
Lemma civil_from_days_cycle (days : Z) :
  let doe := (days + 719468) mod 146097 in
  snd (fst (civil_from_days days)) = snd (fst (civil_from_days (doe - 719468)))
  /\ snd (civil_from_days days) = snd (civil_from_days (doe - 719468)).
Proof.
  cbv zeta. unfold civil_from_days.
  replace ((days + 719468) mod 146097 - 719468 + 719468)
    with ((days + 719468) mod 146097) by lia.
  assert (Hdoe : 0 <= (days + 719468) mod 146097 < 146097) by (apply Z.mod_pos_bound; lia).
  rewrite (Z.div_small ((days + 719468) mod 146097) 146097) by exact Hdoe.
  replace ((days + 719468) mod 146097 - 0 * 146097)
    with ((days + 719468) mod 146097) by lia.
  replace (days + 719468 - (days + 719468) / 146097 * 146097)
    with ((days + 719468) mod 146097) by (rewrite Z.mod_eq; lia).
  cbn [fst snd]. split; reflexivity.
Qed.

(** Each day of the 400-year cycle has a month with a three-letter
    name and a day from 1 to 31. *)
Lemma civil_cycle_check :
  holds_from (fun doe =>
                let '(_, m, d) := civil_from_days (doe - 719468) in
                Nat.eqb (String.length (month_name m)) 3 && (1 <=? d) && (d <=? 31))
             (Z.to_nat 146097) 0
  = true.
Proof. vm_compute. reflexivity. Qed.

(** So has every date. *)
Lemma civil_from_days_fields (days : Z) :
  let '(_, m, d) := civil_from_days days in
  String.length (month_name m) = 3%nat /\ 1 <= d <= 31.
Proof.
  pose proof (civil_from_days_cycle days) as [Hm Hd]. cbv zeta in Hm, Hd.
  assert (Hdoe : 0 <= (days + 719468) mod 146097 < 146097)
    by (apply Z.mod_pos_bound; lia).
  pose proof (Z_below_forallb _ 146097 civil_cycle_check _ Hdoe) as Hcheck.
  cbv beta in Hcheck.
  destruct (civil_from_days days) as [[y m] d].
  destruct (civil_from_days ((days + 719468) mod 146097 - 719468)) as [[y' m'] d'].
  cbn [fst snd] in Hm, Hd. subst m' d'.
  apply andb_prop in Hcheck as [Hcheck Hd31]. apply andb_prop in Hcheck as [Hname Hd1].
  apply Nat.eqb_eq in Hname. apply Z.leb_le in Hd1, Hd31. split; [exact Hname | lia].
Qed.

Lemma strftime_length (local_us : Z) : String.length (strftime local_us) = 16%nat.
Proof.
  unfold strftime.
  pose proof (civil_from_days_fields (local_days local_us)) as H.
  destruct (civil_from_days (local_days local_us)) as [[y m] d]. destruct H as [Hm Hd].
  rewrite !string_length_app, weekday_name_length, Hm.
  rewrite !pad2_length; [reflexivity | | | lia].
  - unfold local_minute. pose proof (Z.mod_pos_bound (local_us / (60 * us_per_second)) 60). lia.
  - unfold local_hour. pose proof (Z.mod_pos_bound (local_us / (3600 * us_per_second)) 24). lia.
Qed.

(** X19.  Whatever the timestamp and the offset (integers, floats, any JSON
    value), a time [fmt_time] returns is 16 characters long: three for
    the weekday, two for the day, three for the month, two each for
    hour and minute, and four separators. *)
Theorem fmt_time_width (ts tz_offset : json) (s : string) :
  fmt_time ts tz_offset = Ok s -> String.length s = 16%nat.
Proof.
  unfold fmt_time. intros H.
  destruct (timedelta_seconds tz_offset) as [delta|]; cbn [rbind] in H; [|discriminate H].
  destruct (timezone delta) as [tz|]; cbn [rbind] in H; [|discriminate H].
  destruct (fromtimestamp ts tz) as [local|]; cbn [rbind] in H; [|discriminate H].
  injection H as <-. apply strftime_length.
Qed.

(** X20.  A UTC offset of 24 hours or more, east or west, is rejected
    before the timestamp is looked at, whatever the timestamp is: with
    a value error when the offset is one [timedelta] can hold (from
    -999999999 days up to, but not including, 1000000000 days), with
    an overflow error beyond. *)
Theorem fmt_time_offset_out_of_range (ts : json) (offset : Z) :
  86400 <= Z.abs offset ->
  fmt_time ts (JInt offset)
  = Raise (if (-999999999 * 86400 <=? offset) && (offset <? 1000000000 * 86400)
           then ValueError else OverflowError).
Proof.
  intros Ho. unfold fmt_time, timedelta_seconds, timezone, us_per_day, us_per_second.
  cbn [microseconds rbind].
  rewrite Z.div_mul_cancel_r by lia.
  pose proof (Z.div_mod offset 86400 ltac:(lia)) as Hdiv.
  pose proof (Z.mod_pos_bound offset 86400 ltac:(lia)) as Hmod.
  destruct (Z.leb_spec (-999999999) (offset / 86400)) as [H1|H1];
    destruct (Z.leb_spec (offset / 86400) 999999999) as [H2|H2];
    destruct (Z.leb_spec (-999999999 * 86400) offset) as [H3|H3];
    destruct (Z.ltb_spec offset (1000000000 * 86400)) as [H4|H4];
    cbn [andb rbind]; try lia; try reflexivity.
  destruct (Z.ltb_spec (- (86400 * 1000000)) (offset * 1000000)) as [H5|H5];
    [|reflexivity].
  destruct (Z.ltb_spec (offset * 1000000) (86400 * 1000000)) as [H6|H6];
    [lia | reflexivity].
Qed.

Lemma strftime_minutes (s1 s2 : Z) :
  s1 / 60 = s2 / 60 -> strftime (s1 * 1000000) = strftime (s2 * 1000000).
Proof.
  intros Hmin.
  assert (Hdays : forall s, local_days (s * 1000000) = s / 60 / 1440).
  { intros s. unfold local_days, us_per_day, us_per_second.
    rewrite Z.div_mul_cancel_r by lia. rewrite Z.div_div by lia. reflexivity. }
  assert (Hhour : forall s, local_hour (s * 1000000) = (s / 60 / 60) mod 24).
  { intros s. rewrite local_hour_seconds. rewrite Z.div_div by lia. reflexivity. }
  unfold strftime.
  rewrite !Hdays, !Hhour, !local_minute_seconds, Hmin. reflexivity.
Qed.

(** X21.  Seconds are dropped, not rounded: two timestamps whose wall clocks
    fall within the same minute are rendered alike. *)
Theorem fmt_time_minute_resolution (ts1 ts2 offset : Z) :
  valid_offset offset ->
  valid_timestamp ts1 -> valid_timestamp (ts1 + offset) ->
  valid_timestamp ts2 -> valid_timestamp (ts2 + offset) ->
  (ts1 + offset) / 60 = (ts2 + offset) / 60 ->
  fmt_time (JInt ts1) (JInt offset) = fmt_time (JInt ts2) (JInt offset).
Proof.
  intros Ho H1 Hl1 H2 Hl2 Hmin.
  rewrite !fmt_time_int by assumption.
  now rewrite (strftime_minutes _ _ Hmin).
Qed.

(** ** One decimal *)

Lemma scaled_magnitude_nearest_tenth (m : positive) (e : Z) :
  nearest_integer (scaled_magnitude 10 m e)
    (10 * fst (float_fraction m e)) (snd (float_fraction m e)).
Proof.
  unfold scaled_magnitude, float_fraction.
  destruct e as [|p|p]; cbn [fst snd].
  - intros k. replace (Zpos m * 10 * 2 ^ 0 * 1 - 10 * (Zpos m * 2 ^ 0)) with 0 by lia.
    apply Z.abs_nonneg.
  - intros k.
    replace (Zpos m * 10 * 2 ^ Zpos p * 1 - 10 * (Zpos m * 2 ^ Zpos p)) with 0 by lia.
    apply Z.abs_nonneg.
  - rewrite (Z.mul_comm 10 (Zpos m)). apply round_half_even_nearest; [lia|].
    apply Z.pow_pos_nonneg; lia.
Qed.

Lemma zfill_digit (r : Z) : 0 <= r < 10 -> zfill 1 (str_of_Z r) = str_of_Z r.
Proof.
  intros Hr.
  assert (H : String.eqb (zfill 1 (str_of_Z r)) (str_of_Z r) = true).
  { apply (Z_below_forallb (fun r => String.eqb (zfill 1 (str_of_Z r)) (str_of_Z r)) 10);
      [vm_compute; reflexivity | exact Hr]. }
  now apply String.eqb_eq in H.
Qed.

(** A tie of [round_half_even] goes to the even integer. *)
Lemma round_half_even_tie (n d : Z) :
  0 <= n -> 0 < d ->
  2 * Z.abs (round_half_even n d * d - n) = d ->
  Z.even (round_half_even n d) = true.
Proof.
  intros Hn Hd. unfold round_half_even.
  pose proof (Z.div_mod n d ltac:(lia)) as Hdiv.
  pose proof (Z.mod_pos_bound n d Hd) as Hmod.
  set (q := n / d) in *. set (r := n mod d) in *.
  destruct (Z.compare_spec (2 * r) d) as [Heq | Hlt | Hgt].
  - destruct (Z.even q) eqn:Heven; [intros _; exact Heven|]. intros _.
    replace (q + 1) with (Z.succ q) by lia.
    now rewrite Z.even_succ, <- Z.negb_even, Heven.
  - intros Htie. replace (q * d - n) with (- r) in Htie by lia. lia.
  - intros Htie. replace ((q + 1) * d - n) with (d - r) in Htie by lia. lia.
Qed.

(** X22.  The temperature and the feels-like temperature of the current
    conditions are printed with exactly one decimal: for a finite
    float, the sign, the integer part, a point and one digit, which
    together are the tenth nearest to the exact value of the float;
    when the value is halfway between two tenths, the even one is
    printed. *)
Theorem format_one_decimal (s : bool) (m : positive) (e : Z) :
  let q := scaled_magnitude 10 m e in
  let num := 10 * fst (float_fraction m e) in
  let den := snd (float_fraction m e) in
  format_spec_f 1 (JFloat (S754_finite s m e))
  = Ok (sign_str s ++ str_of_Z (q / 10) ++ "." ++ str_of_Z (q mod 10))
  /\ 0 <= q mod 10 < 10
  /\ nearest_integer q num den
  /\ (2 * Z.abs (q * den - num) = den -> Z.even q = true).
Proof.
  cbv zeta.
  assert (Hmod : 0 <= scaled_magnitude 10 m e mod 10 < 10) by (apply Z.mod_pos_bound; lia).
  split; [|split; [exact Hmod | split; [apply scaled_magnitude_nearest_tenth|]]].
  - cbn [format_spec_f format_f fixed_digits].
    change (10 ^ Z.of_nat 1) with 10.
    now rewrite (zfill_digit _ Hmod).
  - unfold scaled_magnitude, float_fraction.
    destruct e as [|p|p]; cbn [fst snd]; try lia.
    rewrite (Z.mul_comm 10 (Zpos m)). apply round_half_even_tie; [lia|].
    apply Z.pow_pos_nonneg; lia.
Qed.

(** ** The handler table *)

(** A request of a trace is among its requests. *)
Lemma in_requests_of (ev : event) (t : list event) :
  In ev t -> is_request ev = true -> In ev (requests_of t).
Proof. intros Hin Hreq. apply filter_In. now split. Qed.

(** The three static handlers make one call, a reply. *)
Lemma static_handlers_eval (u : update) :
  start u [] = reply u (ReplyKeyboard start_message [[("Send my location 📍", true)]]
                          true false) []
  /\ help_cmd u [] = reply u (ReplyText help_message) []
  /\ unknown u [] = reply u (ReplyText unknown_message) [].
Proof. repeat split. Qed.

(** Which handler takes a command in a new or an edited message. *)
Lemma dispatch_command (u : update) (command : string) (args : list string) :
  effective_message u = Command command args ->
  kind u = NewMessage \/ kind u = EditedMessage ->
  dispatch u
  = if String.eqb (lower command) "start" then start u
    else if String.eqb (lower command) "help" then help_cmd u
    else if String.eqb (lower command) "weather" then weather_cmd u args
    else unknown u.
Proof.
  intros Hm Hk.
  unfold dispatch, handlers, dispatch_to, command_handler, filters_LOCATION,
    filters_COMMAND, context_args.
  rewrite Hm. destruct Hk as [-> | ->]; reflexivity.
Qed.

(** A command in a channel goes to the catch-all handler. *)
Lemma dispatch_channel_command (u : update) (command : string) (args : list string) :
  effective_message u = Command command args ->
  kind u = ChannelPost \/ kind u = EditedChannelPost ->
  dispatch u = unknown u.
Proof.
  intros Hm Hk.
  unfold dispatch, handlers, dispatch_to, command_handler, filters_LOCATION,
    filters_COMMAND.
  rewrite Hm. destruct Hk as [-> | ->]; reflexivity.
Qed.

Lemma dispatch_location (u : update) (latitude longitude : spec_float) :
  effective_message u = Location latitude longitude ->
  dispatch u = handle_location u.
Proof.
  intros Hm.
  unfold dispatch, handlers, dispatch_to, command_handler, filters_LOCATION.
  rewrite Hm. destruct (kind u); reflexivity.
Qed.

Lemma dispatch_text (u : update) (text : string) :
  effective_message u = Text text -> dispatch u = ret tt.
Proof.
  intros Hm.
  unfold dispatch, handlers, dispatch_to, command_handler, filters_LOCATION,
    filters_COMMAND.
  rewrite Hm. destruct (kind u); reflexivity.
Qed.

Lemma weather_failure_texts (e : exn) (text : string) :
  In (ReplyText text) (weather_failure_events e) ->
  In text [city_not_found_message; http_failure_message; unexpected_failure_message].
Proof.
  unfold weather_failure_events.
  destruct e as [| | | | | | |code| | |]; try destruct (code =? 404); cbn [In];
    intros H; repeat (destruct H as [H | H]; [try discriminate H; injection H as <-; auto|]);
    destruct H.
Qed.

Lemma weather_failure_logs_texts (e : exn) (text : string) :
  ~ In (ReplyText text) (weather_failure_logs e).
Proof.
  unfold weather_failure_logs.
  destruct e as [| | | | | | |code| | |]; try destruct (code =? 404); cbn [In];
    intros H; repeat (destruct H as [H | H]; [discriminate H|]); destruct H.
Qed.

(** The texts the [except] clauses of the city handler send with
    [reply_text]. *)
Lemma weather_except_texts (u : update) (e : exn) (t : list event) (text : string) :
  In (ReplyText text) (snd (weather_except u e t)) ->
  In (ReplyText text) t
  \/ In text [city_not_found_message; http_failure_message; unexpected_failure_message].
Proof.
  rewrite weather_except_eval.
  destruct (update_message u); cbn [snd]; intros H; apply in_app_or in H;
    destruct H as [H | H]; auto.
  - right. exact (weather_failure_texts _ _ H).
  - destruct (weather_failure_logs_texts _ _ H).
Qed.

(** The texts the city handler sends with [reply_text]. *)
Lemma weather_cmd_reply_texts (u : update) (args : list string) (text : string) :
  In (ReplyText text) (run (weather_cmd u args)) ->
  In text [usage_message; city_not_found_message; http_failure_message;
           unexpected_failure_message].
Proof.
  unfold run. destruct args as [|a r].
  - unfold weather_cmd, reply_text. rewrite reply_eval.
    destruct (update_message u); cbn [snd app In]; [|tauto].
    intros [[= <-] | []]. now left.
  - assert (Hargs : a :: r <> []) by discriminate. intros H. right.
    rewrite (weather_cmd_eval u _ Hargs) in H.
    assert (Hexc : forall e t,
               ~ In (ReplyText text) t ->
               In (ReplyText text) (snd (weather_except u e t)) ->
               In text [city_not_found_message; http_failure_message;
                        unexpected_failure_message]).
    { intros e t Hnot Hin. destruct (weather_except_texts _ _ _ _ Hin); tauto. }
    destruct (weather_lookup_shape u (join " " (a :: r)))
      as [(lat & lon & ct & ft & Hs) | [(e & Hs) | (e & lat & lon & Hs)]];
      rewrite Hs in H.
    + rewrite reply_texts_eval in H. unfold reply_outcome in H.
      destruct (update_message u); [destruct (chat _); [destruct (chat _)|]|];
        first
          [ apply Hexc in H;
            [ exact H
            | cbn [app In]; intros Hin;
              repeat (destruct Hin as [Hin | Hin]; [discriminate Hin|]); destruct Hin ]
          | cbn [snd app In] in H;
            repeat (destruct H as [H | H]; [discriminate H|]); destruct H ].
    + apply Hexc in H; [exact H|]. cbn [In].
      intros Hin; repeat (destruct Hin as [Hin | Hin]; [discriminate Hin|]); destruct Hin.
    + apply Hexc in H; [exact H|]. cbn [In].
      intros Hin; repeat (destruct Hin as [Hin | Hin]; [discriminate Hin|]); destruct Hin.
Qed.

(** X23.  The catch-all handler is registered last, so it is a last resort.
    A command whose name is none of start, help and weather, in any
    letter case, goes to it whatever follows the command: in a new
    message the bot makes one call, the reply with the "didn't
    understand" message, and the handler ends as that reply ends; in
    an edited message or in a channel the handler raises
    [AttributeError] and nothing is sent.  The three known commands,
    in a new or an edited message, never get that message, although
    the filter of the catch-all takes them too; in a channel they go
    to the catch-all, which raises.  A message that is neither a
    command nor a location makes the bot do nothing. *)
Theorem unknown_is_last_resort :
  (forall u command args,
      effective_message u = Command command args ->
      ~ In (lower command) ["start"; "help"; "weather"] ->
      dispatch u []
      = match update_message u with
        | Some _ => (reply_outcome [ReplyText unknown_message],
                     [ReplyText unknown_message])
        | None => (Raise AttributeError, [])
        end)
  /\ (forall u command args,
         effective_message u = Command command args ->
         kind u = NewMessage \/ kind u = EditedMessage ->
         In (lower command) ["start"; "help"; "weather"] ->
         filters_COMMAND u = true
         /\ ~ In (ReplyText unknown_message) (run (dispatch u)))
  /\ (forall u command args,
         effective_message u = Command command args ->
         kind u = ChannelPost \/ kind u = EditedChannelPost ->
         dispatch u [] = (Raise AttributeError, []))
  /\ (forall u text, effective_message u = Text text -> dispatch u [] = (Ok tt, [])).
Proof.
  split; [|split; [|split]].
  - intros u command args Hm Hnot.
    assert (Hu : dispatch u = unknown u).
    { destruct (kind u) eqn:Hk;
        try (apply (dispatch_channel_command u command args Hm); auto; fail);
        rewrite (dispatch_command u command args Hm) by auto;
        (destruct (String.eqb_spec (lower command) "start") as [E|_];
         [destruct Hnot; rewrite E; cbn [In]; auto|]);
        (destruct (String.eqb_spec (lower command) "help") as [E|_];
         [destruct Hnot; rewrite E; cbn [In]; auto|]);
        (destruct (String.eqb_spec (lower command) "weather") as [E|_];
         [destruct Hnot; rewrite E; cbn [In]; auto|]);
        reflexivity. }
    rewrite Hu. unfold unknown, reply_text. now rewrite reply_eval.
  - intros u command args Hm Hk Hin. split.
    { unfold filters_COMMAND. now rewrite Hm. }
    rewrite (dispatch_command u command args Hm Hk). unfold run.
    destruct (String.eqb_spec (lower command) "start") as [_|N1].
    { unfold start. rewrite reply_eval. destruct (update_message u); cbn [snd app In];
        [|tauto]. intros [H | []]. discriminate H. }
    destruct (String.eqb_spec (lower command) "help") as [_|N2].
    { unfold help_cmd, reply_text. rewrite reply_eval.
      destruct (update_message u); cbn [snd app In]; [|tauto].
      intros [H | []]. discriminate H. }
    destruct (String.eqb_spec (lower command) "weather") as [_|N3].
    { intros H. apply weather_cmd_reply_texts in H. cbn [In] in H.
      repeat (destruct H as [H | H]; [discriminate H|]). destruct H. }
    cbn [In] in Hin. destruct Hin as [H | [H | [H | []]]]; congruence.
  - intros u command args Hm Hk.
    rewrite (dispatch_channel_command u command args Hm Hk).
    unfold unknown, reply_text. rewrite reply_eval. unfold update_message.
    destruct Hk as [-> | ->]; reflexivity.
  - intros u text Hm. now rewrite (dispatch_text u text Hm).
Qed.

(** X24.  Only the weather command with at least one argument and a shared
    location make the bot call the provider: the start and help
    commands, the weather command without arguments, every other
    command and every other message never cause an HTTP request.  Nor
    does a command in a channel, or a location that does not come in a
    new message. *)
Theorem dispatch_requests (u : update) (ev : event) :
  In ev (run (dispatch u)) ->
  is_request ev = true ->
  (exists command args,
      effective_message u = Command command args /\ lower command = "weather"
      /\ args <> [] /\ (kind u = NewMessage \/ kind u = EditedMessage))
  \/ (exists latitude longitude,
         effective_message u = Location latitude longitude /\ kind u = NewMessage).
Proof.
  intros Hin Hreq. pose proof (in_requests_of _ _ Hin Hreq) as H. clear Hin.
  unfold run in H.
  assert (Hreply : forall ev', is_request ev' = false ->
                               ~ In ev (requests_of (snd (reply u ev' [])))).
  { intros ev' Hev'. rewrite (reply_requests u ev' [] Hev'). intros []. }
  destruct (effective_message u) as [command args|latitude longitude|text] eqn:Hm.
  - assert (Hk : (kind u = NewMessage \/ kind u = EditedMessage)
                 \/ (kind u = ChannelPost \/ kind u = EditedChannelPost))
      by (destruct (kind u); auto).
    destruct Hk as [Hk | Hk].
    + rewrite (dispatch_command u command args Hm Hk) in H.
      destruct (String.eqb_spec (lower command) "start") as [_|_];
        [now apply Hreply in H|].
      destruct (String.eqb_spec (lower command) "help") as [_|_];
        [now apply Hreply in H|].
      destruct (String.eqb_spec (lower command) "weather") as [E|_];
        [|now apply Hreply in H].
      destruct args as [|x r]; [now apply Hreply in H|].
      left. exists command, (x :: r). repeat split; [exact E | discriminate | exact Hk].
    + rewrite (dispatch_channel_command u command args Hm Hk) in H.
      now apply Hreply in H.
  - rewrite (dispatch_location u latitude longitude Hm), handle_location_eval in H.
    unfold update_message in H.
    destruct (kind u) eqn:Hk; try (destruct H; fail).
    right. exists latitude, longitude. now split.
  - rewrite (dispatch_text u text Hm) in H. destruct H.
Qed.

(** The city handler, given an update without a message. *)
Lemma weather_cmd_without_message (u : update) (args : list string) :
  update_message u = None ->
  fst (weather_cmd u args []) = Raise AttributeError
  /\ replies_of (run (weather_cmd u args)) = [].
Proof.
  intros Hm. unfold run. destruct args as [|a r].
  { unfold weather_cmd, reply_text. rewrite reply_eval, Hm. now split. }
  assert (Hargs : a :: r <> []) by discriminate.
  rewrite (weather_cmd_eval u _ Hargs).
  assert (Hexc : forall e t,
             replies_of t = [] ->
             fst (weather_except u e t) = Raise AttributeError
             /\ replies_of (snd (weather_except u e t)) = []).
  { intros e t Ht. rewrite weather_except_eval, Hm. split; [reflexivity|].
    cbn [snd]. unfold replies_of in *. rewrite filter_app, Ht.
    unfold weather_failure_logs.
    destruct e as [| | | | | | |code| | |]; try destruct (code =? 404); reflexivity. }
  destruct (weather_lookup_shape u (join " " (a :: r)))
    as [(lat & lon & ct & ft & Hs) | [(e & Hs) | (e & lat & lon & Hs)]]; rewrite Hs.
  - rewrite reply_texts_eval, Hm. now apply Hexc.
  - now apply Hexc.
  - now apply Hexc.
Qed.

(** X29.  An update that is not a new message (an edited message, which
    every refresh of a live location is, or a channel post) is never
    answered: whatever handler takes it, no reply is sent, and unless
    the update is neither a command nor a location the handler raises
    [AttributeError].  An edited weather command still makes the
    provider calls and a log entry before it raises. *)
Theorem no_reply_without_message (u : update) :
  update_message u = None ->
  replies_of (run (dispatch u)) = []
  /\ fst (dispatch u [])
     = match effective_message u with
       | Text _ => Ok tt
       | _ => Raise AttributeError
       end.
Proof.
  intros Hnone.
  assert (Hreply : forall ev,
             fst (reply u ev []) = Raise AttributeError
             /\ replies_of (snd (reply u ev [])) = []).
  { intros ev. rewrite reply_eval, Hnone. now split. }
  unfold run.
  destruct (effective_message u) as [command args|latitude longitude|text] eqn:Hm.
  - assert (Hk : (kind u = NewMessage \/ kind u = EditedMessage)
                 \/ (kind u = ChannelPost \/ kind u = EditedChannelPost))
      by (destruct (kind u); auto).
    destruct Hk as [Hk | Hk].
    + rewrite (dispatch_command u command args Hm Hk).
      destruct (String.eqb (lower command) "start");
        [destruct (Hreply (ReplyKeyboard start_message [[("Send my location 📍", true)]]
                             true false)); now split|].
      destruct (String.eqb (lower command) "help");
        [destruct (Hreply (ReplyText help_message)); now split|].
      destruct (String.eqb (lower command) "weather");
        [|destruct (Hreply (ReplyText unknown_message)); now split].
      destruct (weather_cmd_without_message u args Hnone). now split.
    + rewrite (dispatch_channel_command u command args Hm Hk).
      destruct (Hreply (ReplyText unknown_message)); now split.
  - rewrite (dispatch_location u latitude longitude Hm), handle_location_eval, Hnone.
    now split.
  - rewrite (dispatch_text u text Hm). now split.
Qed.

(** ** Forecast: defaults and the country code *)

(** The text of a forecast payload whose entries are well formed. *)
Lemma format_forecast_ok (d : list (string * json)) (items : list json)
  (lines : list string) :
  absent_or_dict d "city" = true ->
  is_country (forecast_country d) = true ->
  field d "list" (JList []) = JList items ->
  Forall2 (entry_line (forecast_timezone d)) (firstn 12 items) lines ->
  format_forecast (JDict d)
  = Ok (("📅 *Next 36 hours for " ++ py_str (forecast_city d)
           ++ spec_country_segment (forecast_country d) ++ "*")
          ++ nl ++ join nl (map bullet lines)).
Proof.
  intros Hcity Hcountry Hlist Hlines.
  unfold format_forecast.
  rewrite get_dict, (field_absent_or_dict _ _ Hcity). cbn [rbind].
  rewrite !get_dict. cbn [rbind].
  unfold forecast_country in Hcountry.
  rewrite (country_segment_country _ Hcountry). cbn [rbind].
  rewrite Hlist. cbn [rbind slice12].
  unfold forecast_timezone in Hlines.
  rewrite (Forall2_entry_lines _ _ _ Hlines). reflexivity.
Qed.

(** X25.  The optional fields of a forecast payload have defaults: without a
    city name the header says "location", without a country code it
    has no country segment, and without a UTC offset the times of the
    entries are rendered at offset 0; a payload without a city object
    lacks all three. *)
Theorem format_forecast_defaults (d : list (string * json)) (items : list json)
  (lines : list string) :
  absent_or_dict d "city" = true ->
  is_country (forecast_country d) = true ->
  field d "list" (JList []) = JList items ->
  Forall2 (entry_line (forecast_timezone d)) (firstn 12 items) lines ->
  exists name segment,
    format_forecast (JDict d)
    = Ok (("📅 *Next 36 hours for " ++ name ++ segment ++ "*")
            ++ nl ++ join nl (map bullet lines))
    /\ (assoc "name" (subdict d "city") = None -> name = "location")
    /\ (assoc "country" (subdict d "city") = None -> segment = EmptyString)
    /\ (assoc "timezone" (subdict d "city") = None ->
        Forall2 (entry_line (JInt 0)) (firstn 12 items) lines)
    /\ (assoc "city" d = None -> subdict d "city" = []).
Proof.
  intros Hcity Hcountry Hlist Hlines.
  exists (py_str (forecast_city d)), (spec_country_segment (forecast_country d)).
  split; [exact (format_forecast_ok d items lines Hcity Hcountry Hlist Hlines)|].
  split; [|split; [|split]].
  - intros H. unfold forecast_city. now rewrite (field_absent _ _ _ H).
  - intros H. unfold forecast_country. now rewrite (field_absent _ _ _ H).
  - intros H. unfold forecast_timezone in Hlines. now rewrite (field_absent _ _ _ H) in Hlines.
  - intros H. unfold subdict. now rewrite H.
Qed.

(** X26.  A country code that is neither a string nor an empty value, such
    as a number other than 0 or [true], is an error and not a missing
    code: [format_forecast] raises a type error before it looks at the
    entries. *)
Theorem format_forecast_country_type (d : list (string * json)) :
  absent_or_dict d "city" = true ->
  truthy (forecast_country d) = true ->
  (forall s, forecast_country d <> JStr s) ->
  format_forecast (JDict d) = Raise TypeError.
Proof.
  intros Hcity Htruthy Hnot.
  unfold format_forecast.
  rewrite get_dict, (field_absent_or_dict _ _ Hcity). cbn [rbind].
  rewrite !get_dict. cbn [rbind].
  unfold forecast_country in Htruthy, Hnot.
  unfold country_segment. rewrite Htruthy.
  destruct (field (subdict d "city") "country" (JStr EmptyString)) eqn:E;
    try reflexivity.
  now destruct (Hnot s).
Qed.

(** ** Substrings *)

Lemma startswith_spec (p s : string) :
  startswith p s = true <-> exists b, s = p ++ b.
Proof.
  revert s. induction p as [|c p IH]; intros s; cbn [startswith append].
  - split; [intros _; now exists s | reflexivity].
  - destruct s as [|c' s]; [split; [discriminate | intros [b Hb]; discriminate Hb]|].
    rewrite andb_true_iff, Ascii.eqb_eq, IH. split.
    + intros [-> [b ->]]. now exists b.
    + intros [b [= -> ->]]. split; [reflexivity | now exists b].
Qed.

(** [contains] is substring search. *)
Lemma contains_spec (sub s : string) :
  contains sub s = true <-> exists a b, s = a ++ sub ++ b.
Proof.
  induction s as [|c s IH].
  - cbn [contains]. rewrite orb_false_r, startswith_spec. split.
    + intros [b Hb]. now exists EmptyString, b.
    + intros (a & b & H). destruct a as [|c a]; [now exists b | discriminate H].
  - cbn [contains]. rewrite orb_true_iff, startswith_spec, IH. split.
    + intros [[b Hb] | (a & b & ->)].
      * now exists EmptyString, b.
      * now exists (String c a), b.
    + intros (a & b & H). destruct a as [|c' a].
      * left. now exists b.
      * right. injection H as -> ->. now exists a, b.
Qed.

(** X27.  The thunderstorm icon is the icon of exactly the categories that
    have "thunder" as a substring once lower-cased: the first rule of
    the table wins over every other keyword, wherever in the category
    the keywords stand. *)
Theorem icon_for_thunder (c : string) :
  icon_for c = "⛈️" <-> exists a b, lower c = a ++ "thunder" ++ b.
Proof.
  rewrite <- contains_spec. unfold icon_for.
  destruct (contains "thunder" (lower c)); [split; reflexivity|].
  split; [|discriminate].
  intros H.
  destruct (contains "drizzle" (lower c)); [discriminate H|].
  destruct (contains "rain" (lower c)); [discriminate H|].
  destruct (contains "snow" (lower c)); [discriminate H|].
  destruct (contains "clear" (lower c)); [discriminate H|].
  destruct (contains "cloud" (lower c)); [discriminate H|].
  destruct (contains "mist" (lower c) || contains "fog" (lower c)
            || contains "haze" (lower c) || contains "smoke" (lower c));
    discriminate H.
Qed.

(** ** Letter case on ASCII text *)

Lemma lower_char_upper_char (c : ascii) : lower_char (upper_char c) = lower_char c.
Proof. destruct c as [[] [] [] [] [] [] [] []]; reflexivity. Qed.

Lemma lower_char_idempotent (c : ascii) : lower_char (lower_char c) = lower_char c.
Proof. destruct c as [[] [] [] [] [] [] [] []]; reflexivity. Qed.

Lemma ascii_lower_upper (s : string) : ascii_lower (ascii_upper s) = ascii_lower s.
Proof.
  induction s as [|c r IH]; cbn [ascii_lower ascii_upper]; [reflexivity|].
  now rewrite lower_char_upper_char, IH.
Qed.

Lemma ascii_lower_idempotent (s : string) : ascii_lower (ascii_lower s) = ascii_lower s.
Proof.
  induction s as [|c r IH]; cbn [ascii_lower]; [reflexivity|].
  now rewrite lower_char_idempotent, IH.
Qed.

Lemma is_ascii_upper (s : string) : is_ascii (ascii_upper s) = is_ascii s.
Proof.
  induction s as [|c r IH]; cbn [is_ascii ascii_upper]; [reflexivity|].
  rewrite IH. f_equal. destruct c as [[] [] [] [] [] [] [] []]; reflexivity.
Qed.

Lemma is_ascii_lower (s : string) : is_ascii (ascii_lower s) = is_ascii s.
Proof.
  induction s as [|c r IH]; cbn [is_ascii ascii_lower]; [reflexivity|].
  rewrite IH. f_equal. destruct c as [[] [] [] [] [] [] [] []]; reflexivity.
Qed.

(** X30.  On ASCII text, where [str.lower] maps the letters A-Z to a-z and
    leaves every other character alone, the icon of a category does
    not depend on the case of its letters: the category in upper case
    and the category in lower case get the icon of the category as
    written. *)
Theorem icon_for_ascii_case (c : string) :
  (forall s, is_ascii s = true -> lower s = ascii_lower s) ->
  is_ascii c = true ->
  icon_for (ascii_upper c) = icon_for c /\ icon_for (ascii_lower c) = icon_for c.
Proof.
  intros Hlower Hc. split; apply icon_for_lower.
  - rewrite (Hlower (ascii_upper c)) by now rewrite is_ascii_upper.
    now rewrite ascii_lower_upper, (Hlower c Hc).
  - rewrite (Hlower (ascii_lower c)) by now rewrite is_ascii_lower.
    now rewrite ascii_lower_idempotent, (Hlower c Hc).
Qed.
End Program.

(* ================================================================== *)
(** * The properties at sample inputs *)

(** The end-to-end scenario of the specification: [/weather London]
    in a new message. *)
Example weather_london :
  dispatch fixed_repr quoted ascii_lower ascii_title "KEY" provider_london chat_delivers
    (new_message (Command "weather" ["London"])) []
  = (Ok tt,
     [ HttpGet weather_url (city_params "KEY" "London") 12;
       HttpGet forecast_url
         (forecast_params "KEY" (JFloat (decimal 515 10)) (JFloat (SFopp (decimal 12 100)))) 12;
       ReplyMarkdown
         (join nl [ "☁️ *Current weather in London, GB*";
                    "• Overcast Clouds";
                    "• Temp: 15.3°C (feels 14.1°C)";
                    "• Humidity: 80%  • Pressure: 1012 hPa";
                    "• Wind: 3.2 m/s";
                    "• Sunrise: Tue 14 Nov 22:13  • Sunset: Wed 15 Nov 07:56" ]);
       ReplyMarkdown
         (join nl [ "📅 *Next 36 hours for London, GB*";
                    "• Wed 15 Nov 00:00 – ☁️ Broken Clouds, 14°C, wind 3 m/s";
                    "• Wed 15 Nov 03:00 – 🌧️ Light Rain, 14°C, wind 4 m/s" ]) ]).
Proof. vm_compute. reflexivity. Qed.

(** Of fourteen entries the first twelve are rendered; a temperature
    halfway between two integers goes to the even one. *)
Example long_forecast_twelve :
  format_forecast fixed_repr quoted ascii_lower ascii_title long_forecast
  = Ok (join nl [ "📅 *Next 36 hours for Oslo*";
                  "• Wed 15 Nov 00:00 – ❄️ Snow, 0°C, wind 1 m/s";
                  "• Wed 15 Nov 03:00 – ❄️ Snow, 2°C, wind 1 m/s";
                  "• Wed 15 Nov 06:00 – ❄️ Snow, 2°C, wind 1 m/s";
                  "• Wed 15 Nov 09:00 – ❄️ Snow, 4°C, wind 1 m/s";
                  "• Wed 15 Nov 12:00 – ❄️ Snow, 4°C, wind 1 m/s";
                  "• Wed 15 Nov 15:00 – ❄️ Snow, 6°C, wind 1 m/s";
                  "• Wed 15 Nov 18:00 – ❄️ Snow, 6°C, wind 1 m/s";
                  "• Wed 15 Nov 21:00 – ❄️ Snow, 8°C, wind 1 m/s";
                  "• Thu 16 Nov 00:00 – ❄️ Snow, 8°C, wind 1 m/s";
                  "• Thu 16 Nov 03:00 – ❄️ Snow, 10°C, wind 1 m/s";
                  "• Thu 16 Nov 06:00 – ❄️ Snow, 10°C, wind 1 m/s";
                  "• Thu 16 Nov 09:00 – ❄️ Snow, 12°C, wind 1 m/s" ]).
Proof. vm_compute. reflexivity. Qed.


Lemma weather_cmd_empty_args_witness :
  weather_cmd fixed_repr quoted ascii_lower ascii_title "KEY" provider_london chat_delivers (new_message (Command "weather" [])) [] []
  = (Ok tt, [ReplyText usage_message])
  /\ weather_cmd fixed_repr quoted ascii_lower ascii_title "KEY" provider_london chat_delivers (edited_message (Command "weather" []))
       [] []
     = (Raise AttributeError, []).
Proof.
  split.
  - exact (proj1 (proj2 (weather_cmd_empty_args fixed_repr quoted ascii_lower ascii_title "KEY" provider_london chat_delivers
                           (new_message (Command "weather" []))))
             (Command "weather" []) eq_refl).
  - exact (proj2 (proj2 (weather_cmd_empty_args fixed_repr quoted ascii_lower ascii_title "KEY" provider_london chat_delivers
                           (edited_message (Command "weather" []))))
             eq_refl).
Defined.

(** The weather command without a city, sent by editing an earlier
    message: the command handler takes the update, and the city
    handler raises instead of replying with the usage message. *)
Lemma edited_usage_counterexample :
  command_handler ascii_lower "weather" (edited_message (Command "weather" [])) = true
  /\ context_args (edited_message (Command "weather" [])) = []
  /\ weather_cmd fixed_repr quoted ascii_lower ascii_title "KEY" provider_london chat_delivers
       (edited_message (Command "weather" [])) [] []
     = (Raise AttributeError, [])
  /\ ~ In (ReplyText usage_message)
          (run (weather_cmd fixed_repr quoted ascii_lower ascii_title "KEY" provider_london chat_delivers
                  (edited_message (Command "weather" [])) [])).
Proof.
  split; [reflexivity | split; [reflexivity | split; [reflexivity|]]].
  intros H. vm_compute in H. exact H.
Qed.

Lemma weather_cmd_city_not_found_witness :
  weather_cmd fixed_repr quoted ascii_lower ascii_title "KEY" provider_not_found chat_delivers
    (new_message (Command "weather" ["Nowhere"; "Land"])) ["Nowhere"; "Land"] []
  = (Ok tt, [ HttpGet weather_url (city_params "KEY" "Nowhere Land") 12;
              ReplyText city_not_found_message ])
  /\ (forall params timeout,
         ~ In (HttpGet forecast_url params timeout)
              (run (weather_cmd fixed_repr quoted ascii_lower ascii_title "KEY" provider_not_found chat_delivers
                      (new_message (Command "weather" ["Nowhere"; "Land"]))
                      ["Nowhere"; "Land"])))
  /\ weather_cmd fixed_repr quoted ascii_lower ascii_title "KEY" provider_not_found chat_delivers
       (edited_message (Command "weather" ["Nowhere"; "Land"])) ["Nowhere"; "Land"] []
     = (Raise AttributeError, [HttpGet weather_url (city_params "KEY" "Nowhere Land") 12]).
Proof.
  destruct (weather_cmd_city_not_found fixed_repr quoted ascii_lower ascii_title "KEY" provider_not_found chat_delivers
              (new_message (Command "weather" ["Nowhere"; "Land"]))
              ["Nowhere"; "Land"] None ltac:(discriminate) eq_refl)
    as (Hforecast & Hnew & _).
  destruct (weather_cmd_city_not_found fixed_repr quoted ascii_lower ascii_title "KEY" provider_not_found chat_delivers
              (edited_message (Command "weather" ["Nowhere"; "Land"]))
              ["Nowhere"; "Land"] None ltac:(discriminate) eq_refl)
    as (_ & _ & Hedited).
  split; [exact (Hnew (Command "weather" ["Nowhere"; "Land"]) eq_refl)|].
  split; [exact Hforecast | exact (Hedited eq_refl)].
Defined.

(** The weather command for a city the provider does not know, sent
    by editing an earlier message: the command handler takes the
    update, the provider answers 404, and the city handler raises
    instead of replying with the "city not found" message. *)
Lemma edited_city_not_found_counterexample :
  command_handler ascii_lower "weather"
    (edited_message (Command "weather" ["Nowhere"; "Land"])) = true
  /\ context_args (edited_message (Command "weather" ["Nowhere"; "Land"]))
     = ["Nowhere"; "Land"]
  /\ provider_not_found weather_url (city_params "KEY" "Nowhere Land") = Response 404 None
  /\ weather_cmd fixed_repr quoted ascii_lower ascii_title "KEY" provider_not_found chat_delivers
       (edited_message (Command "weather" ["Nowhere"; "Land"])) ["Nowhere"; "Land"] []
     = (Raise AttributeError, [HttpGet weather_url (city_params "KEY" "Nowhere Land") 12])
  /\ ~ In (ReplyText city_not_found_message)
          (run (weather_cmd fixed_repr quoted ascii_lower ascii_title "KEY" provider_not_found chat_delivers
                  (edited_message (Command "weather" ["Nowhere"; "Land"]))
                  ["Nowhere"; "Land"])).
Proof.
  split; [reflexivity | split; [reflexivity | split; [reflexivity | split; [reflexivity|]]]].
  intros H. vm_compute in H. destruct H as [H | []]. discriminate H.
Qed.

(** The forecast call answers 404 after the current-conditions call
    has succeeded: the user is told that the city was not found, and
    nothing is logged. *)
Lemma forecast_not_found_counterexample :
  provider_forecast_not_found weather_url (city_params "KEY" "London")
  = Response 200 (Some london_current)
  /\ provider_forecast_not_found forecast_url
       (forecast_params "KEY" (JFloat (decimal 515 10)) (JFloat (SFopp (decimal 12 100))))
     = Response 404 None
  /\ weather_cmd fixed_repr quoted ascii_lower ascii_title "KEY" provider_forecast_not_found chat_delivers
       (new_message (Command "weather" ["London"])) ["London"] []
     = (Ok tt,
        [ HttpGet weather_url (city_params "KEY" "London") 12;
          HttpGet forecast_url
            (forecast_params "KEY" (JFloat (decimal 515 10))
               (JFloat (SFopp (decimal 12 100)))) 12;
          ReplyText city_not_found_message ]).
Proof. repeat split; vm_compute; reflexivity. Qed.

Lemma weather_error_policy_witness :
  weather_cmd fixed_repr quoted ascii_lower ascii_title "KEY" provider_unavailable chat_delivers
    (new_message (Command "weather" ["Paris"])) ["Paris"] []
  = (Ok tt, [ HttpGet weather_url (city_params "KEY" "Paris") 12;
              LogException "HTTP error" (HTTPError 503);
              ReplyText http_failure_message ])
  /\ weather_cmd fixed_repr quoted ascii_lower ascii_title "KEY" provider_forecast_not_found chat_delivers
       (new_message (Command "weather" ["London"])) ["London"] []
     = (Ok tt, [ HttpGet weather_url (city_params "KEY" "London") 12;
                 HttpGet forecast_url
                   (forecast_params "KEY" (JFloat (decimal 515 10))
                      (JFloat (SFopp (decimal 12 100)))) 12;
                 ReplyText city_not_found_message ])
  /\ handle_location fixed_repr quoted ascii_lower ascii_title "KEY" provider_not_found chat_delivers
       (new_message (Location (decimal 1 2) (decimal 3 2))) []
     = (Ok tt, [ HttpGet weather_url
                   [("lat", JFloat (decimal 1 2)); ("lon", JFloat (decimal 3 2));
                    ("appid", JStr "KEY"); ("units", JStr "metric")] 12;
                 LogException "Location handling error" (HTTPError 404);
                 ReplyText location_failure_message ])
  /\ weather_cmd fixed_repr quoted ascii_lower ascii_title "KEY" provider_unavailable chat_delivers
       (edited_message (Command "weather" ["Paris"])) ["Paris"] []
     = (Raise AttributeError,
        [ HttpGet weather_url (city_params "KEY" "Paris") 12;
          LogException "HTTP error" (HTTPError 503) ])
  /\ handle_location fixed_repr quoted ascii_lower ascii_title "KEY" provider_not_found chat_delivers
       (edited_message (Location (decimal 1 2) (decimal 3 2))) []
     = (Raise AttributeError, []).
Proof.
  destruct (weather_error_policy fixed_repr quoted ascii_lower ascii_title "KEY" provider_unavailable chat_delivers)
    as (Hraise & _ & _ & Hsilent & _).
  destruct (weather_error_policy fixed_repr quoted ascii_lower ascii_title "KEY" provider_forecast_not_found chat_delivers)
    as (_ & Hforecast & _).
  destruct (weather_error_policy fixed_repr quoted ascii_lower ascii_title "KEY" provider_not_found chat_delivers)
    as (_ & _ & Hlocation & _ & Hedited).
  split; [|split; [|split; [|split]]].
  - apply (Hraise (new_message (Command "weather" ["Paris"])) (Command "weather" ["Paris"])
             ["Paris"] (HTTPError 503)
             [HttpGet weather_url (city_params "KEY" "Paris") 12]).
    + reflexivity.
    + discriminate.
    + reflexivity.
  - apply (Hforecast (new_message (Command "weather" ["London"]))
             (Command "weather" ["London"]) ["London"] 200 london_current
             (JDict [("lat", JFloat (decimal 515 10));
                     ("lon", JFloat (SFopp (decimal 12 100)))])
             (JFloat (decimal 515 10)) (JFloat (SFopp (decimal 12 100))) 404 None).
    + reflexivity.
    + discriminate.
    + reflexivity.
    + reflexivity.
    + reflexivity.
    + reflexivity.
    + reflexivity.
    + reflexivity.
    + reflexivity.
  - apply (Hlocation (new_message (Location (decimal 1 2) (decimal 3 2)))
             (Location (decimal 1 2) (decimal 3 2)) (HTTPError 404)
             [HttpGet weather_url
                [("lat", JFloat (decimal 1 2)); ("lon", JFloat (decimal 3 2));
                 ("appid", JStr "KEY"); ("units", JStr "metric")] 12]).
    + reflexivity.
    + reflexivity.
  - apply (Hsilent (edited_message (Command "weather" ["Paris"])) ["Paris"] (HTTPError 503)
             [HttpGet weather_url (city_params "KEY" "Paris") 12]).
    + reflexivity.
    + discriminate.
    + reflexivity.
  - apply (Hedited (edited_message (Location (decimal 1 2) (decimal 3 2)))).
    reflexivity.
Defined.

Lemma format_current_weather_without_sun_witness :
  exists line1 line2 line3 line4 line5,
    format_current_weather fixed_repr quoted ascii_lower ascii_title bare_current
    = Ok (join nl [line1; line2; line3; line4; line5;
                   "• Sunrise: N/A  • Sunset: N/A"]).
Proof.
  apply (format_current_weather_without_sun fixed_repr quoted ascii_lower ascii_title bare_fields); reflexivity.
Defined.

Lemma format_current_weather_epoch_witness :
  (exists line1 line2 line3 line4 line5,
      format_current_weather fixed_repr quoted ascii_lower ascii_title (JDict (epoch_fields 0 43200))
      = Ok (join nl [line1; line2; line3; line4; line5;
                     "• Sunrise: N/A  • Sunset: Thu 01 Jan 12:00"]))
  /\ (exists line1 line2 line3 line4 line5,
         format_current_weather fixed_repr quoted ascii_lower ascii_title (JDict (epoch_fields (-21600) 0))
         = Ok (join nl [line1; line2; line3; line4; line5;
                        "• Sunrise: Wed 31 Dec 18:00  • Sunset: N/A"])).
Proof.
  split.
  - apply (proj1 (format_current_weather_epoch fixed_repr quoted ascii_lower ascii_title (epoch_fields 0 43200)
                    "Thu 01 Jan 12:00" eq_refl)); reflexivity.
  - apply (proj2 (format_current_weather_epoch fixed_repr quoted ascii_lower ascii_title (epoch_fields (-21600) 0)
                    "Wed 31 Dec 18:00" eq_refl)); reflexivity.
Defined.

Lemma format_current_weather_defaults_witness :
  exists icon name segment line2 line3 line4 speed,
    format_current_weather fixed_repr quoted ascii_lower ascii_title bare_current
    = Ok (join nl
            [ icon ++ " *Current weather in " ++ name ++ segment ++ "*";
              line2; line3; line4;
              "• Wind: " ++ speed ++ " m/s";
              "• Sunrise: N/A  • Sunset: N/A" ])
    /\ name = "Your location" /\ speed = "0".
Proof.
  destruct (format_current_weather_defaults fixed_repr quoted ascii_lower ascii_title bare_fields "N/A" "N/A"
              eq_refl eq_refl eq_refl)
    as (icon & name & segment & l2 & l3 & l4 & speed & H & Hname & Hspeed & _).
  exists icon, name, segment, l2, l3, l4, speed.
  split; [exact H|]. split; [apply Hname | apply Hspeed]; reflexivity.
Defined.

Lemma london_forecast_entry_lines :
  Forall2 (entry_line fixed_repr quoted ascii_lower ascii_title (JInt 0))
    (firstn 12 london_forecast_items) london_forecast_lines.
Proof.
  repeat constructor.
  - apply (entry_line_intro fixed_repr quoted ascii_lower ascii_title (JInt 0)
             [("dt", JInt 1700006400); ("main", JDict [("temp", JFloat (decimal 145 10))]);
              ("weather", JList [JDict [("main", JStr "Clouds");
                                        ("description", JStr "broken clouds")]]);
              ("wind", JDict [("speed", JInt 3)])]
             [("temp", JFloat (decimal 145 10))]
             [("main", JStr "Clouds"); ("description", JStr "broken clouds")] []
             (JInt 1700006400) (JFloat (decimal 145 10)) "Clouds" "broken clouds"
             "Wed 15 Nov 00:00" "14"); reflexivity.
  - apply (entry_line_intro fixed_repr quoted ascii_lower ascii_title (JInt 0)
             [("dt", JInt 1700017200); ("main", JDict [("temp", JFloat (decimal 1351 100))]);
              ("weather", JList [JDict [("main", JStr "Rain");
                                        ("description", JStr "light rain")]]);
              ("wind", JDict [("speed", JInt 4)])]
             [("temp", JFloat (decimal 1351 100))]
             [("main", JStr "Rain"); ("description", JStr "light rain")] []
             (JInt 1700017200) (JFloat (decimal 1351 100)) "Rain" "light rain"
             "Wed 15 Nov 03:00" "14"); reflexivity.
Defined.

Lemma format_forecast_entries_witness :
  format_forecast fixed_repr quoted ascii_lower ascii_title london_forecast
  = Ok (join nl [ "📅 *Next 36 hours for London, GB*";
                  "• Wed 15 Nov 00:00 – ☁️ Broken Clouds, 14°C, wind 3 m/s";
                  "• Wed 15 Nov 03:00 – 🌧️ Light Rain, 14°C, wind 4 m/s" ])
  /\ (List.length london_forecast_lines <= 12)%nat.
Proof.
  destruct (format_forecast_entries fixed_repr quoted ascii_lower ascii_title
              london_forecast_fields london_forecast_items london_forecast_lines
              eq_refl eq_refl eq_refl london_forecast_entry_lines)
    as (H & Hle & _).
  split; [exact H | exact Hle].
Defined.


Lemma fmt_time_offset_shift_witness :
  fmt_time (JInt 1700000000) (JInt 0) = Ok "Tue 14 Nov 22:13"
  /\ fmt_time (JInt 1700000000) (JInt (0 + 19800)) = Ok "Wed 15 Nov 03:43"
  /\ fmt_time (JInt 1700000000) (JInt (0 + 19800))
     = fmt_time (JInt (1700000000 + 19800)) (JInt 0).
Proof.
  destruct (fmt_time_offset_shift 1700000000 0 19800) as (_ & H0 & Hn & Hshift & _).
  - unfold valid_offset. lia.
  - unfold valid_offset. lia.
  - unfold valid_timestamp. lia.
  - unfold valid_timestamp. lia.
  - unfold valid_timestamp. lia.
  - unfold valid_timestamp. lia.
  - split; [exact H0 | split; [exact Hn | exact Hshift]].
Defined.

(* ================================================================== *)
(** * The further properties at sample inputs *)

Lemma provider_calls_witness :
  response_result (Response 404 (Some JNull)) = Raise (HTTPError 404)
  /\ response_result (Response 302 (Some JNull)) = Ok JNull.
Proof.
  destruct (provider_calls "KEY" provider_london "London" "metric" JNull JNull [])
    as (_ & _ & _ & Herror & Hbody).
  split; [apply Herror; lia | apply Hbody; left; lia].
Defined.

Lemma weather_cmd_outcome_witness :
  fst (weather_cmd fixed_repr quoted ascii_lower ascii_title "KEY" provider_unavailable chat_delivers
         (new_message (Command "weather" ["Paris"])) ["Paris"] [])
  = Ok tt.
Proof.
  exact (proj1 (weather_cmd_outcome fixed_repr quoted ascii_lower ascii_title "KEY" provider_unavailable chat_delivers
                  (new_message (Command "weather" ["Paris"])) (Command "weather" ["Paris"])
                  ["Paris"] eq_refl (fun _ => eq_refl))).
Defined.

Lemma handle_location_outcome_witness :
  fst (handle_location fixed_repr quoted ascii_lower ascii_title "KEY" provider_london chat_delivers
         (new_message (Location (decimal 1 2) (decimal 3 2))) [])
  = Ok tt.
Proof.
  exact (proj1 (handle_location_outcome fixed_repr quoted ascii_lower ascii_title "KEY" provider_london chat_delivers
                  (new_message (Location (decimal 1 2) (decimal 3 2)))
                  (Location (decimal 1 2) (decimal 3 2)) eq_refl (fun _ => eq_refl))).
Defined.

Lemma handler_requests_witness :
  (requests_of
     (run (handle_location fixed_repr quoted ascii_lower ascii_title "KEY" provider_not_found chat_delivers
             (new_message (Location (decimal 1 2) (decimal 3 2)))))
   = [ HttpGet weather_url
         (location_params "KEY" (JFloat (decimal 1 2)) (JFloat (decimal 3 2))) 12 ]
   \/ requests_of
        (run (handle_location fixed_repr quoted ascii_lower ascii_title "KEY" provider_not_found chat_delivers
                (new_message (Location (decimal 1 2) (decimal 3 2)))))
      = [ HttpGet weather_url
            (location_params "KEY" (JFloat (decimal 1 2)) (JFloat (decimal 3 2))) 12;
          HttpGet forecast_url
            (forecast_params "KEY" (JFloat (decimal 1 2)) (JFloat (decimal 3 2))) 12 ])
  /\ requests_of
       (run (handle_location fixed_repr quoted ascii_lower ascii_title "KEY" provider_london chat_delivers
               (edited_message (Location (decimal 1 2) (decimal 3 2)))))
     = [].
Proof.
  split.
  - exact (proj1 (proj2 (handler_requests fixed_repr quoted ascii_lower ascii_title "KEY" provider_not_found chat_delivers
                           (new_message (Location (decimal 1 2) (decimal 3 2))) []))
             (decimal 1 2) (decimal 3 2) eq_refl).
  - apply (proj2 (proj2 (handler_requests fixed_repr quoted ascii_lower ascii_title "KEY" provider_london chat_delivers
                           (edited_message (Location (decimal 1 2) (decimal 3 2))) []))).
    intros latitude longitude H. discriminate H.
Defined.

Lemma weather_cmd_success_witness :
  weather_cmd fixed_repr quoted ascii_lower ascii_title "KEY" provider_london chat_delivers
    (new_message (Command "weather" ["London"])) ["London"] []
  = (Ok tt,
     [ HttpGet weather_url (city_params "KEY" "London") 12;
       HttpGet forecast_url (forecast_params "KEY" london_lat london_lon) 12;
       ReplyMarkdown london_current_text;
       ReplyMarkdown london_forecast_text ]).
Proof.
  apply (weather_cmd_success fixed_repr quoted ascii_lower ascii_title "KEY" provider_london chat_delivers
           (new_message (Command "weather" ["London"])) (Command "weather" ["London"])
           ["London"] 200 200
           london_current (JDict [("lat", london_lat); ("lon", london_lon)])
           london_lat london_lon london_forecast
           london_current_text london_forecast_text).
  - reflexivity.
  - discriminate.
  - reflexivity.
  - reflexivity.
  - reflexivity.
  - reflexivity.
  - reflexivity.
  - reflexivity.
  - reflexivity.
  - vm_compute. reflexivity.
  - vm_compute. reflexivity.
  - reflexivity.
  - reflexivity.
Defined.

Lemma weather_cmd_without_coordinates_witness :
  weather_cmd fixed_repr quoted ascii_lower ascii_title "KEY" provider_bare chat_delivers
    (new_message (Command "weather" ["Atlantis"])) ["Atlantis"] []
  = (Ok tt,
     [ HttpGet weather_url (city_params "KEY" "Atlantis") 12;
       LogException "Unexpected error" KeyError;
       ReplyText unexpected_failure_message ]).
Proof.
  apply (weather_cmd_without_coordinates fixed_repr quoted ascii_lower ascii_title "KEY" provider_bare chat_delivers
           (new_message (Command "weather" ["Atlantis"])) (Command "weather" ["Atlantis"])
           ["Atlantis"] 200 bare_fields).
  - reflexivity.
  - discriminate.
  - reflexivity.
  - reflexivity.
  - left. reflexivity.
Defined.

Lemma weather_cmd_no_answer_witness :
  weather_cmd fixed_repr quoted ascii_lower ascii_title "KEY" provider_silent chat_delivers
    (new_message (Command "weather" ["Lima"])) ["Lima"] []
  = (Ok tt,
     [ HttpGet weather_url (city_params "KEY" "Lima") 12;
       LogException "Unexpected error" RequestError;
       ReplyText unexpected_failure_message ])
  /\ weather_cmd fixed_repr quoted ascii_lower ascii_title "KEY" provider_html chat_down
       (new_message (Command "weather" ["Lima"])) ["Lima"] []
     = (Raise TelegramError,
        [ HttpGet weather_url (city_params "KEY" "Lima") 12;
          LogException "Unexpected error" JSONDecodeError;
          ReplyText unexpected_failure_message ]).
Proof.
  split.
  - apply (proj1 (weather_cmd_no_answer fixed_repr quoted ascii_lower ascii_title "KEY" provider_silent chat_delivers
                    (new_message (Command "weather" ["Lima"])) (Command "weather" ["Lima"])
                    ["Lima"] eq_refl ltac:(discriminate))).
    reflexivity.
  - apply (proj2 (weather_cmd_no_answer fixed_repr quoted ascii_lower ascii_title "KEY" provider_html chat_down
                    (new_message (Command "weather" ["Lima"])) (Command "weather" ["Lima"])
                    ["Lima"] eq_refl ltac:(discriminate)) 200); reflexivity.
Defined.

Lemma weather_cmd_text_refused_witness :
  weather_cmd fixed_repr quoted ascii_lower ascii_title "KEY" provider_london chat_without_markdown
    (new_message (Command "weather" ["London"])) ["London"] []
  = (Ok tt,
     [ HttpGet weather_url (city_params "KEY" "London") 12;
       HttpGet forecast_url (forecast_params "KEY" london_lat london_lon) 12;
       ReplyMarkdown london_current_text;
       LogException "Unexpected error" TelegramError;
       ReplyText unexpected_failure_message ]).
Proof.
  apply (proj1 (weather_cmd_text_refused fixed_repr quoted ascii_lower ascii_title "KEY" provider_london chat_without_markdown
                  (new_message (Command "weather" ["London"])) (Command "weather" ["London"])
                  ["London"] 200 200
                  london_current (JDict [("lat", london_lat); ("lon", london_lon)])
                  london_lat london_lon london_forecast
                  london_current_text london_forecast_text
                  eq_refl ltac:(discriminate) eq_refl eq_refl eq_refl eq_refl eq_refl
                  eq_refl eq_refl ltac:(vm_compute; reflexivity)
                  ltac:(vm_compute; reflexivity))).
  reflexivity.
Defined.

Lemma handle_location_success_witness :
  handle_location fixed_repr quoted ascii_lower ascii_title "KEY" provider_london chat_delivers
    (new_message (Location (decimal 1 2) (decimal 3 2))) []
  = (Ok tt,
     [ HttpGet weather_url
         (location_params "KEY" (JFloat (decimal 1 2)) (JFloat (decimal 3 2))) 12;
       HttpGet forecast_url
         (forecast_params "KEY" (JFloat (decimal 1 2)) (JFloat (decimal 3 2))) 12;
       ReplyMarkdown london_current_text;
       ReplyMarkdown london_forecast_text ]).
Proof.
  apply (handle_location_success fixed_repr quoted ascii_lower ascii_title "KEY" provider_london chat_delivers
           (new_message (Location (decimal 1 2) (decimal 3 2)))
           (decimal 1 2) (decimal 3 2) 200 200 london_current london_forecast
           london_current_text london_forecast_text).
  - reflexivity.
  - reflexivity.
  - reflexivity.
  - reflexivity.
  - reflexivity.
  - vm_compute. reflexivity.
  - vm_compute. reflexivity.
  - reflexivity.
  - reflexivity.
Defined.

Lemma handle_location_first_call_fails_witness :
  handle_location fixed_repr quoted ascii_lower ascii_title "KEY" provider_not_found chat_delivers
    (new_message (Location (decimal 1 2) (decimal 3 2))) []
  = (Ok tt,
     [ HttpGet weather_url
         (location_params "KEY" (JFloat (decimal 1 2)) (JFloat (decimal 3 2))) 12;
       LogException "Location handling error" (HTTPError 404);
       ReplyText location_failure_message ]).
Proof.
  apply (handle_location_first_call_fails fixed_repr quoted ascii_lower ascii_title "KEY" provider_not_found chat_delivers
           (new_message (Location (decimal 1 2) (decimal 3 2)))
           (decimal 1 2) (decimal 3 2) (HTTPError 404)).
  - reflexivity.
  - reflexivity.
Defined.

Lemma formatters_raise_data_errors_witness :
  format_current_weather fixed_repr quoted ascii_lower ascii_title (JList []) = Raise AttributeError
  /\ In AttributeError
        [KeyError; IndexError; TypeError; AttributeError; ValueError; OverflowError;
         OSError].
Proof.
  split; [reflexivity|].
  apply (formatters_raise_data_errors fixed_repr quoted ascii_lower ascii_title (JList []) AttributeError).
  left. reflexivity.
Defined.

Lemma weather_cmd_malformed_payload_witness :
  weather_cmd fixed_repr quoted ascii_lower ascii_title "KEY" provider_bad_forecast chat_delivers
    (new_message (Command "weather" ["London"])) ["London"] []
  = (Ok tt,
     [ HttpGet weather_url (city_params "KEY" "London") 12;
       HttpGet forecast_url (forecast_params "KEY" london_lat london_lon) 12;
       LogException "Unexpected error" AttributeError;
       ReplyText unexpected_failure_message ]).
Proof.
  apply (weather_cmd_malformed_payload fixed_repr quoted ascii_lower ascii_title "KEY" provider_bad_forecast chat_delivers
           (new_message (Command "weather" ["London"])) (Command "weather" ["London"])
           ["London"] 200 200 london_current
           (JDict [("lat", london_lat); ("lon", london_lon)])
           london_lat london_lon (JList []) AttributeError).
  - reflexivity.
  - discriminate.
  - reflexivity.
  - reflexivity.
  - reflexivity.
  - reflexivity.
  - reflexivity.
  - reflexivity.
  - reflexivity.
  - right. split; [exists london_current_text; vm_compute; reflexivity | reflexivity].
Defined.

Lemma format_current_weather_missing_field_witness :
  format_current_weather fixed_repr quoted ascii_lower ascii_title (JStr "rain") = Raise AttributeError
  /\ format_current_weather fixed_repr quoted ascii_lower ascii_title (JDict [("main", JDict [])]) = Raise KeyError
  /\ format_current_weather fixed_repr quoted ascii_lower ascii_title (JDict [("weather", JList [])])
     = Raise IndexError
  /\ format_current_weather fixed_repr quoted ascii_lower ascii_title (JDict [("weather", JList [JNull])])
     = Raise KeyError.
Proof.
  split; [|split; [|split]].
  - apply (proj1 (format_current_weather_missing_field fixed_repr quoted ascii_lower ascii_title (JStr "rain"))).
    discriminate.
  - apply (proj1 (proj2 (format_current_weather_missing_field fixed_repr quoted ascii_lower ascii_title
                           (JDict [("main", JDict [])]))
                    [("main", JDict [])] eq_refl eq_refl)).
    reflexivity.
  - apply (proj1 (proj2 (proj2 (format_current_weather_missing_field fixed_repr quoted ascii_lower ascii_title
                                  (JDict [("weather", JList [])]))
                           [("weather", JList [])] eq_refl eq_refl))).
    reflexivity.
  - apply (proj2 (proj2 (proj2 (format_current_weather_missing_field fixed_repr quoted ascii_lower ascii_title
                                  (JDict [("weather", JList [JNull])]))
                           [("weather", JList [JNull])] eq_refl eq_refl))
             JNull []); reflexivity.
Defined.

Lemma null_object_is_not_missing_witness :
  format_current_weather fixed_repr quoted ascii_lower ascii_title (JDict (("sys", JNull) :: bare_fields))
  = Raise AttributeError
  /\ format_forecast fixed_repr quoted ascii_lower ascii_title (JDict [("city", JNull)]) = Raise AttributeError.
Proof.
  split.
  - apply (proj1 (null_object_is_not_missing fixed_repr quoted ascii_lower ascii_title (("sys", JNull) :: bare_fields))).
    reflexivity.
  - apply (proj2 (null_object_is_not_missing fixed_repr quoted ascii_lower ascii_title [("city", JNull)])).
    reflexivity.
Defined.

Lemma format_forecast_no_entries_witness :
  format_forecast fixed_repr quoted ascii_lower ascii_title (JDict [])
  = Ok ("📅 *Next 36 hours for location*" ++ nl).
Proof.
  apply (proj2 (format_forecast_no_entries fixed_repr quoted ascii_lower ascii_title []
                  eq_refl eq_refl (or_introl eq_refl))).
  reflexivity.
Defined.


Lemma format_forecast_first_failure_witness :
  format_forecast fixed_repr quoted ascii_lower ascii_title
    (JDict [("list", JList (london_forecast_items ++ [JNull]))])
  = Raise TypeError.
Proof.
  apply (format_forecast_first_failure fixed_repr quoted ascii_lower ascii_title
           [("list", JList (london_forecast_items ++ [JNull]))]
           london_forecast_items london_forecast_lines JNull [] TypeError).
  - reflexivity.
  - reflexivity.
  - reflexivity.
  - cbn. lia.
  - exact london_forecast_entry_lines.
  - reflexivity.
Defined.

Lemma icon_for_fallback_witness : icon_for ascii_lower "Dust" = "🌡️".
Proof.
  apply (proj2 (icon_for_fallback ascii_lower "Dust")).
  intros k Hk. cbn [In icon_keywords] in Hk.
  repeat (destruct Hk as [<- | Hk]; [reflexivity|]). destruct Hk.
Defined.

Lemma fmt_time_width_witness : String.length "Tue 14 Nov 22:13" = 16%nat.
Proof.
  apply (fmt_time_width (JInt 1700000000) (JInt 0)). reflexivity.
Defined.

Lemma fmt_time_offset_out_of_range_witness :
  fmt_time JNull (JInt 86400) = Raise ValueError
  /\ fmt_time (JInt 1700000000) (JInt (-86400)) = Raise ValueError
  /\ fmt_time (JInt 1700000000) (JInt 86400000000000) = Raise OverflowError.
Proof.
  split; [|split].
  - apply (fmt_time_offset_out_of_range JNull 86400). cbn. lia.
  - apply (fmt_time_offset_out_of_range (JInt 1700000000) (-86400)). cbn. lia.
  - apply (fmt_time_offset_out_of_range (JInt 1700000000) 86400000000000). cbn. lia.
Defined.

Lemma fmt_time_minute_resolution_witness :
  fmt_time (JInt 1700000000) (JInt 19800) = fmt_time (JInt 1700000019) (JInt 19800).
Proof.
  apply (fmt_time_minute_resolution 1700000000 1700000019 19800).
  - unfold valid_offset. lia.
  - unfold valid_timestamp. lia.
  - unfold valid_timestamp. lia.
  - unfold valid_timestamp. lia.
  - unfold valid_timestamp. lia.
  - reflexivity.
Defined.

Lemma format_one_decimal_witness :
  format_spec_f 1 (JFloat (S754_finite false 4503599627370496 (-54))) = Ok "0.2"
  /\ Z.even (scaled_magnitude 10 4503599627370496 (-54)) = true.
Proof.
  destruct (format_one_decimal false 4503599627370496 (-54)) as (Hfmt & _ & _ & Htie).
  split; [exact Hfmt | apply Htie; reflexivity].
Defined.

Lemma unknown_is_last_resort_witness :
  dispatch fixed_repr quoted ascii_lower ascii_title "KEY" provider_london chat_delivers
    (new_message (Command "Forecast" ["London"])) []
  = (Ok tt, [ReplyText unknown_message])
  /\ dispatch fixed_repr quoted ascii_lower ascii_title "KEY" provider_london chat_delivers
       (edited_message (Command "Forecast" ["London"])) []
     = (Raise AttributeError, [])
  /\ ~ In (ReplyText unknown_message)
          (run (dispatch fixed_repr quoted ascii_lower ascii_title "KEY" provider_london chat_delivers
                  (new_message (Command "START" []))))
  /\ dispatch fixed_repr quoted ascii_lower ascii_title "KEY" provider_london chat_delivers (channel_post (Command "start" [])) []
     = (Raise AttributeError, [])
  /\ dispatch fixed_repr quoted ascii_lower ascii_title "KEY" provider_london chat_delivers (new_message (Text "hello")) []
     = (Ok tt, []).
Proof.
  destruct (unknown_is_last_resort fixed_repr quoted ascii_lower ascii_title "KEY" provider_london chat_delivers)
    as (Hunknown & Hknown & Hchannel & Htext).
  split; [|split; [|split; [|split]]].
  - apply (Hunknown (new_message (Command "Forecast" ["London"])) "Forecast" ["London"]
             eq_refl).
    cbn. intros [H | [H | [H | []]]]; discriminate H.
  - apply (Hunknown (edited_message (Command "Forecast" ["London"])) "Forecast" ["London"]
             eq_refl).
    cbn. intros [H | [H | [H | []]]]; discriminate H.
  - apply (Hknown (new_message (Command "START" [])) "START" [] eq_refl).
    + left. reflexivity.
    + left. reflexivity.
  - apply (Hchannel (channel_post (Command "start" [])) "start" [] eq_refl).
    left. reflexivity.
  - apply (Htext (new_message (Text "hello")) "hello" eq_refl).
Defined.

Lemma dispatch_requests_witness :
  (exists command args,
      effective_message (new_message (Command "Weather" ["London"])) = Command command args
      /\ ascii_lower command = "weather" /\ args <> []
      /\ (kind (new_message (Command "Weather" ["London"])) = NewMessage
          \/ kind (new_message (Command "Weather" ["London"])) = EditedMessage))
  \/ (exists latitude longitude,
         effective_message (new_message (Command "Weather" ["London"]))
         = Location latitude longitude
         /\ kind (new_message (Command "Weather" ["London"])) = NewMessage).
Proof.
  apply (dispatch_requests fixed_repr quoted ascii_lower ascii_title "KEY" provider_london chat_delivers
           (new_message (Command "Weather" ["London"]))
           (HttpGet weather_url (city_params "KEY" "London") 12)).
  - left. reflexivity.
  - reflexivity.
Defined.

Lemma no_reply_without_message_witness :
  replies_of
    (run (dispatch fixed_repr quoted ascii_lower ascii_title "KEY" provider_london chat_delivers
            (edited_message (Command "weather" ["London"]))))
  = []
  /\ fst (dispatch fixed_repr quoted ascii_lower ascii_title "KEY" provider_london chat_delivers
            (edited_message (Command "weather" ["London"])) [])
     = Raise AttributeError.
Proof.
  exact (no_reply_without_message fixed_repr quoted ascii_lower ascii_title "KEY" provider_london chat_delivers
           (edited_message (Command "weather" ["London"])) eq_refl).
Defined.

Lemma format_forecast_defaults_witness :
  exists name segment,
    format_forecast fixed_repr quoted ascii_lower ascii_title (JDict [("list", JList london_forecast_items)])
    = Ok (("📅 *Next 36 hours for " ++ name ++ segment ++ "*")
            ++ nl ++ join nl (map bullet london_forecast_lines))
    /\ name = "location" /\ segment = EmptyString.
Proof.
  destruct (format_forecast_defaults fixed_repr quoted ascii_lower ascii_title
              [("list", JList london_forecast_items)] london_forecast_items
              london_forecast_lines eq_refl eq_refl eq_refl london_forecast_entry_lines)
    as (name & segment & H & Hname & Hsegment & _).
  exists name, segment.
  split; [exact H | split; [apply Hname | apply Hsegment]; reflexivity].
Defined.

Lemma format_forecast_country_type_witness :
  format_forecast fixed_repr quoted ascii_lower ascii_title (JDict [("city", JDict [("country", JInt 44)])])
  = Raise TypeError.
Proof.
  apply (format_forecast_country_type fixed_repr quoted ascii_lower ascii_title
           [("city", JDict [("country", JInt 44)])]).
  - reflexivity.
  - reflexivity.
  - intros s H. discriminate H.
Defined.

Lemma icon_for_thunder_witness :
  icon_for ascii_lower "Heavy THUNDERstorm with rain" = "⛈️".
Proof.
  apply (proj2 (icon_for_thunder ascii_lower "Heavy THUNDERstorm with rain")).
  exists "heavy ", "storm with rain". reflexivity.
Defined.

Lemma icon_for_ascii_case_witness :
  icon_for ascii_lower "LIGHT RAIN" = icon_for ascii_lower "Light Rain"
  /\ icon_for ascii_lower "light rain" = icon_for ascii_lower "Light Rain".
Proof.
  exact (icon_for_ascii_case ascii_lower "Light Rain" (fun _ _ => eq_refl) eq_refl).
Defined.
